(** * Course recommendation system: burnout, utility and ranking engine

    A shallow embedding of [burnout_calculator.py], [ga_recommender.py] and
    the helpers of [utils.py] they call, with the properties of the scoring
    and ranking engine stated and proved over that embedding.

    Modelling conventions.
    - A pandas DataFrame is the list of its rows; a row is a record with one
      field per column.  The subject, prerequisite and burnout tables come
      from a CSV file and have their columns.  The requirement and outcome
      tables are built by [pd.DataFrame] from a list of rows
      ([load_subject_data]) and are [DataFrame]s: the empty list gives the
      frame without columns, on which the selection of a column raises
      KeyError.
    - A numeric cell is a [float]: [None] is NaN (a missing value), [Some x]
      a number.  The burnout engine, which needs [exp] and [ln], computes
      over the reals; where a property depends on rounding, the expression
      is given a second time with the rounding of each operation explicit
      ([P_final_rounded]) or in binary64 ([P_prime_binary64]).  The
      recommender, whose arithmetic is rational, computes over [Q] and stays
      executable.
    - A Python exception is a value of [PyError]; a function that may raise
      returns a [result].
    - A [dict] is a [gmap], a [set] a [gset]; strings are byte strings, so
      [lower], [upper] and [strip] are the ASCII ones. *)

From Stdlib Require Import Reals Lra Lia QArith Qminmax String Ascii List Bool.
From Stdlib Require Import Permutation Sorted.
From Stdlib Require Lqa Floats.
From stdpp Require Import gmap strings.
Import ListNotations.
Open Scope string_scope.

(** ** Exceptions *)

Inductive PyError : Type :=
| AttributeError   (* attribute access on None *)
| TypeError        (* str indexed by a str *)
| KeyError         (* missing column or key *)
| IndexError.      (* position 0 of an empty column *)

Inductive result (A : Type) : Type :=
| Ok (a : A)
| Raise (e : PyError).
Arguments Ok {A} a.
Arguments Raise {A} e.

Definition bind {A B : Type} (m : result A) (k : A -> result B) : result B :=
  match m with
  | Ok a => k a
  | Raise e => Raise e
  end.

Notation "'do' x <- m ; k" := (bind m (fun x => k))
  (at level 10, x name, m at level 100, k at level 200).

Definition raises {A : Type} (m : result A) : Prop :=
  exists e, m = Raise e.

(** ** Python strings *)

Definition is_space (c : ascii) : bool :=
  let n := nat_of_ascii c in
  ((9 <=? n)%nat && (n <=? 13)%nat) || ((28 <=? n)%nat && (n <=? 32)%nat).

Definition lower_char (c : ascii) : ascii :=
  let n := nat_of_ascii c in
  if (65 <=? n)%nat && (n <=? 90)%nat then ascii_of_nat (n + 32) else c.

Definition upper_char (c : ascii) : ascii :=
  let n := nat_of_ascii c in
  if (97 <=? n)%nat && (n <=? 122)%nat then ascii_of_nat (n - 32) else c.

Fixpoint map_chars (f : ascii -> ascii) (s : string) : string :=
  match s with
  | EmptyString => EmptyString
  | String c s' => String (f c) (map_chars f s')
  end.

(** [s.lower()] and [s.upper()] *)
Definition lower (s : string) : string := map_chars lower_char s.
Definition upper (s : string) : string := map_chars upper_char s.

Fixpoint lstrip (s : string) : string :=
  match s with
  | EmptyString => EmptyString
  | String c s' => if is_space c then lstrip s' else s
  end.

Fixpoint rstrip (s : string) : string :=
  match s with
  | EmptyString => EmptyString
  | String c s' =>
      match rstrip s' with
      | EmptyString => if is_space c then EmptyString else String c EmptyString
      | r => String c r
      end
  end.

(** [s.strip()] *)
Definition strip (s : string) : string := rstrip (lstrip s).

(** [s.split(sep)] for a one-character separator: [''.split(',')] is [['']]. *)
Fixpoint split (sep : ascii) (s : string) : list string :=
  match s with
  | EmptyString => [EmptyString]
  | String c s' =>
      if Ascii.eqb c sep then EmptyString :: split sep s'
      else match split sep s' with
           | w :: ws => String c w :: ws
           | [] => [String c EmptyString]
           end
  end.

(** [sep.join(l)] *)
Fixpoint join (sep : string) (l : list string) : string :=
  match l with
  | [] => EmptyString
  | [w] => w
  | w :: ws => w ++ sep ++ join sep ws
  end.

(** [needle in hay] on two strings: the substring test. *)
Fixpoint contains (needle hay : string) : bool :=
  String.prefix needle hay ||
  match hay with
  | EmptyString => false
  | String _ hay' => contains needle hay'
  end.

(** A string is truthy when it is not empty. *)
Definition nonempty (s : string) : bool :=
  match s with
  | EmptyString => false
  | String _ _ => true
  end.

(** [x in l] on a list of strings. *)
Definition in_list (x : string) (l : list string) : bool :=
  existsb (String.eqb x) l.


(** ** Data model *)

(** A numeric cell of a table: [None] is NaN. *)
Definition float : Type := option R.

(** One row of [subjects_df], columns in the order [load_subject_data]
    selects them: the subject code is the first cell of the row. *)
Record Subject : Type := mkSubject {
  subject_code : string;
  name : string;
  course_outcomes : option string;
  hours_per_week : float;
  num_assignments : float;
  hours_per_assignment : float;
  assignment_weight : float;
  avg_assignment_grade : float;
  project_weight : float;
  avg_project_grade : float;
  exam_count : float;
  avg_exam_grade : float;
  exam_weight : float;
  avg_final_grade : float;
  Seats : option Q;
  Enrollments : option Q
}.

(** Rows of [requirements_df], [prereqs_df], [coreqs_df], [outcomes_df]. *)
Record Requirement : Type := mkRequirement {
  req_subject_code : string;
  requirement : string;
  req_type : string
}.

Record Prereq : Type := mkPrereq {
  pre_subject_code : string;
  prereq_subject_code : string
}.

Record Coreq : Type := mkCoreq {
  co_subject_code : string;
  coreq_subject_code : string
}.

Record Outcome : Type := mkOutcome {
  out_subject_code : string;
  outcome : string
}.

(** A frame that [pd.DataFrame] builds from a list of rows, the way
    [load_subject_data] builds the requirement and the outcome table: the
    columns are taken from the rows, so the empty list gives a frame without
    columns, on which the selection of a column raises KeyError. *)
Inductive DataFrame (A : Type) : Type :=
| NoColumns                  (* no column, no row *)
| Frame (rows : list A).     (* the columns of the rows, and the rows *)
Arguments NoColumns {A}.
Arguments Frame {A} rows.

(** [pd.DataFrame(records)] *)
Definition pd_DataFrame {A : Type} (records : list A) : DataFrame A :=
  match records with
  | [] => NoColumns
  | _ :: _ => Frame records
  end.

(** A row of the burnout table read back by [load_burnout_scores]. *)
Record BurnoutRow : Type := mkBurnoutRow {
  bs_subject_code : string;
  bs_burnout_score : Q;
  bs_utility : Q
}.

(** The value stored for a completed course: a dict that may hold the three
    recorded grades, or something that is not a dict. *)
Inductive CourseEntry : Type :=
| GradeDict (avg_assignment avg_exam avg_project : option R)
| NotADict.

(** The shapes [completed_courses] takes in the program. *)
Inductive CompletedCourses : Type :=
| CC_dict (d : gmap string CourseEntry)
| CC_set (s : gset string)
| CC_list (l : list string)
| CC_str (s : string).

Record StudentData : Type := mkStudent {
  NUid : string;
  desired_outcomes : option string;      (* None: not a str *)
  core_subjects : string;
  programming_experience : gmap string R;
  math_experience : gmap string R;
  completed_courses : CompletedCourses;
  interests : option string;             (* None: key absent *)
  semester : option Q                    (* None: absent or not a number *)
}.

(** [key in completed_courses]: key lookup on a dict, membership on a set or
    a list, the substring test on a str. *)
Definition py_in (key : string) (cc : CompletedCourses) : bool :=
  match cc with
  | CC_dict d => bool_decide (is_Some (d !! key))
  | CC_set s => bool_decide (key ∈ s)
  | CC_list l => in_list key l
  | CC_str s => contains key s
  end.

(** [completed_courses[key]]: only a dict can be indexed by a str. *)
Definition cc_getitem (cc : CompletedCourses) (key : string) : result CourseEntry :=
  match cc with
  | CC_dict d =>
      match d !! key with
      | Some e => Ok e
      | None => Raise KeyError
      end
  | CC_set _ | CC_list _ | CC_str _ => Raise TypeError
  end.

(** ** utils.py *)

(** The prerequisite codes recorded for a subject, in table order. *)
Definition prereqs_of (prereqs_df : list Prereq) (code : string) : list string :=
  map prereq_subject_code
      (List.filter (fun p => String.eqb (pre_subject_code p) code) prereqs_df).

(** The set [completed] that [prerequisites_satisfied] builds. *)
Definition completed_set (cc : CompletedCourses) : gset string :=
  match cc with
  | CC_dict d => dom d
  | CC_set s => s
  | CC_list l => list_to_set l
  | CC_str s =>
      list_to_set
        (map (fun c => upper (strip c))
             (List.filter (fun c => nonempty (strip c)) (split "," s)))
  end.

Definition prerequisites_satisfied
    (course_code : string) (student_data : StudentData) (prereqs_df : list Prereq) : bool :=
  let prereqs : gset string := list_to_set (prereqs_of prereqs_df course_code) in
  let completed := completed_set (completed_courses student_data) in
  bool_decide (prereqs ⊆ completed).

Definition standardize_student_data (student_data : StudentData) (for_burnout : bool) : StudentData :=
  let cc := completed_courses student_data in
  {| NUid := NUid student_data;
     desired_outcomes := desired_outcomes student_data;
     core_subjects := core_subjects student_data;
     programming_experience := programming_experience student_data;
     math_experience := math_experience student_data;
     completed_courses :=
       if for_burnout then
         match cc with
         | CC_list l => CC_dict (gset_to_gmap (GradeDict None None None) (list_to_set l))
         | CC_set s => CC_dict (gset_to_gmap (GradeDict None None None) s)
         | _ => cc
         end
       else
         match cc with
         | CC_dict d => CC_set (dom d)
         | CC_list l => CC_set (list_to_set l)
         | _ => cc
         end;
     interests := interests student_data;
     semester := semester student_data |}.

(** ** burnout_calculator.py *)

Section BurnoutCalculator.
Local Open Scope R_scope.

(** [get_subject]: the first row whose code matches, as a Series, or None. *)
Definition get_subject (subjects_df : list Subject) (code : string) : option Subject :=
  match List.filter (fun s => String.eqb (subject_code s) code) subjects_df with
  | [] => None
  | row :: _ => Some row
  end.

(** [x.iloc[0]] where [x] is what [get_subject] returned.  On None the
    attribute access raises; on a row (a Series indexed by column name)
    position 0 is the cell of the first column, the subject code. *)
Definition series_iloc0 (x : option Subject) : result string :=
  match x with
  | None => Raise AttributeError
  | Some row => Ok (subject_code row)
  end.

(** [s[key]] where [s] and [key] are both str: str indices must be integers. *)
Definition str_getitem {A : Type} (s key : string) : result A :=
  Raise TypeError.

(** [x.empty] where [x] is what [get_subject] returned: a Series built from
    a row is never empty, and None has no such attribute. *)
Definition series_empty (x : option Subject) : result bool :=
  match x with
  | None => Raise AttributeError
  | Some _ => Ok false
  end.

(** [v if pd.notna(v) else d]: the cell when it holds a number, else the
    default. *)
Definition or_default (v : float) (d : R) : R :=
  match v with
  | Some x => x
  | None => d
  end.

(** Arithmetic on cells: NaN is absorbing. *)
Definition fmul (a b : float) : float :=
  match a, b with
  | Some x, Some y => Some (x * y)
  | _, _ => None
  end.

Definition fsub (a b : float) : float :=
  match a, b with
  | Some x, Some y => Some (x - y)
  | _, _ => None
  end.

Definition fmap (f : R -> R) (a : float) : float :=
  match a with
  | Some x => Some (f x)
  | None => None
  end.

Record MaxValues : Type := mkMaxValues {
  Hmax : float;
  Amax : float;
  Pmax : float;
  Emax : float
}.

(** The sum of [workload_factor] on numbers.  Division and [ln] are the total
    functions of the reals. *)
Definition W_prime_value (H A P E hmax amax pmax emax : R) : R :=
  ln (1 + H / hmax) + A / amax + P / pmax + E / emax.

Definition W_prime (H A P E : R) (max_values : MaxValues) : float :=
  match Hmax max_values, Amax max_values, Pmax max_values, Emax max_values with
  | Some hmax, Some amax, Some pmax, Some emax =>
      Some (W_prime_value H A P E hmax amax pmax emax)
  | _, _, _, _ => None
  end.

Definition workload_factor
    (code : string) (subjects_df : list Subject) (max_values : MaxValues) : result float :=
  let subject_rows := get_subject subjects_df code in
  do subject <- series_iloc0 subject_rows;
  do hours <- str_getitem subject "hours_per_week";
  let H := or_default hours 0 in
  do n_assign <- str_getitem subject "num_assignments";
  let num_assignments := or_default n_assign 0 in
  do h_assign <- str_getitem subject "hours_per_assignment";
  let hours_per_assignment := or_default h_assign 0 in
  do a_weight <- str_getitem subject "assignment_weight";
  let assignment_weight := or_default a_weight 0 in
  do p_grade <- str_getitem subject "avg_project_grade";
  let avg_project_grade := or_default p_grade 0 in
  do p_weight <- str_getitem subject "project_weight";
  let project_weight := or_default p_weight 0 in
  do e_count <- str_getitem subject "exam_count";
  let exam_count := or_default e_count 0 in
  do e_grade <- str_getitem subject "avg_exam_grade";
  let avg_exam_grade := or_default e_grade 0 in
  do e_weight <- str_getitem subject "exam_weight";
  let exam_weight := or_default e_weight 0 in
  let A := num_assignments * hours_per_assignment * assignment_weight in
  let P := (100 - avg_project_grade) * project_weight in
  let E := exam_count * (100 - avg_exam_grade) * exam_weight in
  Ok (W_prime H A P E max_values).

(** [subject_reqs]: the rows of [requirements_df] for the subject. *)
Definition subject_reqs (requirements_df : list Requirement) (code : string) : list Requirement :=
  List.filter (fun r => String.eqb (req_subject_code r) code) requirements_df.

(** [min(max(level / 3.0, 0), 1)] *)
Definition proficiency (level : R) : R := Rmin (Rmax (level / 3) 0) 1.

(** [name in d] and [d[name]] on a skill map. *)
Definition has_skill (d : gmap string R) (skill : string) : bool :=
  bool_decide (is_Some (d !! skill)).

Definition skill_level (d : gmap string R) (skill : string) : R :=
  default 0 (d !! skill).

(** What one requirement adds to [total_mismatch]. *)
Definition requirement_mismatch (student_data : StudentData) (req : Requirement) : R :=
  let type := req_type req in
  let req_name := requirement req in
  if String.eqb type "programming" && has_skill (programming_experience student_data) req_name
  then 1 - proficiency (skill_level (programming_experience student_data) req_name)
  else if String.eqb type "math" && has_skill (math_experience student_data) req_name
  then 1 - proficiency (skill_level (math_experience student_data) req_name)
  else 1.

(** [requirements_df[requirements_df['subject_code'] == subject_code]]
    comes first: on the frame without columns it raises KeyError, before
    [T] is tested. *)
Definition calculate_prerequisite_mismatch_factor
    (student_data : StudentData) (code : string)
    (requirements_df : DataFrame Requirement) (prereqs_df : list Prereq) : result R :=
  match requirements_df with
  | NoColumns => Raise KeyError
  | Frame rows =>
      let reqs := subject_reqs rows code in
      let T := length reqs in
      if Nat.eqb T 0 then Ok 0
      else
        let total_mismatch :=
          fold_left (fun acc req => acc + requirement_mismatch student_data req) reqs 0 in
        Ok ((1 / INR T) * total_mismatch)
  end.

(** [max(0, min(100, g))] *)
Definition clamp_grade (g : R) : R := Rmax 0 (Rmin 100 g).

Definition S_prime_value (GA GE GP Aw Ew Pw : R) : R :=
  let stress_assignments := ((100 - GA) / 100) ^ 2 * Aw in
  let stress_exams := ((100 - GE) / 100) ^ 2 * Ew in
  let stress_projects := ((100 - GP) / 100) ^ 2 * Pw in
  (stress_assignments + stress_exams + stress_projects) / (Aw + Ew + Pw).

Definition calculate_stress_factor
    (student_data : StudentData) (code : string) (subjects_df : list Subject) : result R :=
  let subject_rows := get_subject subjects_df code in
  do subject <- series_iloc0 subject_rows;
  do a_grade <- str_getitem subject "avg_assignment_grade";
  let default_GA := or_default a_grade 70 in
  do e_grade <- str_getitem subject "avg_exam_grade";
  let default_GE := or_default e_grade 70 in
  do p_grade <- str_getitem subject "avg_project_grade";
  let default_GP := or_default p_grade 70 in
  do a_weight <- str_getitem subject "assignment_weight";
  let Aw := or_default a_weight 0 in
  do e_weight <- str_getitem subject "exam_weight";
  let Ew := or_default e_weight 0 in
  do p_weight <- str_getitem subject "project_weight";
  let Pw := or_default p_weight 0 in
  do grades <-
    (if py_in code (completed_courses student_data) then
       do completed_course <- cc_getitem (completed_courses student_data) code;
       match completed_course with
       | GradeDict ga ge gp =>
           Ok (default default_GA ga, default default_GE ge, default default_GP gp)
       | NotADict => Ok (default_GA, default_GE, default_GP)
       end
     else Ok (default_GA, default_GE, default_GP));
  let '(GA, GE, GP) := grades in
  let total_weight := Aw + Ew + Pw in
  if Req_dec_T total_weight 0 then Ok 0
  else Ok (S_prime_value (clamp_grade GA) (clamp_grade GE) (clamp_grade GP) Aw Ew Pw).

(** [Series.max()]: NaN cells are skipped; the result is NaN when no number
    is left (also on an empty column). *)
Definition series_max (col : list float) : float :=
  fold_left
    (fun acc x =>
       match acc, x with
       | None, _ => x
       | Some _, None => acc
       | Some a, Some b => Some (Rmax a b)
       end)
    col None.

(** The builtin [max(a, b)]: [b] when [b > a], else [a].  A comparison with
    NaN is False, so a NaN first argument is returned. *)
Definition py_max (a : float) (b : R) : float :=
  match a with
  | None => None
  | Some x => if Rgt_dec b x then Some b else Some x
  end.

Definition precalculate_max_values (subjects_df : list Subject) : MaxValues :=
  {| Hmax := py_max (series_max (map hours_per_week subjects_df)) 1;
     Amax := py_max (series_max (map (fun s =>
               fmul (fmul (num_assignments s) (hours_per_assignment s)) (assignment_weight s))
               subjects_df)) 1;
     Pmax := py_max (series_max (map (fun s =>
               fmul (fsub (Some 100) (avg_project_grade s)) (project_weight s))
               subjects_df)) 1;
     Emax := py_max (series_max (map (fun s =>
               fmul (fmul (exam_count s) (fsub (Some 100) (avg_exam_grade s))) (exam_weight s))
               subjects_df)) 1 |}.

Record Weights : Type := mkWeights {
  w1 : R;
  w2 : R;
  w3 : R;
  k : R;
  P0 : R
}.

Definition default_weights : Weights :=
  {| w1 := 0.4; w2 := 0.3; w3 := 0.3; k := 4; P0 := 0.5 |}.

(** [P' = w1*W' + w2*M' + w3*S'] *)
Definition P_prime (weights : Weights) (W M S : R) : R :=
  w1 weights * W + w2 weights * M + w3 weights * S.

(** [1 / (1 + exp(-k * (P' - P0)))], in exact real arithmetic *)
Definition P_final (weights : Weights) (P : R) : R :=
  1 / (1 + exp (- k weights * (P - P0 weights))).

Definition calculate_burnout
    (student_data : StudentData) (code : string)
    (subjects_df : list Subject) (requirements_df : DataFrame Requirement)
    (prereqs_df : list Prereq) (outcomes_df : DataFrame Outcome)
    (max_values : option MaxValues) (weights : option Weights) : result float :=
  let weights := default default_weights weights in
  let student_data := standardize_student_data student_data true in
  let max_values := default (precalculate_max_values subjects_df) max_values in
  do W <- workload_factor code subjects_df max_values;
  do M <- calculate_prerequisite_mismatch_factor student_data code requirements_df prereqs_df;
  do S <- calculate_stress_factor student_data code subjects_df;
  Ok (fmap (fun W => P_final weights (P_prime weights W M S)) W).

End BurnoutCalculator.

(** ** burnout_calculator.py: the burnout expression under rounding *)

Section Rounding.
Local Open Scope R_scope.

(** Lines 175 and 178 once more, with the rounding of each arithmetic
    operation written out: [rnd] rounds the real result of an operation to
    a float, [fexp] is [np.exp].  With [rnd] the identity and [fexp] the
    real exponential these are [P_prime] and [P_final]. *)
Definition P_prime_rounded (rnd : R -> R) (weights : Weights) (W M S : R) : R :=
  rnd (rnd (rnd (w1 weights * W) + rnd (w2 weights * M)) + rnd (w3 weights * S)).

Definition P_final_rounded (rnd fexp : R -> R) (weights : Weights) (P : R) : R :=
  rnd (1 / rnd (1 + fexp (rnd (- k weights * rnd (P - P0 weights))))).

(** What is used of the rounding: it keeps the order and is exact on 0,
    1/2, 1 and 2, as rounding to the nearest float is on finite values. *)
Record rounding (rnd : R -> R) : Prop := mkRounding {
  rnd_monotone : forall x y, x <= y -> rnd x <= rnd y;
  rnd_0 : rnd 0 = 0;
  rnd_half : rnd (1 / 2) = 1 / 2;
  rnd_1 : rnd 1 = 1;
  rnd_2 : rnd 2 = 2
}.

(** What is used of the exponential: it keeps the order, is not negative,
    and is 1 at 0. *)
Record exponential (fexp : R -> R) : Prop := mkExponential {
  fexp_monotone : forall x y, x <= y -> fexp x <= fexp y;
  fexp_nonneg : forall x, 0 <= fexp x;
  fexp_0 : fexp 0 = 1
}.

End Rounding.

(** Line 175 in binary64, the arithmetic of the Python floats. *)
Module Binary64.
Import PrimFloat.
Local Open Scope float_scope.
Local Set Warnings "-inexact-float".

Definition P_prime_binary64 (w1 w2 w3 W M S : PrimFloat.float) : PrimFloat.float :=
  w1 * W + w2 * M + w3 * S.

(** Line 178 in binary64, [fexp] being [np.exp]. *)
Definition P_final_binary64 (fexp : PrimFloat.float -> PrimFloat.float)
    (k P0 P : PrimFloat.float) : PrimFloat.float :=
  1 / (1 + fexp (- k * (P - P0))).

(** The default weights [w1], [w2], [w3], [k], [P0] as floats. *)
Definition default_w1 : PrimFloat.float := 0.4.
Definition default_w2 : PrimFloat.float := 0.3.
Definition default_w3 : PrimFloat.float := 0.3.
Definition default_k : PrimFloat.float := 4.
Definition default_P0 : PrimFloat.float := 0.5.

End Binary64.

(** ** Stable insertion sort, the model of the two sorts of the program *)

Section Sorting.
Context {A : Type} (le : A -> A -> bool).

Fixpoint insert_sorted (x : A) (l : list A) : list A :=
  match l with
  | [] => [x]
  | y :: l' => if le x y then x :: l else y :: insert_sorted x l'
  end.

Fixpoint sort_by (l : list A) : list A :=
  match l with
  | [] => []
  | x :: l' => insert_sorted x (sort_by l')
  end.

End Sorting.

(** ** calculate_scores, after the tables and the student file are read *)

Section CalculateScores.
Local Open Scope R_scope.

Record ScoreRow : Type := mkScoreRow {
  sc_subject_code : string;
  sc_subject_name : string;
  sc_burnout_score : float;
  sc_prerequisites : list string;
  sc_prerequisites_satisfied : bool;
  sc_utility : Z
}.

(** The builtin [round] to an integer: ties go to the even neighbour. *)
Definition round_half_even (x : R) : Z :=
  let f := Int_part x in
  let r := frac_part x in
  if Rlt_dec r (1 / 2) then f
  else if Rgt_dec r (1 / 2) then (f + 1)%Z
  else if Z.even f then f else (f + 1)%Z.

(** [round(x, 3)] *)
Definition round3 (x : R) : R := IZR (round_half_even (x * 1000)) / 1000.

(** The body of the loop of [calculate_scores] for one subject code. *)
Definition score_subject
    (student_data : StudentData) (subjects_df : list Subject)
    (requirements_df : DataFrame Requirement) (prereqs_df : list Prereq)
    (outcomes_df : DataFrame Outcome) (max_values : MaxValues) (code : string) : result ScoreRow :=
  do burnout <- calculate_burnout student_data code subjects_df requirements_df
                  prereqs_df outcomes_df (Some max_values) None;
  let prereqs := prereqs_of prereqs_df code in
  let prereqs_satisfied_val := prerequisites_satisfied code student_data prereqs_df in
  do is_empty <- series_empty (get_subject subjects_df code);
  do subject_name <-
    (if negb is_empty then
       do cell <- series_iloc0 (get_subject subjects_df code);
       str_getitem cell "name"
     else Ok "Unknown course");
  Ok {| sc_subject_code := code;
        sc_subject_name := subject_name;
        sc_burnout_score := fmap round3 burnout;
        sc_prerequisites := prereqs;
        sc_prerequisites_satisfied := prereqs_satisfied_val;
        sc_utility := 0 |}.

(** The loop over the subject codes: completed subjects are skipped, the
    first exception ends the loop. *)
Fixpoint scores_loop
    (body : string -> result ScoreRow) (completed : CompletedCourses)
    (codes : list string) : result (list ScoreRow) :=
  match codes with
  | [] => Ok []
  | code :: rest =>
      if py_in code completed then scores_loop body completed rest
      else
        do row <- body code;
        do rows <- scores_loop body completed rest;
        Ok (row :: rows)
  end.

(** Ascending order of [burnout_score], NaN last. *)
Definition burnout_le (a b : ScoreRow) : bool :=
  match sc_burnout_score a, sc_burnout_score b with
  | Some x, Some y => if Rle_dec x y then true else false
  | Some _, None => true
  | None, Some _ => false
  | None, None => true
  end.

(** [pd.DataFrame(scores).sort_values(by='burnout_score')]: a frame built
    from an empty list has no columns, and sorting it by a column it does
    not have raises.  (pandas does not promise the order of ties; the model
    keeps them in loop order.) *)
Definition sort_values_by_burnout (scores : list ScoreRow) : result (list ScoreRow) :=
  match scores with
  | [] => Raise KeyError
  | _ => Ok (sort_by burnout_le scores)
  end.

Definition calculate_scores
    (student_data : StudentData) (subjects_df : list Subject)
    (requirements_df : DataFrame Requirement) (prereqs_df : list Prereq)
    (outcomes_df : DataFrame Outcome) : result (list ScoreRow) :=
  let max_values := precalculate_max_values subjects_df in
  do scores <- scores_loop
                 (score_subject student_data subjects_df requirements_df prereqs_df
                                outcomes_df max_values)
                 (completed_courses student_data)
                 (map subject_code subjects_df);
  sort_values_by_burnout scores.

End CalculateScores.

(** ** ga_recommender.py: the utility function *)

Section Utility.
Local Open Scope R_scope.

Definition jaccard_similarity (set1 set2 : gset string) : R :=
  if bool_decide (set1 = ∅) || bool_decide (set2 = ∅) then 0
  else
    let intersection := size (set1 ∩ set2) in
    let union := size (set1 ∪ set2) in
    if Nat.eqb union 0 then 0
    else INR intersection / INR union.

(** The test of [desired_outcomes] comes first; then
    [outcomes_df[outcomes_df['subject_code'] == subject_code]], which raises
    KeyError on the frame without columns. *)
Definition calculate_outcome_alignment_score
    (student_data : StudentData) (code : string) (outcomes_df : DataFrame Outcome) : result R :=
  match desired_outcomes student_data with
  | None => Ok 0
  | Some desired =>
      if negb (nonempty desired) then Ok 0
      else
        let student_outcomes : gset string :=
          list_to_set (map strip (split "," desired)) in
        match outcomes_df with
        | NoColumns => Raise KeyError
        | Frame rows =>
            let subject_outcomes : gset string :=
              list_to_set (map outcome
                (List.filter (fun o => String.eqb (out_subject_code o) code) rows)) in
            Ok (jaccard_similarity student_outcomes subject_outcomes)
        end
  end.

Record UtilityWeights : Type := mkUtilityWeights {
  alpha : R;
  beta : R;
  delta : R
}.

Definition default_utility_weights : UtilityWeights :=
  {| alpha := 0.5; beta := 0.5; delta := 0.5 |}.

(** The value [prereq_penalty] has when the utility is computed. *)
Definition prereq_penalty (student_data : StudentData) (prereq_courses : list string) : R :=
  match prereq_courses with
  | [] => 0
  | _ :: _ =>
      let prereqs_satisfied :=
        forallb (fun prereq => py_in prereq (completed_courses student_data)) prereq_courses in
      if negb prereqs_satisfied then 1 else 0
  end.

(** [alpha * oas + beta * (1 - burnout_prob) - delta * prereq_penalty] *)
Definition utility_value (uw : UtilityWeights) (oas burnout_prob penalty : R) : R :=
  alpha uw * oas + beta uw * (1 - burnout_prob) - delta uw * penalty.

Definition calculate_utility
    (student_data : StudentData) (code : string)
    (subjects_df : list Subject) (requirements_df : DataFrame Requirement)
    (prereqs_df : list Prereq) (outcomes_df : DataFrame Outcome)
    (utility_weights : option UtilityWeights) : result float :=
  let utility_weights := default default_utility_weights utility_weights in
  let burnout_student_data := standardize_student_data student_data true in
  do burnout_prob <- calculate_burnout burnout_student_data code subjects_df requirements_df
                       prereqs_df outcomes_df None None;
  do oas <- calculate_outcome_alignment_score student_data code outcomes_df;
  let prereq_courses := prereqs_of prereqs_df code in
  let penalty := prereq_penalty student_data prereq_courses in
  Ok (fmap (fun b => utility_value utility_weights oas b penalty) burnout_prob).

End Utility.

(** ** ga_recommender.py: matching and ranking *)

Section Recommender.
Local Open Scope Q_scope.

(** Comparisons of the recommender, as booleans. *)
Definition Qltb (a b : Q) : bool := negb (Qle_bool b a).

(** The builtin [min(a, b)]: [b] when [b < a], else [a]. *)
Definition py_min (a b : Q) : Q := if Qltb b a then b else a.

Definition calculate_enrollment_likelihood
    (semester : Q) (is_core : bool) (seats enrollments : Q) : Q :=
  let seats_ratio := if Qltb 0 seats then (seats - enrollments) / seats else 0 in
  let base_likelihood := if Qle_bool seats_ratio 0 then 0.1 else seats_ratio in
  let semester_multiplier := py_min (semester / 4) 1 in
  let core_multiplier := if is_core then 1.5 else 1 in
  let final_likelihood := base_likelihood * semester_multiplier * core_multiplier in
  py_min final_likelihood 1.

(** The reason strings of a match, by the template that builds them. *)
Inductive Reason : Type :=
| TitleMatchesInterest (interest : string)
| CoversTopicsIn (interest : string)
| IncludesTechnologies (keyword : string)
| PrerequisitesNotCompleted
| LowBurnoutRisk (utility : Q)
| LowModerateBurnoutRisk (utility : Q)
| HighBurnoutRisk (utility : Q)
| CoreSubjectRequirement.

Record MatchingCourse : Type := mkMatchingCourse {
  mc_subject_code : string;
  mc_name : string;
  mc_match_score : Q;
  mc_likelihood : Q;
  mc_seats : Q;
  mc_enrollments : Q;
  mc_burnout_score : option Q;
  mc_utility_score : option Q;
  mc_reasons : list Reason;
  mc_is_core : bool
}.

Definition interest_keywords : gmap string (list string) :=
  list_to_map
    [ ("ai", ["artificial intelligence"; "machine learning"; "deep learning"; "neural"; "nlp"]);
      ("web", ["web"; "javascript"; "frontend"; "backend"; "full-stack"; "react"; "node"]);
      ("data", ["data"; "analytics"; "database"; "sql"; "big data"; "visualization"]);
      ("security", ["security"; "cryptography"; "cyber"; "network security"]);
      ("mobile", ["mobile"; "ios"; "android"; "app development"]);
      ("systems", ["operating system"; "distributed"; "parallel"; "architecture"]);
      ("programming", ["python"; "java"; "c++"; "algorithms"; "software engineering"]);
      ("computer science", ["algorithms"; "data structures"; "programming"; "software"]) ].

(** The interests of the student, with the defaults when none is given. *)
Definition student_interests_of (interests : string) : list string :=
  let student_interests := map (fun interest => strip (lower interest)) (split "," interests) in
  match student_interests with
  | [] => ["computer science"; "data science"; "programming"]
  | [i] => if negb (nonempty i)
           then ["computer science"; "data science"; "programming"]
           else student_interests
  | _ => student_interests
  end.

(** The running [score] and [reasons] of one course. *)
Definition Scored : Type := (Q * list Reason)%type.

Definition add_score (st : Scored) (d : Q) (r : Reason) : Scored :=
  (fst st + d, app (snd st) [r]).

(** Step 1: interest matches in the course name and in its outcomes. *)
Definition interest_step (course_name course_outcomes : string) (st : Scored) (interest : string)
    : Scored :=
  let st := if contains interest course_name
            then add_score st 0.4 (TitleMatchesInterest interest) else st in
  if contains interest course_outcomes
  then add_score st 0.3 (CoversTopicsIn interest) else st.

(** Step 2: keyword hits for the interests that name a keyword category. *)
Definition keyword_step (course_outcomes : string) (st : Scored) (interest : string) : Scored :=
  match interest_keywords !! interest with
  | Some keywords =>
      fold_left
        (fun st keyword =>
           if contains keyword course_outcomes
           then add_score st 0.2 (IncludesTechnologies keyword) else st)
        keywords st
  | None => st
  end.

(** [code in student_data['core_subjects'].split(',')] *)
Definition is_core_subject (student_data : StudentData) (code : string) : bool :=
  in_list code (split "," (core_subjects student_data)).

(** Step 3: the likelihood; when the computation raises, 0.5. *)
Definition course_likelihood (student_data : StudentData) (course : Subject) : Q :=
  match semester student_data with
  | Some sem =>
      calculate_enrollment_likelihood sem
        (is_core_subject student_data (subject_code course))
        (default 0 (Seats course)) (default 0 (Enrollments course))
  | None => 0.5
  end.

(** Step 4: unmet prerequisites halve the score. *)
Definition prereq_step (student_data : StudentData) (prereqs_df : list Prereq)
    (code : string) (st : Scored) : Scored :=
  if negb (prerequisites_satisfied code student_data prereqs_df)
  then (fst st * 0.5, app (snd st) [PrerequisitesNotCompleted])
  else st.

(** Step 5: the row of the burnout table for the course, if any. *)
Definition burnout_row_of (burnout_scores_df : option (list BurnoutRow)) (code : string)
    : option BurnoutRow :=
  match burnout_scores_df with
  | None => None
  | Some df =>
      match List.filter (fun r => String.eqb (bs_subject_code r) code) df with
      | [] => None
      | row :: _ => Some row
      end
  end.

Definition burnout_step (row : option BurnoutRow) (st : Scored) : Scored :=
  match row with
  | None => st
  | Some r =>
      let utility_score := bs_utility r in
      if Qltb 0 utility_score then
        let score_boost := utility_score * 0.5 in
        (fst st + score_boost,
         app (snd st) [if Qltb 0.15 utility_score
                       then LowBurnoutRisk utility_score
                       else LowModerateBurnoutRisk utility_score])
      else if Qltb utility_score 0 then
        (fst st * (1 + utility_score), app (snd st) [HighBurnoutRisk utility_score])
      else st
  end.

(** [score] and [reasons] of a course when the inclusion test is reached. *)
Definition course_score
    (student_data : StudentData) (student_interests : list string)
    (prereqs_df : list Prereq) (burnout_scores_df : option (list BurnoutRow))
    (course : Subject) : Scored :=
  let course_name := lower (name course) in
  let course_outcomes :=
    match course_outcomes course with
    | Some o => lower o
    | None => ""
    end in
  let st : Scored := (0, []) in
  let st := fold_left (interest_step course_name course_outcomes) student_interests st in
  let st := fold_left (keyword_step course_outcomes) student_interests st in
  let st := prereq_step student_data prereqs_df (subject_code course) st in
  burnout_step (burnout_row_of burnout_scores_df (subject_code course)) st.

(** One iteration of the loop: the entry appended for the course, if any. *)
Definition match_course
    (student_data : StudentData) (student_interests : list string)
    (prereqs_df : list Prereq) (burnout_scores_df : option (list BurnoutRow))
    (course : Subject) : option MatchingCourse :=
  if py_in (subject_code course) (completed_courses student_data) then None
  else
    let st := course_score student_data student_interests prereqs_df burnout_scores_df course in
    let likelihood := course_likelihood student_data course in
    let row := burnout_row_of burnout_scores_df (subject_code course) in
    let is_core := is_core_subject student_data (subject_code course) in
    if Qltb 0.3 (fst st) || is_core then
      let st := if is_core then add_score st 0.5 CoreSubjectRequirement else st in
      Some {| mc_subject_code := subject_code course;
              mc_name := name course;
              mc_match_score := fst st;
              mc_likelihood := likelihood;
              mc_seats := default 0 (Seats course);
              mc_enrollments := default 0 (Enrollments course);
              mc_burnout_score := option_map bs_burnout_score row;
              mc_utility_score := option_map bs_utility row;
              mc_reasons := snd st;
              mc_is_core := is_core |}
    else None.

Fixpoint matching_loop (f : Subject -> option MatchingCourse) (subjects_df : list Subject)
    : list MatchingCourse :=
  match subjects_df with
  | [] => []
  | course :: rest =>
      match f course with
      | Some m => m :: matching_loop f rest
      | None => matching_loop f rest
      end
  end.

(** The second component of the sort key. *)
Definition composite (x : MatchingCourse) : Q :=
  mc_match_score x * 0.5 + default 0 (mc_utility_score x) * 0.3 + mc_likelihood x * 0.2.

(** [key x >= key y] for the key [(is_core, composite)]: tuples compare
    lexicographically and [False < True]. *)
Definition key_ge (x y : MatchingCourse) : bool :=
  match mc_is_core x, mc_is_core y with
  | true, false => true
  | false, true => false
  | _, _ => Qle_bool (composite y) (composite x)
  end.

Definition find_matching_courses
    (student_data : StudentData) (subjects_df : list Subject)
    (outcomes_df : DataFrame Outcome) (prereqs_df : list Prereq) (coreqs_df : list Coreq)
    (burnout_scores_df : option (list BurnoutRow)) : result (list MatchingCourse) :=
  match interests student_data with
  | None => Raise KeyError
  | Some interests =>
      let student_interests := student_interests_of interests in
      let matching_courses :=
        matching_loop
          (match_course student_data student_interests prereqs_df burnout_scores_df)
          subjects_df in
      Ok (sort_by key_ge matching_courses)
  end.

(** The split of [generate_recommendations]. *)
Fixpoint partition_courses (matching_courses : list MatchingCourse)
    : list MatchingCourse * list MatchingCourse :=
  match matching_courses with
  | [] => ([], [])
  | course :: rest =>
      let '(recommended_courses, highly_competitive_courses) := partition_courses rest in
      if Qltb (mc_likelihood course) 0.3
      then (recommended_courses, course :: highly_competitive_courses)
      else (course :: recommended_courses, highly_competitive_courses)
  end.

(** [student_data['interests'] += ',' + ','.join(additional_interests)] when
    additional interests are given. *)
Definition add_interests (student_data : StudentData) (additional_interests : list string)
    : result StudentData :=
  match additional_interests with
  | [] => Ok student_data
  | _ :: _ =>
      match interests student_data with
      | None => Raise KeyError
      | Some i =>
          Ok {| NUid := NUid student_data;
                desired_outcomes := desired_outcomes student_data;
                core_subjects := core_subjects student_data;
                programming_experience := programming_experience student_data;
                math_experience := math_experience student_data;
                completed_courses := completed_courses student_data;
                interests := Some (i ++ "," ++ join "," additional_interests);
                semester := semester student_data |}
      end
  end.

(** [generate_recommendations], after the tables, the burnout table and the
    student file are read: [student_data] is what [get_student_data]
    returned, None when the student file does not exist (an exception of
    [get_student_data] is passed on before this point). *)
Definition generate_recommendations
    (student_data : option StudentData) (subjects_df : list Subject)
    (outcomes_df : DataFrame Outcome) (prereqs_df : list Prereq) (coreqs_df : list Coreq)
    (burnout_scores_df : option (list BurnoutRow)) (additional_interests : list string)
    : result (option (list MatchingCourse * list MatchingCourse)) :=
  match student_data with
  | None => Ok None
  | Some student_data =>
      do student_data <- add_interests student_data additional_interests;
      do matching_courses <-
        find_matching_courses student_data subjects_df outcomes_df prereqs_df coreqs_df
                              burnout_scores_df;
      Ok (Some (partition_courses matching_courses))
  end.

End Recommender.

(** ** utils.py and ga_recommender.py: reading the burnout table and the student file *)

Section Readers.

(** [drop_duplicates(subset=['subject_code'])]: of the rows with the same
    subject code the first one is kept. *)
Fixpoint drop_duplicates (seen : gset string) (df : list BurnoutRow) : list BurnoutRow :=
  match df with
  | [] => []
  | row :: rest =>
      if bool_decide (bs_subject_code row ∈ seen) then drop_duplicates seen rest
      else row :: drop_duplicates ({[ bs_subject_code row ]} ∪ seen) rest
  end.

(** [load_burnout_scores], [file] being the content of the burnout table of
    the student: [None] when it cannot be read. *)
Definition load_burnout_scores (file : option (list BurnoutRow)) : option (list BurnoutRow) :=
  match file with
  | Some scores_df => Some (drop_duplicates ∅ scores_df)
  | None => None
  end.

(** The student file as [pd.read_csv] parses it, the four columns that
    [get_student_data] reads: [None] when the file has no such column, else
    the cells of the column from the first row on (none when the file has a
    header only); an empty cell is NaN. *)
Record StudentFile : Type := mkStudentFile {
  sf_NUid : option (list string);
  sf_completed_courses : option (list (option string));
  sf_core_subjects : option (list (option string));
  sf_desired_outcomes : option (list (option string))
}.

(** [student_df[col].iloc[0]]: KeyError without the column, IndexError
    without a first row. *)
Definition column_iloc0 {A : Type} (col : option (list A)) : result A :=
  match col with
  | None => Raise KeyError
  | Some [] => Raise IndexError
  | Some (cell :: _) => Ok cell
  end.

(** [str(cell)] *)
Definition str_of_cell (cell : option string) : string :=
  match cell with
  | Some s => s
  | None => "nan"
  end.

(** [get_student_data], [file] being the student file: [None] when it does
    not exist (FileNotFoundError, the one exception that is caught).  The
    entries of the dict are evaluated in the order they are written. *)
Definition get_student_data (file : option StudentFile) (sem : option Q)
    : result (option StudentData) :=
  match file with
  | None => Ok None
  | Some student_df =>
      do nuid <- column_iloc0 (sf_NUid student_df);
      do completed_cell <- column_iloc0 (sf_completed_courses student_df);
      let completed : gset string :=
        match completed_cell with
        | Some cell =>
            if nonempty (strip cell) then list_to_set (map upper (split "," cell)) else ∅
        | None => ∅
        end in
      do core_cell <- column_iloc0 (sf_core_subjects student_df);
      do wanted_cell <- column_iloc0 (sf_desired_outcomes student_df);
      let wanted :=
        match wanted_cell with
        | Some d => d
        | None => "computer science"
        end in
      let raw_student_data :=
        {| NUid := nuid;
           desired_outcomes := Some wanted;
           core_subjects := upper (str_of_cell core_cell);
           programming_experience := ∅;
           math_experience := ∅;
           completed_courses := CC_set completed;
           interests := Some wanted;
           semester := sem |} in
      Ok (Some (standardize_student_data raw_student_data false))
  end.

End Readers.

(** ** utils.py: the relation tables that load_subject_data extracts *)

Section Loader.

(** [s.split(', ')] *)
Fixpoint split_comma_space (s : string) : list string :=
  match s with
  | EmptyString => [EmptyString]
  | String c s' =>
      let keep :=
        match split_comma_space s' with
        | w :: ws => String c w :: ws
        | [] => [String c EmptyString]
        end in
      if Ascii.eqb c "," then
        match s' with
        | String c' s'' =>
            if Ascii.eqb c' " " then EmptyString :: split_comma_space s'' else keep
        | EmptyString => keep
        end
      else keep
  end.

(** A row of the subject file, the text cells that the extraction reads:
    [None] is a cell that is NaN or not a str. *)
Record RawSubject : Type := mkRawSubject {
  raw_Subject : string;
  raw_course_outcomes : option string;
  raw_Prerequisite : option string;
  raw_Corequisite : option string;
  raw_programming_knowledge : option string;
  raw_math_requirements : option string
}.

(** The loop that fills [outcomes]. *)
Definition extract_outcomes (df : list RawSubject) : list Outcome :=
  flat_map
    (fun row =>
       match raw_course_outcomes row with
       | None => []
       | Some course_outcomes =>
           map (fun o => {| out_subject_code := raw_Subject row; outcome := strip o |})
               (split_comma_space course_outcomes)
       end)
    df.

(** [df[df['Prerequisite'] != 'None'][['Subject', 'Prerequisite']].dropna()] *)
Definition extract_prereqs (df : list RawSubject) : list Prereq :=
  flat_map
    (fun row =>
       match raw_Prerequisite row with
       | None => []
       | Some cell =>
           if String.eqb cell "None" then []
           else [{| pre_subject_code := raw_Subject row; prereq_subject_code := cell |}]
       end)
    df.

Definition extract_coreqs (df : list RawSubject) : list Coreq :=
  flat_map
    (fun row =>
       match raw_Corequisite row with
       | None => []
       | Some cell =>
           if String.eqb cell "None" then []
           else [{| co_subject_code := raw_Subject row; coreq_subject_code := cell |}]
       end)
    df.

(** The requirement rows of one cell. *)
Definition cell_requirements (code : string) (cell : option string) (type : string)
    : list Requirement :=
  match cell with
  | None => []
  | Some reqs =>
      if String.eqb reqs "None" then []
      else map (fun req => {| req_subject_code := code; requirement := strip req;
                              req_type := type |})
               (split_comma_space reqs)
  end.

(** The loop that fills [requirements]. *)
Definition extract_requirements (df : list RawSubject) : list Requirement :=
  flat_map
    (fun row =>
       app (cell_requirements (raw_Subject row) (raw_programming_knowledge row) "programming")
           (cell_requirements (raw_Subject row) (raw_math_requirements row) "math"))
    df.

End Loader.

(** ** ui_recommender.py: the enrollment status shown with a course *)

Section Display.
Local Open Scope Q_scope.

(** The messages of [get_enrollment_status]. *)
Inductive EnrollmentStatus : Type :=
| DataNotAvailable
| ClassFull
| LimitedSeats
| FillingUp
| GoodAvailability.

Definition get_enrollment_status (seats enrollments : Q) : EnrollmentStatus :=
  if Qle_bool seats 0 || Qle_bool enrollments 0 then DataNotAvailable
  else
    let enrollment_ratio := enrollments / seats in
    if Qle_bool 1 enrollment_ratio then ClassFull
    else if Qle_bool 0.9 enrollment_ratio then LimitedSeats
    else if Qle_bool 0.75 enrollment_ratio then FillingUp
    else GoodAvailability.

End Display.

(** ** Predicates and sample data of the statements *)

(** The exception a lookup of the subject ends in. *)
Definition lookup_error (x : option Subject) : PyError :=
  match x with
  | Some _ => TypeError
  | None => AttributeError
  end.

(** A cell that holds a number which is at least 1; NaN does not qualify. *)
Definition at_least_one (a : float) : Prop :=
  match a with
  | Some x => (1 <= x)%R
  | None => False
  end.



Definition sample_subject (code title : string) (outcomes : option string)
    (hours : float) (seats enrollments : Q) : Subject :=
  {| subject_code := code;
     name := title;
     course_outcomes := outcomes;
     hours_per_week := hours;
     num_assignments := Some 5%R;
     hours_per_assignment := Some 4%R;
     assignment_weight := Some 0.4%R;
     avg_assignment_grade := Some 85%R;
     project_weight := Some 0.3%R;
     avg_project_grade := Some 80%R;
     exam_count := Some 2%R;
     avg_exam_grade := Some 75%R;
     exam_weight := Some 0.3%R;
     avg_final_grade := Some 80%R;
     Seats := Some seats;
     Enrollments := Some enrollments |}.

Definition sample_student (core : string) (completed : CompletedCourses)
    (wanted : string) : StudentData :=
  {| NUid := "12345";
     desired_outcomes := Some wanted;
     core_subjects := core;
     programming_experience := {[ "Python" := 2%R ]};
     math_experience := ∅;
     completed_courses := completed;
     interests := Some wanted;
     semester := Some 4%Q |}.

Definition cs5001 : Subject :=
  sample_subject "CS5001" "Intensive Foundations of Computer Science"
                 (Some "Python, Problem Solving") (Some 10%R) 100 95.

Definition cs5002 : Subject :=
  sample_subject "CS5002" "Discrete Structures" (Some "Logic, Proofs") (Some 8%R) 100 100.

Definition cs5003 : Subject :=
  sample_subject "CS5003" "Algorithms in Computer Science" (Some "Algorithms, Data Structures")
                 (Some 12%R) 100 10.

(** A student in the first semester whose only core subject is CS5003. *)
Definition first_semester_student : StudentData :=
  {| NUid := "67890";
     desired_outcomes := Some "computer science";
     core_subjects := "CS5003";
     programming_experience := ∅;
     math_experience := ∅;
     completed_courses := CC_set ∅;
     interests := Some "computer science";
     semester := Some 1%Q |}.

(** The enrollment likelihood in the words of the specification. *)
Definition likelihood_spec (semester : Q) (is_core : bool) (seats enrollments : Q) : Q :=
  let base := if Qlt_le_dec 0 seats then ((seats - enrollments) / seats)%Q else 0%Q in
  let base := if Qlt_le_dec 0 base then base else 0.1%Q in
  Qmin (base * Qmin (semester / 4) 1 * (if is_core then 1.5 else 1))%Q 1.

(** A subject whose derived workload quantities are all 0. *)
Definition all_zero_subject : Subject :=
  {| subject_code := "CS0000"; name := "Seminar"; course_outcomes := None;
     hours_per_week := Some 0%R; num_assignments := Some 0%R;
     hours_per_assignment := Some 0%R; assignment_weight := Some 0%R;
     avg_assignment_grade := Some 100%R; project_weight := Some 0%R;
     avg_project_grade := Some 100%R; exam_count := Some 0%R;
     avg_exam_grade := Some 100%R; exam_weight := Some 0%R;
     avg_final_grade := Some 100%R; Seats := Some 0%Q; Enrollments := Some 0%Q |}.

(** The subject CS5001 with its weekly-workload cell left empty. *)
Definition missing_hours_subject : Subject :=
  sample_subject "CS5001" "Intensive Foundations of Computer Science"
                 (Some "Python, Problem Solving") None 100 95.

(** * Properties *)

(** Case analysis on the comparisons of reals that a goal branches on. *)
Ltac case_Rdec :=
  repeat match goal with
         | |- context [Rle_dec ?a ?b] => destruct (Rle_dec a b)
         | |- context [Rgt_dec ?a ?b] => destruct (Rgt_dec a b)
         | |- context [Rlt_dec ?a ?b] => destruct (Rlt_dec a b)
         end.

Create HintDb recommender.

(** ** The string functions on examples *)

Example split_ex : split "," "ai, web,," = ["ai"; " web"; ""; ""].
Proof. reflexivity. Qed.
Example strip_ex : strip "  Data Science " = "Data Science".
Proof. reflexivity. Qed.
Example lower_ex : lower "Data Science 101" = "data science 101".
Proof. reflexivity. Qed.
Example contains_ex : contains "sci" "data science" = true /\ contains "" "x" = true /\ contains "z" "data" = false.
Proof. repeat split; reflexivity. Qed.
Example join_ex : join "," ["a"; "b"; "c"] = "a,b,c".
Proof. reflexivity. Qed.

(** ** Exceptions of the subject lookup *)

Section LookupFacts.

Lemma get_subject_None (subjects_df : list Subject) (code : string) :
  get_subject subjects_df code = None <-> ~ In code (map subject_code subjects_df).
Proof.
  unfold get_subject. induction subjects_df as [|s df IH]; simpl.
  - tauto.
  - destruct (String.eqb_spec (subject_code s) code) as [E|E]; simpl.
    + split; [discriminate | intros H; exfalso; apply H; now left].
    + rewrite IH. split.
      * intros H [H1|H1]; [congruence | exact (H H1)].
      * intros H H1. apply H. now right.
Qed.

Lemma get_subject_Some (subjects_df : list Subject) (code : string) :
  In code (map subject_code subjects_df) ->
  exists row, get_subject subjects_df code = Some row /\ subject_code row = code.
Proof.
  unfold get_subject. induction subjects_df as [|s df IH]; simpl; [tauto|].
  intros H. destruct (String.eqb_spec (subject_code s) code) as [E|E].
  - exists s. split; [reflexivity | exact E].
  - destruct H as [H|H]; [congruence | exact (IH H)].
Qed.

(** [workload_factor] never returns: on a missing subject [None.iloc]
    raises, and on a catalog subject the second [.iloc[0]] yields the code
    cell, which is then indexed by a column name. *)
Lemma workload_factor_raises (code : string) (subjects_df : list Subject) (mv : MaxValues) :
  workload_factor code subjects_df mv =
  Raise (lookup_error (get_subject subjects_df code)).
Proof.
  unfold workload_factor. destruct (get_subject subjects_df code); reflexivity.
Qed.

Lemma calculate_burnout_raises
    (st : StudentData) (code : string) (subjects_df : list Subject)
    (requirements_df : DataFrame Requirement) (prereqs_df : list Prereq)
    (outcomes_df : DataFrame Outcome) (mv : option MaxValues) (w : option Weights) :
  calculate_burnout st code subjects_df requirements_df prereqs_df outcomes_df mv w =
  Raise (lookup_error (get_subject subjects_df code)).
Proof.
  unfold calculate_burnout. rewrite workload_factor_raises. reflexivity.
Qed.

Lemma calculate_burnout_catalog_raises
    (st : StudentData) (code : string) (subjects_df : list Subject)
    (requirements_df : DataFrame Requirement) (prereqs_df : list Prereq)
    (outcomes_df : DataFrame Outcome) (mv : option MaxValues) (w : option Weights) :
  In code (map subject_code subjects_df) ->
  calculate_burnout st code subjects_df requirements_df prereqs_df outcomes_df mv w =
  Raise TypeError.
Proof.
  intros H. destruct (get_subject_Some _ _ H) as (row & Hrow & _).
  rewrite calculate_burnout_raises, Hrow. reflexivity.
Qed.

Lemma calculate_utility_raises
    (st : StudentData) (code : string) (subjects_df : list Subject)
    (requirements_df : DataFrame Requirement) (prereqs_df : list Prereq)
    (outcomes_df : DataFrame Outcome) (uw : option UtilityWeights) :
  calculate_utility st code subjects_df requirements_df prereqs_df outcomes_df uw =
  Raise (lookup_error (get_subject subjects_df code)).
Proof.
  unfold calculate_utility. rewrite calculate_burnout_raises. reflexivity.
Qed.

End LookupFacts.

(** ** The burnout probability *)

Section BurnoutProperties.
Local Open Scope R_scope.

(** In exact real arithmetic the logistic squash lies strictly between 0
    and 1 for every argument. *)
Lemma P_final_range (w : Weights) (p : R) : 0 < P_final w p < 1.
Proof.
  unfold P_final.
  pose proof (exp_pos (- k w * (p - P0 w))) as He.
  set (e := exp (- k w * (p - P0 w))) in *.
  assert (Hd : 0 < 1 + e) by lra.
  split.
  - apply Rdiv_lt_0_compat; lra.
  - apply (Rmult_lt_reg_r (1 + e)); [exact Hd|].
    unfold Rdiv. rewrite Rmult_assoc, Rinv_l by lra. lra.
Qed.

Lemma P_final_increasing (w : Weights) (p q : R) :
  0 < k w -> p < q -> P_final w p < P_final w q.
Proof.
  intros Hk Hpq. unfold P_final.
  assert (He : exp (- k w * (q - P0 w)) < exp (- k w * (p - P0 w))).
  { apply exp_increasing. nra. }
  pose proof (exp_pos (- k w * (q - P0 w))) as Hq.
  pose proof (exp_pos (- k w * (p - P0 w))) as Hp.
  unfold Rdiv. rewrite !Rmult_1_l.
  apply Rinv_lt_contravar.
  - apply Rmult_lt_0_compat; lra.
  - lra.
Qed.

(** C1.  [calculate_burnout] on a subject of the catalog: the call ends in a
    TypeError instead of returning a probability in [0,1].  [get_subject]
    already returns the row, so the [.iloc[0]] of [workload_factor] picks the
    subject-code cell of that row and the next line indexes this str by a
    column name. *)
Theorem calculate_burnout_catalog_subject_raises :
  In "CS5001" (map subject_code [cs5001; cs5002]) /\
  calculate_burnout (sample_student "" (CC_dict ∅) "Python") "CS5001"
                    [cs5001; cs5002] NoColumns [] NoColumns
                    (Some (precalculate_max_values [cs5001; cs5002]))
                    (Some default_weights)
  = Raise TypeError.
Proof.
  split.
  - simpl. now left.
  - rewrite calculate_burnout_raises. reflexivity.
Qed.

(** The same holds for every subject of every catalog. *)
Lemma calculate_burnout_never_returns
    (st : StudentData) (code : string) (subjects_df : list Subject)
    (requirements_df : DataFrame Requirement) (prereqs_df : list Prereq)
    (outcomes_df : DataFrame Outcome) (mv : option MaxValues) (w : option Weights) :
  raises (calculate_burnout st code subjects_df requirements_df prereqs_df outcomes_df mv w).
Proof.
  rewrite calculate_burnout_raises. eexists. reflexivity.
Qed.

(** C2.  A subject code that is absent from the catalog makes
    [calculate_burnout] raise (the AttributeError of [None.iloc]); no value
    is returned in its place, and the exception reaches the callers
    [calculate_utility] and [score_subject] unchanged. *)
Theorem calculate_burnout_missing_subject_raises
    (st : StudentData) (code : string) (subjects_df : list Subject)
    (requirements_df : DataFrame Requirement) (prereqs_df : list Prereq)
    (outcomes_df : DataFrame Outcome) (mv : option MaxValues) (w : option Weights)
    (uw : option UtilityWeights) (mv' : MaxValues) :
  ~ In code (map subject_code subjects_df) ->
  calculate_burnout st code subjects_df requirements_df prereqs_df outcomes_df mv w
    = Raise AttributeError /\
  (forall v,
     calculate_burnout st code subjects_df requirements_df prereqs_df outcomes_df mv w
       <> Ok v) /\
  calculate_utility st code subjects_df requirements_df prereqs_df outcomes_df uw
    = Raise AttributeError /\
  score_subject st subjects_df requirements_df prereqs_df outcomes_df mv' code
    = Raise AttributeError.
Proof.
  intros Habs. apply get_subject_None in Habs.
  assert (Hb : forall st mv w,
    calculate_burnout st code subjects_df requirements_df prereqs_df outcomes_df mv w
    = Raise AttributeError).
  { intros. rewrite calculate_burnout_raises, Habs. reflexivity. }
  repeat split.
  - apply Hb.
  - intros v. rewrite Hb. discriminate.
  - unfold calculate_utility. rewrite Hb. reflexivity.
  - unfold score_subject. rewrite Hb. reflexivity.
Qed.

Lemma calculate_burnout_missing_subject_raises_witness :
  ~ In "CS9999" (map subject_code [cs5001; cs5002]) /\
  calculate_burnout (sample_student "" (CC_dict ∅) "Python") "CS9999"
                    [cs5001; cs5002] NoColumns [] NoColumns None None
  = Raise AttributeError.
Proof.
  assert (H : ~ In "CS9999" (map subject_code [cs5001; cs5002])).
  { simpl. intros [H|[H|[]]]; discriminate H. }
  split; [exact H|].
  exact (proj1 (calculate_burnout_missing_subject_raises
                  (sample_student "" (CC_dict ∅) "Python") "CS9999" [cs5001; cs5002]
                  NoColumns [] NoColumns None None None (precalculate_max_values [cs5001; cs5002]) H)).
Defined.

End BurnoutProperties.

(** ** The normalization maxima *)

Section MaxValuesProperties.
Local Open Scope R_scope.

Lemma py_max_at_least_one (a : float) :
  a <> None -> at_least_one (py_max a 1).
Proof.
  destruct a as [x|]; [intros _ | congruence].
  unfold py_max. destruct (Rgt_dec 1 x); simpl; lra.
Qed.

Lemma py_max_nan (b : R) : py_max None b = None.
Proof. reflexivity. Qed.

Lemma fold_max_notna (col : list float) (acc : float) :
  acc <> None \/ (exists x, In (Some x) col) ->
  fold_left
    (fun acc x =>
       match acc, x with
       | None, _ => x
       | Some _, None => acc
       | Some a, Some b => Some (Rmax a b)
       end) col acc <> None.
Proof.
  revert acc. induction col as [|c col IH]; intros acc H; simpl.
  - destruct H as [H|[x []]]. exact H.
  - apply IH. destruct acc as [a|], c as [b|]; try (left; discriminate).
    right. destruct H as [H|[x [H|H]]]; [congruence | discriminate | eauto].
Qed.

Lemma series_max_notna (col : list float) :
  (exists x, In (Some x) col) -> series_max col <> None.
Proof. intros H. apply fold_max_notna. now right. Qed.

Lemma series_max_all_nan (col : list float) :
  (forall c, In c col -> c = None) -> series_max col = None.
Proof.
  unfold series_max. induction col as [|c col IH]; intros H; simpl; [reflexivity|].
  rewrite (H c) by now left. apply IH. intros c' Hc'. apply H. now right.
Qed.

(** When every column of derived quantities holds at least one number, the
    four maxima are numbers and at least 1. *)
Lemma precalculate_max_values_floor (subjects_df : list Subject) :
  let mv := precalculate_max_values subjects_df in
  Hmax mv <> None -> Amax mv <> None -> Pmax mv <> None -> Emax mv <> None ->
  at_least_one (Hmax mv) /\ at_least_one (Amax mv) /\
  at_least_one (Pmax mv) /\ at_least_one (Emax mv).
Proof.
  simpl. intros HH HA HP HE. repeat split; apply py_max_at_least_one.
  - intros E. apply HH. rewrite E. reflexivity.
  - intros E. apply HA. rewrite E. reflexivity.
  - intros E. apply HP. rewrite E. reflexivity.
  - intros E. apply HE. rewrite E. reflexivity.
Qed.

(** A catalog whose derived quantities are all 0 has the four maxima equal
    to 1. *)
Lemma precalculate_max_values_all_zero :
  precalculate_max_values [all_zero_subject] =
  {| Hmax := Some 1; Amax := Some 1; Pmax := Some 1; Emax := Some 1 |}.
Proof.
  unfold precalculate_max_values, series_max, py_max. simpl.
  case_Rdec; try (exfalso; lra). reflexivity.
Qed.

(** C3.  On a catalog whose weekly-workload column holds no number, [Hmax]
    is NaN and not a number that is at least 1: the column maximum is NaN,
    and [max(NaN, 1)] returns its first argument. *)
Theorem precalculate_max_values_missing_hours :
  Hmax (precalculate_max_values [missing_hours_subject]) = None /\
  ~ at_least_one (Hmax (precalculate_max_values [missing_hours_subject])).
Proof.
  split.
  - reflexivity.
  - simpl. tauto.
Qed.

(** Every catalog, the empty one too, whose workload cells are all missing
    gets a NaN [Hmax]. *)
Lemma precalculate_max_values_nan_column (subjects_df : list Subject) :
  (forall s, In s subjects_df -> hours_per_week s = None) ->
  Hmax (precalculate_max_values subjects_df) = None.
Proof.
  intros H. simpl. rewrite series_max_all_nan; [reflexivity|].
  intros c Hc. apply in_map_iff in Hc as [s [<- Hs]]. apply H, Hs.
Qed.

End MaxValuesProperties.

(** ** The prerequisite mismatch factor *)

Section MismatchProperties.
Local Open Scope R_scope.

(** The requirement table without columns: the selection of the
    [subject_code] column raises KeyError, whatever the student and the
    subject. *)
Lemma mismatch_factor_no_columns
    (st : StudentData) (code : string) (prereqs_df : list Prereq) :
  calculate_prerequisite_mismatch_factor st code NoColumns prereqs_df = Raise KeyError.
Proof. reflexivity. Qed.

(** On a requirement table that has its columns, a subject with no
    requirement row (T = 0) has mismatch factor 0, whatever the student. *)
Lemma mismatch_factor_zero_requirements
    (st : StudentData) (code : string)
    (rows : list Requirement) (prereqs_df : list Prereq) :
  length (subject_reqs rows code) = 0%nat ->
  calculate_prerequisite_mismatch_factor st code (Frame rows) prereqs_df = Ok 0.
Proof.
  intros HT. unfold calculate_prerequisite_mismatch_factor. rewrite HT. reflexivity.
Qed.

(** C8.  On the catalog in which no subject has a requirement, the loader
    builds the requirement table from the empty list of rows: every subject
    has T = 0 there, and [calculate_prerequisite_mismatch_factor] raises
    KeyError instead of returning 0. *)
Theorem mismatch_factor_no_requirement_raises :
  let df := [mkRawSubject "CS5001" (Some "Python") (Some "None") (Some "None")
                          (Some "None") None;
             mkRawSubject "CS5002" (Some "Logic") (Some "CS5001") (Some "None")
                          None (Some "None")] in
  let requirements_df := pd_DataFrame (extract_requirements df) in
  let st := sample_student "" (CC_dict ∅) "Python" in
  requirements_df = NoColumns /\
  length (subject_reqs (extract_requirements df) "CS5001") = 0%nat /\
  calculate_prerequisite_mismatch_factor st "CS5001" requirements_df (extract_prereqs df)
    = Raise KeyError /\
  calculate_prerequisite_mismatch_factor st "CS5001" requirements_df (extract_prereqs df)
    <> Ok 0.
Proof.
  cbv zeta. split; [reflexivity|]. split; [reflexivity|]. split; [reflexivity|].
  discriminate.
Qed.

Lemma proficiency_range (level : R) : 0 <= proficiency level <= 1.
Proof.
  unfold proficiency, Rmin, Rmax. case_Rdec; lra.
Qed.

Lemma requirement_mismatch_range (st : StudentData) (req : Requirement) :
  0 <= requirement_mismatch st req <= 1.
Proof.
  unfold requirement_mismatch.
  repeat match goal with |- context [if ?b then _ else _] => destruct b end;
    try pose proof (proficiency_range (skill_level (programming_experience st) (requirement req)));
    try pose proof (proficiency_range (skill_level (math_experience st) (requirement req)));
    lra.
Qed.

Lemma total_mismatch_range (st : StudentData) (reqs : list Requirement) (acc : R) :
  acc <= fold_left (fun acc req => acc + requirement_mismatch st req) reqs acc
      <= acc + INR (length reqs).
Proof.
  revert acc. induction reqs as [|r reqs IH]; intros acc.
  - simpl. lra.
  - cbn [fold_left]. rewrite length_cons, S_INR.
    pose proof (requirement_mismatch_range st r).
    specialize (IH (acc + requirement_mismatch st r)). lra.
Qed.

(** On a requirement table that has its columns the factor is a mean of
    values in [0,1]; on the table without columns the call raises
    KeyError. *)
Theorem mismatch_factor_range
    (st : StudentData) (code : string)
    (requirements_df : DataFrame Requirement) (prereqs_df : list Prereq) :
  match requirements_df with
  | NoColumns =>
      calculate_prerequisite_mismatch_factor st code requirements_df prereqs_df
      = Raise KeyError
  | Frame _ =>
      exists m,
        calculate_prerequisite_mismatch_factor st code requirements_df prereqs_df = Ok m /\
        0 <= m <= 1
  end.
Proof.
  destruct requirements_df as [|rows]; [reflexivity|].
  unfold calculate_prerequisite_mismatch_factor.
  destruct (subject_reqs rows code) as [|r reqs] eqn:E.
  - exists 0. split; [reflexivity | lra].
  - change (Nat.eqb (length (r :: reqs)) 0) with false. cbv iota.
    eexists. split; [reflexivity|].
    pose proof (total_mismatch_range st (r :: reqs) 0) as Ht.
    set (total := fold_left _ (r :: reqs) 0) in *.
    assert (HT : 0 < INR (length (r :: reqs))) by (apply lt_0_INR; simpl; lia).
    set (T := INR (length (r :: reqs))) in *.
    unfold Rdiv. rewrite Rmult_1_l. split.
    + apply Rmult_le_pos; [left; now apply Rinv_0_lt_compat | lra].
    + apply (Rmult_le_reg_l T); [exact HT|].
      rewrite <- Rmult_assoc, Rinv_r by lra. lra.
Qed.

(** With requirements the factor is the mean mismatch: a requirement the
    student has no recorded skill for counts 1. *)
Example mismatch_factor_one_unknown_skill :
  exists m,
    calculate_prerequisite_mismatch_factor
      (sample_student "" (CC_dict ∅) "Python") "CS5002"
      (pd_DataFrame [mkRequirement "CS5002" "Calculus" "math"]) [] = Ok m /\ m = 1.
Proof.
  unfold calculate_prerequisite_mismatch_factor, requirement_mismatch. simpl.
  change (has_skill ∅ "Calculus") with false. simpl.
  eexists. split; [reflexivity | lra].
Qed.

End MismatchProperties.

(** ** Monotonicity of the burnout probability *)

Section Monotonicity.
Local Open Scope R_scope.

(** In exact real arithmetic the burnout probability of the three factors,
    with the default weights, strictly increases with each factor. *)
Lemma burnout_strictly_increasing_over_reals (W M S x : R) :
  (W < x ->
   P_final default_weights (P_prime default_weights W M S)
   < P_final default_weights (P_prime default_weights x M S)) /\
  (M < x ->
   P_final default_weights (P_prime default_weights W M S)
   < P_final default_weights (P_prime default_weights W x S)) /\
  (S < x ->
   P_final default_weights (P_prime default_weights W M S)
   < P_final default_weights (P_prime default_weights W M x)).
Proof.
  assert (Hk : 0 < k default_weights) by (simpl; lra).
  repeat split; intros H; apply P_final_increasing; try exact Hk;
    unfold P_prime; simpl; lra.
Qed.

(** Without rounding the two rounded expressions are [P_prime] and
    [P_final]. *)
Lemma P_rounded_exact (w : Weights) (W M S : R) :
  P_prime_rounded (fun x => x) w W M S = P_prime w W M S /\
  P_final_rounded (fun x => x) exp w (P_prime w W M S) = P_final w (P_prime w W M S).
Proof. split; reflexivity. Qed.

Lemma rounding_exact : rounding (fun x => x).
Proof. constructor; intros; lra. Qed.

Lemma exponential_exp : exponential exp.
Proof.
  constructor.
  - intros x y [H|H]; [left; now apply exp_increasing | subst; lra].
  - intros x. left. apply exp_pos.
  - apply exp_0.
Qed.

Lemma rnd_le_exact (rnd : R -> R) (x c : R) :
  rounding rnd -> rnd c = c -> x <= c -> rnd x <= c.
Proof. intros Hr Hc H. rewrite <- Hc. now apply rnd_monotone. Qed.

Lemma rnd_ge_exact (rnd : R -> R) (x c : R) :
  rounding rnd -> rnd c = c -> c <= x -> c <= rnd x.
Proof. intros Hr Hc H. rewrite <- Hc. now apply rnd_monotone. Qed.

Lemma rnd_nonneg (rnd : R -> R) (x : R) : rounding rnd -> 0 <= x -> 0 <= rnd x.
Proof. intros Hr. apply rnd_ge_exact; [exact Hr | now apply rnd_0]. Qed.

Lemma rnd_nonpos (rnd : R -> R) (x : R) : rounding rnd -> x <= 0 -> rnd x <= 0.
Proof. intros Hr. apply rnd_le_exact; [exact Hr | now apply rnd_0]. Qed.

Lemma P_prime_rounded_monotone (rnd : R -> R) (w : Weights) (W M S W' M' S' : R) :
  rounding rnd -> 0 <= w1 w -> 0 <= w2 w -> 0 <= w3 w ->
  W <= W' -> M <= M' -> S <= S' ->
  P_prime_rounded rnd w W M S <= P_prime_rounded rnd w W' M' S'.
Proof.
  intros Hr H1 H2 H3 HW HM HS. unfold P_prime_rounded.
  assert (A1 : rnd (w1 w * W) <= rnd (w1 w * W')) by (apply rnd_monotone; [exact Hr | nra]).
  assert (A2 : rnd (w2 w * M) <= rnd (w2 w * M')) by (apply rnd_monotone; [exact Hr | nra]).
  assert (A3 : rnd (w3 w * S) <= rnd (w3 w * S')) by (apply rnd_monotone; [exact Hr | nra]).
  apply rnd_monotone; [exact Hr|].
  apply Rplus_le_compat; [|exact A3].
  apply rnd_monotone; [exact Hr | lra].
Qed.

(** The denominator of the squash is at least 1. *)
Lemma denominator_ge_1 (rnd fexp : R -> R) (x : R) :
  rounding rnd -> exponential fexp -> 1 <= rnd (1 + fexp x).
Proof.
  intros Hr He. apply rnd_ge_exact; [exact Hr | now apply rnd_1 |].
  pose proof (fexp_nonneg fexp He x). lra.
Qed.

Lemma Rinv_le_of_le (a b : R) : 0 < a -> a <= b -> 1 / b <= 1 / a.
Proof.
  intros Ha Hab. unfold Rdiv. rewrite !Rmult_1_l.
  apply Rinv_le_contravar; assumption.
Qed.

Lemma P_final_rounded_monotone (rnd fexp : R -> R) (w : Weights) (p q : R) :
  rounding rnd -> exponential fexp -> 0 <= k w -> p <= q ->
  P_final_rounded rnd fexp w p <= P_final_rounded rnd fexp w q.
Proof.
  intros Hr He Hk Hpq. unfold P_final_rounded.
  assert (A : rnd (p - P0 w) <= rnd (q - P0 w)) by (apply rnd_monotone; [exact Hr | lra]).
  assert (B : rnd (- k w * rnd (q - P0 w)) <= rnd (- k w * rnd (p - P0 w)))
    by (apply rnd_monotone; [exact Hr | nra]).
  apply (fexp_monotone fexp He) in B.
  pose proof (denominator_ge_1 rnd fexp (rnd (- k w * rnd (q - P0 w))) Hr He) as Dq.
  apply rnd_monotone; [exact Hr|].
  apply Rinv_le_of_le; [lra|].
  apply rnd_monotone; [exact Hr | lra].
Qed.

(** C10.  With the default weights the burnout probability that lines 175
    and 178 compute from the three factors does not decrease when one
    factor grows and the other two stay equal, whatever the rounding of the
    operations, provided it keeps the order. *)
Theorem burnout_nondecreasing_in_each_factor (rnd fexp : R -> R) (W M S x : R) :
  rounding rnd -> exponential fexp ->
  (W <= x ->
   P_final_rounded rnd fexp default_weights (P_prime_rounded rnd default_weights W M S)
   <= P_final_rounded rnd fexp default_weights (P_prime_rounded rnd default_weights x M S)) /\
  (M <= x ->
   P_final_rounded rnd fexp default_weights (P_prime_rounded rnd default_weights W M S)
   <= P_final_rounded rnd fexp default_weights (P_prime_rounded rnd default_weights W x S)) /\
  (S <= x ->
   P_final_rounded rnd fexp default_weights (P_prime_rounded rnd default_weights W M S)
   <= P_final_rounded rnd fexp default_weights (P_prime_rounded rnd default_weights W M x)).
Proof.
  intros Hr He.
  assert (Hk : 0 <= k default_weights) by (simpl; lra).
  assert (H1 : 0 <= w1 default_weights) by (simpl; lra).
  assert (H2 : 0 <= w2 default_weights) by (simpl; lra).
  assert (H3 : 0 <= w3 default_weights) by (simpl; lra).
  repeat split; intros H;
    apply P_final_rounded_monotone; try assumption;
    apply P_prime_rounded_monotone; try assumption; lra.
Qed.

Lemma burnout_nondecreasing_in_each_factor_witness :
  rounding (fun x => x) /\ exponential exp /\ 0 <= 1 /\
  P_final_rounded (fun x => x) exp default_weights
    (P_prime_rounded (fun x => x) default_weights 0 0 0)
  <= P_final_rounded (fun x => x) exp default_weights
       (P_prime_rounded (fun x => x) default_weights 1 0 0).
Proof.
  assert (H : 0 <= 1) by lra.
  split; [exact rounding_exact|]. split; [exact exponential_exp|]. split; [exact H|].
  exact (proj1 (burnout_nondecreasing_in_each_factor (fun x => x) exp 0 0 0 1
                  rounding_exact exponential_exp) H).
Defined.

(** The value [calculate_burnout] passes to [Ok] is this probability of the
    three factors, NaN when the workload factor is NaN. *)
Lemma burnout_value_of_factors (w : Weights) (W : float) (M S : R) :
  fmap (fun W => P_final w (P_prime w W M S)) W =
  match W with
  | Some W => Some (1 / (1 + exp (- k w * ((w1 w * W + w2 w * M + w3 w * S) - P0 w))))
  | None => None
  end.
Proof. destruct W; reflexivity. Qed.

End Monotonicity.

(** ** The weighted factor sum in binary64 *)

Section Binary64Facts.
Import PrimFloat Binary64.
Local Open Scope float_scope.

(** In binary64 the burnout probability is not strictly increasing in the
    factors.  At W' = 0.25, M' = 1, S' = 0.5 the step from each factor to the
    next float above it leaves the weighted sum of line 175 with the default
    weights unchanged, and with it the burnout probability of line 178,
    whatever [np.exp] computes. *)
Lemma burnout_binary64_not_strictly_increasing :
  (0.25 <? next_up 0.25) = true /\ (1 <? next_up 1) = true /\ (0.5 <? next_up 0.5) = true /\
  forall fexp : PrimFloat.float -> PrimFloat.float,
    let burnout W M S :=
      P_final_binary64 fexp default_k default_P0
        (P_prime_binary64 default_w1 default_w2 default_w3 W M S) in
    burnout (next_up 0.25) 1 0.5 = burnout 0.25 1 0.5 /\
    burnout 0.25 (next_up 1) 0.5 = burnout 0.25 1 0.5 /\
    burnout 0.25 1 (next_up 0.5) = burnout 0.25 1 0.5.
Proof.
  split; [vm_compute; reflexivity|]. split; [vm_compute; reflexivity|].
  split; [vm_compute; reflexivity|].
  assert (HW : P_prime_binary64 default_w1 default_w2 default_w3 (next_up 0.25) 1 0.5
               = P_prime_binary64 default_w1 default_w2 default_w3 0.25 1 0.5)
    by (vm_compute; reflexivity).
  assert (HM : P_prime_binary64 default_w1 default_w2 default_w3 0.25 (next_up 1) 0.5
               = P_prime_binary64 default_w1 default_w2 default_w3 0.25 1 0.5)
    by (vm_compute; reflexivity).
  assert (HS : P_prime_binary64 default_w1 default_w2 default_w3 0.25 1 (next_up 0.5)
               = P_prime_binary64 default_w1 default_w2 default_w3 0.25 1 0.5)
    by (vm_compute; reflexivity).
  intros fexp burnout. subst burnout. cbv beta.
  rewrite HW, HM, HS. repeat split.
Qed.

End Binary64Facts.

(** ** The utility and its prerequisite penalty *)

Section UtilityProperties.
Local Open Scope R_scope.

Lemma forallb_false_exists {A : Type} (f : A -> bool) (l : list A) :
  forallb f l = false <-> exists x, In x l /\ f x = false.
Proof.
  induction l as [|a l IH]; simpl.
  - split; [discriminate | intros [x [[] _]]].
  - rewrite andb_false_iff, IH. split.
    + intros [H|[x [H1 H2]]]; [exists a | exists x]; auto.
    + intros [x [[->|H1] H2]]; [now left | right; eauto].
Qed.

(** The penalty that line 70 sets is 1 exactly when the subject has a
    prerequisite that is not among the student's completed courses, and 0 in
    every other case. *)
Lemma prereq_penalty_all_or_nothing
    (st : StudentData) (code : string) (prereqs_df : list Prereq) :
  let prereqs := prereqs_of prereqs_df code in
  let penalty := prereq_penalty st prereqs in
  (penalty = 1 <->
     exists p, In p prereqs /\ py_in p (completed_courses st) = false) /\
  (penalty = 0 <->
     forall p, In p prereqs -> py_in p (completed_courses st) = true) /\
  (penalty = 0 \/ penalty = 1).
Proof.
  intros prereqs penalty. subst penalty.
  assert (Hcases :
    (prereq_penalty st prereqs = 1 /\
       exists p, In p prereqs /\ py_in p (completed_courses st) = false) \/
    (prereq_penalty st prereqs = 0 /\
       forall p, In p prereqs -> py_in p (completed_courses st) = true)).
  { unfold prereq_penalty. destruct prereqs as [|p0 ps] eqn:E.
    - right. split; [reflexivity | intros p []].
    - destruct (forallb (fun prereq => py_in prereq (completed_courses st)) (p0 :: ps)) eqn:F.
      + right. split; [reflexivity|]. intros p Hp.
        rewrite forallb_forall in F. apply F, Hp.
      + left. split; [reflexivity|]. apply forallb_false_exists in F. exact F. }
  split; [|split].
  - split.
    + intros H1. destruct Hcases as [[_ H]|[H0 _]]; [exact H | lra].
    + intros [p [Hp Hn]]. destruct Hcases as [[H _]|[_ H]]; [exact H|].
      rewrite (H p Hp) in Hn. discriminate.
  - split.
    + intros H0. destruct Hcases as [[H1 _]|[_ H]]; [lra | exact H].
    + intros Hall. destruct Hcases as [[_ [p [Hp Hn]]]|[H _]]; [|exact H].
      rewrite (Hall p Hp) in Hn. discriminate.
  - destruct Hcases as [[H _]|[H _]]; auto.
Qed.

(** C7.  [calculate_utility] on a subject of the catalog one of whose
    prerequisites the student has not completed: the penalty of the claim
    is 1 there, but the call ends in the TypeError of [calculate_burnout]
    before the alignment score, the penalty and the utility are computed,
    and no utility is returned. *)
Theorem calculate_utility_catalog_subject_raises :
  let st := sample_student "" (CC_set {["CS5001"]}) "Logic" in
  let prereqs_df := [mkPrereq "CS5003" "CS5001"; mkPrereq "CS5003" "CS5002"] in
  let outcomes_df := pd_DataFrame [mkOutcome "CS5003" "Logic"] in
  let requirements_df := pd_DataFrame [mkRequirement "CS5003" "Python" "programming"] in
  In "CS5003" (map subject_code [cs5001; cs5002; cs5003]) /\
  prereqs_of prereqs_df "CS5003" = ["CS5001"; "CS5002"] /\
  py_in "CS5002" (completed_courses st) = false /\
  prereq_penalty st (prereqs_of prereqs_df "CS5003") = 1%R /\
  calculate_utility st "CS5003" [cs5001; cs5002; cs5003] requirements_df prereqs_df
                    outcomes_df None
    = Raise TypeError /\
  forall utility,
    calculate_utility st "CS5003" [cs5001; cs5002; cs5003] requirements_df prereqs_df
                      outcomes_df None
    <> Ok utility.
Proof.
  cbv zeta. split; [simpl; auto|]. split; [reflexivity|]. split; [reflexivity|].
  split; [reflexivity|].
  assert (H : calculate_utility (sample_student "" (CC_set {["CS5001"]}) "Logic") "CS5003"
                [cs5001; cs5002; cs5003]
                (pd_DataFrame [mkRequirement "CS5003" "Python" "programming"])
                [mkPrereq "CS5003" "CS5001"; mkPrereq "CS5003" "CS5002"]
                (pd_DataFrame [mkOutcome "CS5003" "Logic"]) None = Raise TypeError).
  { unfold calculate_utility. rewrite calculate_burnout_raises. reflexivity. }
  split; [exact H|]. intros utility. rewrite H. discriminate.
Qed.

(** The two scenarios of the penalty: all prerequisites completed, and one
    of two prerequisites missing. *)
Example prereq_penalty_all_completed :
  prereq_penalty (sample_student "" (CC_set {["CS5001"; "CS5002"]}) "Python")
                 ["CS5001"; "CS5002"] = 0.
Proof. reflexivity. Qed.

Example prereq_penalty_one_of_two_missing :
  prereq_penalty (sample_student "" (CC_set {["CS5001"]}) "Python")
                 ["CS5001"; "CS5002"] = 1.
Proof. reflexivity. Qed.

(** The defaults are rebuilt on every call: leaving out the weights or the
    normalization context is the same as passing the default ones. *)
Lemma calculate_burnout_defaults
    (st : StudentData) (code : string) (subjects_df : list Subject)
    (requirements_df : DataFrame Requirement) (prereqs_df : list Prereq)
    (outcomes_df : DataFrame Outcome) :
  calculate_burnout st code subjects_df requirements_df prereqs_df outcomes_df None None
  = calculate_burnout st code subjects_df requirements_df prereqs_df outcomes_df
      (Some (precalculate_max_values subjects_df)) (Some default_weights).
Proof. reflexivity. Qed.

End UtilityProperties.

(** ** Facts about the insertion sort *)

Section SortingFacts.
Context {A : Type} (le : A -> A -> bool).
Hypothesis le_total : forall x y, le x y = true \/ le y x = true.
Hypothesis le_trans : forall x y z, le x y = true -> le y z = true -> le x z = true.

Lemma insert_sorted_perm (x : A) (l : list A) :
  Permutation (insert_sorted le x l) (x :: l).
Proof.
  induction l as [|a l IH]; simpl.
  - reflexivity.
  - destruct (le x a).
    + reflexivity.
    + transitivity (a :: x :: l); [now constructor | apply perm_swap].
Qed.

Lemma sort_by_perm (l : list A) : Permutation (sort_by le l) l.
Proof.
  induction l as [|a l IH]; simpl.
  - reflexivity.
  - rewrite insert_sorted_perm. now constructor.
Qed.

Lemma sort_by_In (l : list A) (x : A) : In x (sort_by le l) <-> In x l.
Proof.
  split; apply Permutation_in; [|symmetry]; apply sort_by_perm.
Qed.

Lemma insert_sorted_sorted (x : A) (l : list A) :
  StronglySorted (fun a b => le a b = true) l ->
  StronglySorted (fun a b => le a b = true) (insert_sorted le x l).
Proof.
  induction l as [|a l IH]; intros Hs; simpl.
  - repeat constructor.
  - apply StronglySorted_inv in Hs as [Hl Ha]. destruct (le x a) eqn:E.
    + constructor; [now constructor|]. constructor; [exact E|].
      eapply List.Forall_impl; [|exact Ha]. intros b Hb. now apply (le_trans x a b).
    + constructor; [now apply IH|].
      apply (Permutation_Forall (x := x :: l)); [symmetry; apply insert_sorted_perm|].
      constructor; [|exact Ha].
      destruct (le_total a x) as [H|H]; [exact H | congruence].
Qed.

Lemma sort_by_sorted (l : list A) :
  StronglySorted (fun a b => le a b = true) (sort_by le l).
Proof.
  induction l as [|a l IH]; simpl; [constructor | now apply insert_sorted_sorted].
Qed.

End SortingFacts.

(** ** Matching, ranking and the split of the recommendations *)

Section RecommenderProperties.
Local Open Scope Q_scope.

Lemma Qltb_lt (a b : Q) : Qltb a b = true <-> a < b.
Proof.
  unfold Qltb. rewrite negb_true_iff. split.
  - intros H. apply Qnot_le_lt. intros Hle. apply Qle_bool_iff in Hle. congruence.
  - intros H. destruct (Qle_bool b a) eqn:E; [|reflexivity].
    apply Qle_bool_iff in E. exfalso. exact (Qlt_not_le _ _ H E).
Qed.

Lemma Qltb_ge (a b : Q) : Qltb a b = false <-> b <= a.
Proof.
  unfold Qltb. rewrite negb_false_iff. apply Qle_bool_iff.
Qed.

Lemma py_min_Qmin (a b : Q) : py_min a b = Qmin a b.
Proof.
  unfold py_min. destruct (Qltb b a) eqn:E.
  - apply Qltb_lt in E. unfold Qmin, GenericMinMax.gmin.
    pose proof (proj1 (Qgt_alt a b) E) as E'. now rewrite E'.
  - apply Qltb_ge in E. unfold Qmin, GenericMinMax.gmin.
    pose proof (proj1 (Qle_alt a b) E) as E'. destruct (a ?= b); congruence.
Qed.

Lemma key_ge_total (x y : MatchingCourse) : key_ge x y = true \/ key_ge y x = true.
Proof.
  unfold key_ge. destruct (mc_is_core x), (mc_is_core y); auto;
    rewrite !Qle_bool_iff;
    destruct (Qlt_le_dec (composite x) (composite y)) as [H|H]; auto using Qlt_le_weak.
Qed.

Lemma key_ge_trans (x y z : MatchingCourse) :
  key_ge x y = true -> key_ge y z = true -> key_ge x z = true.
Proof.
  unfold key_ge. destruct (mc_is_core x), (mc_is_core y), (mc_is_core z);
    try discriminate; auto; rewrite !Qle_bool_iff; intros H1 H2;
    exact (Qle_trans _ _ _ H2 H1).
Qed.

Lemma key_ge_core (x y : MatchingCourse) :
  mc_is_core x = false -> mc_is_core y = true -> key_ge x y = false.
Proof. unfold key_ge. now intros -> ->. Qed.

(** In a list sorted by the key, no entry that is not core stands before a
    core entry. *)
Lemma sorted_core_first (out : list MatchingCourse) :
  StronglySorted (fun a b => key_ge a b = true) out ->
  forall (i j : nat) (x y : MatchingCourse),
    nth_error out i = Some x -> nth_error out j = Some y ->
    mc_is_core x = true -> mc_is_core y = false -> (i < j)%nat.
Proof.
  induction 1 as [|a l Hs IH Ha]; intros i j x y Hi Hj Hx Hy.
  - destruct i; discriminate.
  - destruct i as [|i], j as [|j]; simpl in Hi, Hj.
    + congruence.
    + lia.
    + injection Hj as ->. apply nth_error_In in Hi.
      rewrite List.Forall_forall in Ha. specialize (Ha x Hi).
      rewrite (key_ge_core y x Hy Hx) in Ha. discriminate.
    + specialize (IH i j x y Hi Hj Hx Hy). lia.
Qed.

Lemma matching_loop_In (f : Subject -> option MatchingCourse) (subjects_df : list Subject)
    (m : MatchingCourse) :
  In m (matching_loop f subjects_df) <->
  exists course, In course subjects_df /\ f course = Some m.
Proof.
  induction subjects_df as [|c df IH]; simpl.
  - split; [tauto | intros [course [[] _]]].
  - destruct (f c) as [m'|] eqn:E; simpl; rewrite IH; split.
    + intros [->|[course [H1 H2]]]; [exists c; auto | exists course; auto].
    + intros [course [[->|H1] H2]]; [left; congruence | right; eauto].
    + intros [course [H1 H2]]. exists course. auto.
    + intros [course [[->|H1] H2]]; [congruence | eauto].
Qed.

(** What an appended entry says about the course it was built from. *)
Lemma match_course_Some
    (sd : StudentData) (ints : list string) (prereqs_df : list Prereq)
    (bdf : option (list BurnoutRow)) (course : Subject) (m : MatchingCourse) :
  match_course sd ints prereqs_df bdf course = Some m ->
  py_in (subject_code course) (completed_courses sd) = false /\
  mc_subject_code m = subject_code course /\
  mc_is_core m = is_core_subject sd (subject_code course) /\
  mc_likelihood m = course_likelihood sd course.
Proof.
  unfold match_course.
  destruct (py_in (subject_code course) (completed_courses sd)); [discriminate|].
  destruct (Qltb 0.3 _ || is_core_subject sd (subject_code course)); [|discriminate].
  intros [= <-]. simpl. auto.
Qed.

(** A core subject that is not completed is appended whatever its score,
    with 0.5 added to the score. *)
Lemma match_course_core
    (sd : StudentData) (ints : list string) (prereqs_df : list Prereq)
    (bdf : option (list BurnoutRow)) (course : Subject) :
  py_in (subject_code course) (completed_courses sd) = false ->
  is_core_subject sd (subject_code course) = true ->
  exists m,
    match_course sd ints prereqs_df bdf course = Some m /\
    mc_subject_code m = subject_code course /\
    mc_is_core m = true /\
    mc_match_score m = fst (course_score sd ints prereqs_df bdf course) + 0.5 /\
    mc_reasons m =
      app (snd (course_score sd ints prereqs_df bdf course)) [CoreSubjectRequirement].
Proof.
  intros Hc Hcore. unfold match_course. rewrite Hc, Hcore, orb_true_r.
  eexists. split; [reflexivity|]. simpl. auto.
Qed.

Lemma partition_courses_In (l rec comp : list MatchingCourse) :
  partition_courses l = (rec, comp) ->
  forall m,
    (In m rec <-> In m l /\ Qltb (mc_likelihood m) 0.3 = false) /\
    (In m comp <-> In m l /\ Qltb (mc_likelihood m) 0.3 = true).
Proof.
  revert rec comp. induction l as [|c l IH]; simpl; intros rec comp H m.
  - injection H as <- <-. simpl. tauto.
  - destruct (partition_courses l) as [r' c'] eqn:E.
    specialize (IH r' c' eq_refl m). destruct IH as [IHr IHc].
    destruct (Qltb (mc_likelihood c) 0.3) eqn:L; injection H as <- <-; simpl;
      rewrite ?IHr, ?IHc; split; split; intuition (subst; auto; congruence).
Qed.

End RecommenderProperties.

#[global] Hint Resolve key_ge_total key_ge_trans : recommender.

Section RecommendationClaims.
Local Open Scope Q_scope.

Lemma calculate_enrollment_likelihood_spec (semester : Q) (is_core : bool) (seats enrollments : Q) :
  calculate_enrollment_likelihood semester is_core seats enrollments
  = likelihood_spec semester is_core seats enrollments.
Proof.
  unfold calculate_enrollment_likelihood, likelihood_spec. rewrite !py_min_Qmin.
  assert (H1 : (if Qltb 0 seats then (seats - enrollments) / seats else 0)
               = (if Qlt_le_dec 0 seats then (seats - enrollments) / seats else 0)).
  { destruct (Qlt_le_dec 0 seats) as [H|H].
    - apply Qltb_lt in H. now rewrite H.
    - apply Qltb_ge in H. now rewrite H. }
  rewrite H1.
  set (ratio := if Qlt_le_dec 0 seats then (seats - enrollments) / seats else 0).
  assert (H2 : (if Qle_bool ratio 0 then 0.1 else ratio)
               = (if Qlt_le_dec 0 ratio then ratio else 0.1)).
  { destruct (Qlt_le_dec 0 ratio) as [H|H].
    - destruct (Qle_bool ratio 0) eqn:E; [|reflexivity].
      apply Qle_bool_iff in E. exfalso. exact (Qlt_not_le _ _ H E).
    - apply Qle_bool_iff in H. now rewrite H. }
  rewrite H2. reflexivity.
Qed.

Lemma generate_recommendations_split
    (sd : StudentData) (df : list Subject) (odf : DataFrame Outcome) (pdf : list Prereq)
    (cdf : list Coreq) (bdf : option (list BurnoutRow)) (extra : list string)
    (sd' : StudentData) (matching : list MatchingCourse) :
  add_interests sd extra = Ok sd' ->
  find_matching_courses sd' df odf pdf cdf bdf = Ok matching ->
  generate_recommendations (Some sd) df odf pdf cdf bdf extra
  = Ok (Some (partition_courses matching)).
Proof.
  intros Ha Hf. unfold generate_recommendations. rewrite Ha. simpl. rewrite Hf. reflexivity.
Qed.

(** C4.  The enrollment likelihood is
    [min(base * min(semester/4, 1) * (1.5 if core else 1), 1)] with
    [base = (seats - enrollments)/seats] for [seats > 0] and 0 otherwise,
    replaced by 0.1 when it is not positive; 100 seats, 95 enrollments,
    semester 4 and no core status give 0.05; and [generate_recommendations]
    puts every matched course whose likelihood is below 0.3 in the highly
    competitive list and not in the recommended one. *)
Theorem enrollment_likelihood_and_competitive_split :
  (forall (semester : Q) (is_core : bool) (seats enrollments : Q),
     calculate_enrollment_likelihood semester is_core seats enrollments
     = likelihood_spec semester is_core seats enrollments) /\
  calculate_enrollment_likelihood 4 false 100 95 == 0.05 /\
  (forall (sd : StudentData) (df : list Subject) (odf : DataFrame Outcome) (pdf : list Prereq)
          (cdf : list Coreq) (bdf : option (list BurnoutRow)) (extra : list string)
          (sd' : StudentData) (matching : list MatchingCourse),
     add_interests sd extra = Ok sd' ->
     find_matching_courses sd' df odf pdf cdf bdf = Ok matching ->
     exists recommended competitive,
       generate_recommendations (Some sd) df odf pdf cdf bdf extra
       = Ok (Some (recommended, competitive)) /\
       forall m, In m matching -> mc_likelihood m < 0.3 ->
                 In m competitive /\ ~ In m recommended).
Proof.
  split; [exact calculate_enrollment_likelihood_spec|].
  split; [reflexivity|].
  intros sd df odf pdf cdf bdf extra sd' matching Ha Hf.
  destruct (partition_courses matching) as [rec comp] eqn:E.
  exists rec, comp. split.
  - rewrite (generate_recommendations_split _ _ _ _ _ _ _ _ _ Ha Hf), E. reflexivity.
  - intros m Hm Hlt. apply Qltb_lt in Hlt.
    destruct (partition_courses_In _ _ _ E m) as [Hr Hc]. split.
    + apply Hc. auto.
    + intros Hin. apply Hr in Hin as [_ Hin]. congruence.
Qed.

Lemma enrollment_likelihood_and_competitive_split_witness :
  let sd := sample_student "" (CC_set ∅) "computer science" in
  exists m recommended competitive,
    add_interests sd [] = Ok sd /\
    find_matching_courses sd [cs5001] NoColumns [] [] None = Ok [m] /\
    mc_subject_code m = "CS5001" /\ mc_is_core m = false /\ mc_likelihood m == 0.05 /\
    generate_recommendations (Some sd) [cs5001] NoColumns [] [] None []
    = Ok (Some (recommended, competitive)) /\
    In m competitive /\ ~ In m recommended.
Proof.
  intros sd.
  assert (Ha : add_interests sd [] = Ok sd) by reflexivity.
  destruct (find_matching_courses sd [cs5001] NoColumns [] [] None) as [[|m [|]]|] eqn:Hf;
    try (vm_compute in Hf; discriminate Hf).
  assert (Hm : mc_subject_code m = "CS5001" /\ mc_is_core m = false /\
               mc_likelihood m == 0.05 /\ mc_likelihood m < 0.3).
  { vm_compute in Hf. injection Hf as <-. vm_compute. repeat split; discriminate. }
  destruct Hm as (Hcode & Hcore & Hlik & Hlt).
  destruct (proj2 (proj2 enrollment_likelihood_and_competitive_split)
              sd [cs5001] NoColumns [] [] None [] sd [m] Ha Hf) as (rec & comp & Hg & Hsplit).
  destruct (Hsplit m (or_introl eq_refl) Hlt) as [Hin Hout].
  exists m, rec, comp. repeat split; assumption.
Defined.

End RecommendationClaims.

Section CoreSubjectClaims.
Local Open Scope Q_scope.

(** C5.  Of the subjects that [find_matching_courses] scores, those the
    student has not completed, a core subject of the catalog is in the
    output whatever its match score (0.0 included), its score there is the
    match score plus 0.5, and in the sorted output every core entry stands
    before every entry that is not core. *)
Theorem core_subject_included_and_ranked_first
    (sd : StudentData) (df : list Subject) (odf : DataFrame Outcome) (pdf : list Prereq)
    (cdf : list Coreq) (bdf : option (list BurnoutRow)) (ints : string) :
  interests sd = Some ints ->
  exists out,
    find_matching_courses sd df odf pdf cdf bdf = Ok out /\
    (forall course,
       In course df ->
       is_core_subject sd (subject_code course) = true ->
       py_in (subject_code course) (completed_courses sd) = false ->
       exists m,
         In m out /\ mc_subject_code m = subject_code course /\ mc_is_core m = true /\
         mc_match_score m
         = fst (course_score sd (student_interests_of ints) pdf bdf course) + 0.5) /\
    (forall (i j : nat) (x y : MatchingCourse),
       nth_error out i = Some x -> nth_error out j = Some y ->
       mc_is_core x = true -> mc_is_core y = false -> (i < j)%nat).
Proof.
  intros Hi. unfold find_matching_courses. rewrite Hi.
  eexists. split; [reflexivity|]. split.
  - intros course Hin Hcore Hc.
    destruct (match_course_core sd (student_interests_of ints) pdf bdf course Hc Hcore)
      as (m & Hm & Hcode & Hmc & Hscore & _).
    exists m. repeat split; try assumption.
    apply sort_by_In, matching_loop_In. exists course. auto.
  - apply sorted_core_first, sort_by_sorted; eauto with recommender.
Qed.

(** The scenario of the claim: the core subject has match score 0.0, the
    other subject a higher score and a higher composite key, and yet the
    core subject comes first. *)
Lemma core_subject_included_and_ranked_first_witness :
  let sd := sample_student "CS5002" (CC_set ∅) "computer science,python" in
  exists core other,
    interests sd = Some "computer science,python" /\
    find_matching_courses sd [cs5001; cs5002] NoColumns [] [] None = Ok [core; other] /\
    mc_subject_code core = "CS5002" /\ mc_is_core core = true /\
    fst (course_score sd (student_interests_of "computer science,python") [] None cs5002) == 0 /\
    mc_match_score core == 0.5 /\
    mc_is_core other = false /\ mc_match_score core < mc_match_score other /\
    composite core < composite other.
Proof.
  intros sd.
  assert (Hi : interests sd = Some "computer science,python") by reflexivity.
  destruct (core_subject_included_and_ranked_first sd [cs5001; cs5002] NoColumns [] [] None _ Hi)
    as (out & Hf & Hincl & Hrank).
  destruct (Hincl cs5002 (or_intror (or_introl eq_refl)) eq_refl eq_refl)
    as (m & Hm & Hcode & Hcore & Hscore).
  assert (Hout : exists core other, out = [core; other] /\
            mc_subject_code core = "CS5002" /\ mc_is_core core = true /\
            mc_match_score core == 0.5 /\ mc_is_core other = false /\
            mc_match_score core < mc_match_score other /\
            composite core < composite other).
  { vm_compute in Hf. injection Hf as <-. do 2 eexists. split; [reflexivity|].
    vm_compute. repeat split; discriminate. }
  destruct Hout as (core & other & -> & H1 & H2 & H3 & H4 & H5 & H6).
  exists core, other. repeat split; assumption.
Defined.

End CoreSubjectClaims.

(** ** Completed subjects *)

Section CompletedSubjectClaims.

(** The rows the loop of [calculate_scores] collects are those of the
    subject codes that are not completed, in catalog order, whatever the
    loop body computes. *)
Lemma scores_loop_codes
    (body : string -> result ScoreRow) (cc : CompletedCourses)
    (codes : list string) (rows : list ScoreRow) :
  (forall c r, body c = Ok r -> sc_subject_code r = c) ->
  scores_loop body cc codes = Ok rows ->
  map sc_subject_code rows = List.filter (fun c => negb (py_in c cc)) codes.
Proof.
  intros Hbody. revert rows. induction codes as [|c codes IH]; simpl; intros rows H.
  - now injection H as <-.
  - destruct (py_in c cc); simpl; [exact (IH rows H)|].
    destruct (body c) as [r|] eqn:Eb; [|discriminate H]. simpl in H.
    destruct (scores_loop body cc codes) as [rs|]; [|discriminate H]. simpl in H.
    injection H as <-. simpl. rewrite (Hbody c r Eb), (IH rs eq_refl). reflexivity.
Qed.

Lemma scores_loop_raising_body
    (body : string -> result ScoreRow) (cc : CompletedCourses)
    (codes : list string) (rows : list ScoreRow) :
  (forall c, raises (body c)) ->
  scores_loop body cc codes = Ok rows -> rows = [].
Proof.
  intros Hbody. induction codes as [|c codes IH]; simpl; intros H.
  - now injection H as <-.
  - destruct (py_in c cc); [exact (IH H)|].
    destruct (Hbody c) as [e He]. rewrite He in H. discriminate H.
Qed.

Lemma score_subject_raises
    (sd : StudentData) (df : list Subject) (rdf : DataFrame Requirement) (pdf : list Prereq)
    (odf : DataFrame Outcome) (mv : MaxValues) (code : string) :
  score_subject sd df rdf pdf odf mv code = Raise (lookup_error (get_subject df code)).
Proof.
  unfold score_subject. rewrite calculate_burnout_raises. reflexivity.
Qed.

(** [calculate_scores] never returns a table: the first subject that is not
    completed ends the loop with the exception of [calculate_burnout], and
    when every subject is completed the empty frame cannot be sorted. *)
Lemma calculate_scores_raises
    (sd : StudentData) (df : list Subject) (rdf : DataFrame Requirement) (pdf : list Prereq)
    (odf : DataFrame Outcome) :
  raises (calculate_scores sd df rdf pdf odf).
Proof.
  unfold calculate_scores.
  destruct (scores_loop _ (completed_courses sd) (map subject_code df)) as [rows|e] eqn:E.
  - apply scores_loop_raising_body in E.
    + subst rows. exists KeyError. reflexivity.
    + intros c. rewrite score_subject_raises. eexists. reflexivity.
  - exists e. reflexivity.
Qed.

Lemma add_interests_completed (sd sd' : StudentData) (extra : list string) :
  add_interests sd extra = Ok sd' -> completed_courses sd' = completed_courses sd.
Proof.
  unfold add_interests. destruct extra; [now intros [= <-]|].
  destruct (interests sd); [now intros [= <-] | discriminate].
Qed.

Lemma find_matching_courses_not_completed
    (sd : StudentData) (df : list Subject) (odf : DataFrame Outcome) (pdf : list Prereq)
    (cdf : list Coreq) (bdf : option (list BurnoutRow)) (out : list MatchingCourse)
    (m : MatchingCourse) :
  find_matching_courses sd df odf pdf cdf bdf = Ok out ->
  In m out -> py_in (mc_subject_code m) (completed_courses sd) = false.
Proof.
  unfold find_matching_courses. destruct (interests sd) as [ints|]; [|discriminate].
  intros [= <-] Hin. apply sort_by_In, matching_loop_In in Hin as (course & _ & Hm).
  apply match_course_Some in Hm as (Hc & -> & _). exact Hc.
Qed.

(** C6.  A subject code of the student's completed courses is in no row the
    loop of [calculate_scores] collects, in no table [calculate_scores]
    returns, and in neither list of [generate_recommendations], nor in the
    output of [find_matching_courses] they are split from. *)
Theorem completed_subject_in_no_output
    (sd : StudentData) (df : list Subject) (rdf : DataFrame Requirement) (pdf : list Prereq)
    (odf : DataFrame Outcome) (cdf : list Coreq) (bdf : option (list BurnoutRow))
    (extra : list string) (code : string) :
  py_in code (completed_courses sd) = true ->
  (forall body rows,
     (forall c r, body c = Ok r -> sc_subject_code r = c) ->
     scores_loop body (completed_courses sd) (map subject_code df) = Ok rows ->
     ~ In code (map sc_subject_code rows)) /\
  (forall out,
     calculate_scores sd df rdf pdf odf = Ok out -> ~ In code (map sc_subject_code out)) /\
  (forall out,
     find_matching_courses sd df odf pdf cdf bdf = Ok out ->
     ~ In code (map mc_subject_code out)) /\
  (forall recommended competitive,
     generate_recommendations (Some sd) df odf pdf cdf bdf extra
     = Ok (Some (recommended, competitive)) ->
     ~ In code (map mc_subject_code recommended) /\
     ~ In code (map mc_subject_code competitive)).
Proof.
  intros Hc.
  assert (Hloop : forall body rows,
     (forall c r, body c = Ok r -> sc_subject_code r = c) ->
     scores_loop body (completed_courses sd) (map subject_code df) = Ok rows ->
     ~ In code (map sc_subject_code rows)).
  { intros body rows Hbody Hl Hin.
    rewrite (scores_loop_codes _ _ _ _ Hbody Hl) in Hin.
    apply filter_In in Hin as [_ Hn]. rewrite Hc in Hn. discriminate Hn. }
  assert (Hmatch : forall sd' out,
     completed_courses sd' = completed_courses sd ->
     find_matching_courses sd' df odf pdf cdf bdf = Ok out ->
     ~ In code (map mc_subject_code out)).
  { intros sd' out Hcc Hf Hin. apply in_map_iff in Hin as (m & Hcode & Hm).
    pose proof (find_matching_courses_not_completed _ _ _ _ _ _ _ _ Hf Hm) as Hn.
    rewrite Hcode, Hcc, Hc in Hn. discriminate Hn. }
  split; [exact Hloop|]. split; [|split].
  - intros out Hs. unfold calculate_scores in Hs.
    destruct (scores_loop _ (completed_courses sd) (map subject_code df)) as [rows|] eqn:E;
      [|discriminate Hs].
    simpl in Hs. unfold sort_values_by_burnout in Hs.
    destruct rows as [|r rows]; [discriminate Hs|]. injection Hs as <-.
    intros Hin. apply in_map_iff in Hin as (row & Hcode & Hrow).
    change (In row (sort_by burnout_le (r :: rows))) in Hrow.
    apply sort_by_In in Hrow.
    apply (Hloop _ _ (fun c r' H => ltac:(rewrite score_subject_raises in H; discriminate H)) E).
    apply in_map_iff. eauto.
  - intros out. apply Hmatch. reflexivity.
  - intros rec comp Hg. unfold generate_recommendations in Hg.
    destruct (add_interests sd extra) as [sd'|] eqn:Ha; [|discriminate Hg]. simpl in Hg.
    destruct (find_matching_courses sd' df odf pdf cdf bdf) as [matching|] eqn:Hf;
      [|discriminate Hg].
    simpl in Hg. injection Hg as Hp.
    pose proof (Hmatch sd' matching (add_interests_completed _ _ _ Ha) Hf) as Hn.
    split; intros Hin; apply in_map_iff in Hin as (m & Hcode & Hm); apply Hn;
      apply in_map_iff; exists m; (split; [exact Hcode|]);
      destruct (partition_courses_In _ _ _ Hp m) as [Hr Hcp]; [apply Hr in Hm | apply Hcp in Hm];
      tauto.
Qed.

Lemma completed_subject_in_no_output_witness :
  let sd := sample_student "CS5002" (CC_set {["CS5001"]}) "computer science" in
  exists m recommended competitive,
    py_in "CS5001" (completed_courses sd) = true /\
    find_matching_courses sd [cs5001; cs5002] NoColumns [] [] None = Ok [m] /\
    mc_subject_code m = "CS5002" /\
    ~ In "CS5001" (map mc_subject_code [m]) /\
    generate_recommendations (Some sd) [cs5001; cs5002] NoColumns [] [] None []
    = Ok (Some (recommended, competitive)) /\
    ~ In "CS5001" (map mc_subject_code recommended) /\
    ~ In "CS5001" (map mc_subject_code competitive).
Proof.
  intros sd.
  assert (Hc : py_in "CS5001" (completed_courses sd) = true) by reflexivity.
  destruct (completed_subject_in_no_output sd [cs5001; cs5002] NoColumns [] NoColumns [] None [] "CS5001" Hc)
    as (_ & _ & Hmatch & Hgen).
  destruct (find_matching_courses sd [cs5001; cs5002] NoColumns [] [] None) as [[|m [|]]|] eqn:Hf;
    try (vm_compute in Hf; discriminate Hf).
  assert (Hm : mc_subject_code m = "CS5002").
  { vm_compute in Hf. injection Hf as <-. reflexivity. }
  destruct (generate_recommendations (Some sd) [cs5001; cs5002] NoColumns [] [] None [])
    as [[[rec comp]|]|] eqn:Hg;
    try (rewrite (generate_recommendations_split sd _ _ _ _ _ [] sd [m] eq_refl Hf) in Hg;
         discriminate Hg).
  destruct (Hgen rec comp eq_refl) as [Hr Hcp].
  exists m, rec, comp. repeat split; try assumption. exact (Hmatch [m] eq_refl).
Defined.

(** The loop with a body that returns: only the subject that is not
    completed gets a row. *)
Example scores_loop_skips_completed :
  let body := fun c => Ok {| sc_subject_code := c; sc_subject_name := "Unknown course";
                             sc_burnout_score := None; sc_prerequisites := [];
                             sc_prerequisites_satisfied := true; sc_utility := 0 |} in
  map sc_subject_code
      (match scores_loop body (CC_dict {[ "CS5001" := NotADict ]}) ["CS5001"; "CS5002"] with
       | Ok rows => rows
       | Raise _ => []
       end)
  = ["CS5002"].
Proof. reflexivity. Qed.

End CompletedSubjectClaims.

(** * Further properties of the engine *)

(** ** The burnout factors *)

Section FactorProperties.
Local Open Scope R_scope.

Lemma total_mismatch_constant (st : StudentData) (reqs : list Requirement) (c acc : R) :
  (forall r, In r reqs -> requirement_mismatch st r = c) ->
  fold_left (fun acc req => acc + requirement_mismatch st req) reqs acc
  = acc + c * INR (length reqs).
Proof.
  revert acc. induction reqs as [|r reqs IH]; intros acc H.
  - simpl. lra.
  - cbn [fold_left]. rewrite length_cons, S_INR.
    rewrite IH by (intros r' Hr'; apply H; now right).
    rewrite (H r) by now left. lra.
Qed.

Lemma mismatch_factor_constant
    (st : StudentData) (code : string) (rows : list Requirement)
    (prereqs_df : list Prereq) (c : R) :
  subject_reqs rows code <> [] ->
  (forall r, In r (subject_reqs rows code) -> requirement_mismatch st r = c) ->
  calculate_prerequisite_mismatch_factor st code (Frame rows) prereqs_df = Ok c.
Proof.
  intros Hne Hc. unfold calculate_prerequisite_mismatch_factor.
  destruct (subject_reqs rows code) as [|r reqs] eqn:E; [congruence|].
  change (Nat.eqb (length (r :: reqs)) 0) with false. cbv iota.
  rewrite (total_mismatch_constant st (r :: reqs) c 0 Hc).
  assert (HT : 0 < INR (length (r :: reqs))) by (apply lt_0_INR; simpl; lia).
  f_equal. field. lra.
Qed.

(** A student who has recorded none of the skills that a subject requires
    gets the full mismatch factor 1. *)
Theorem mismatch_factor_no_recorded_skill
    (st : StudentData) (code : string) (rows : list Requirement)
    (prereqs_df : list Prereq) :
  subject_reqs rows code <> [] ->
  (forall r, In r (subject_reqs rows code) ->
     programming_experience st !! requirement r = None /\
     math_experience st !! requirement r = None) ->
  calculate_prerequisite_mismatch_factor st code (Frame rows) prereqs_df = Ok 1.
Proof.
  intros Hne H. apply mismatch_factor_constant; [exact Hne|].
  intros r Hr. destruct (H r Hr) as [Hp Hm].
  unfold requirement_mismatch, has_skill. rewrite Hp, Hm.
  rewrite !andb_false_r. reflexivity.
Qed.

Lemma mismatch_factor_no_recorded_skill_witness :
  calculate_prerequisite_mismatch_factor
    (sample_student "" (CC_dict ∅) "Python") "CS5002"
    (Frame [mkRequirement "CS5002" "Calculus" "math";
            mkRequirement "CS5002" "Java" "programming"]) []
  = Ok 1.
Proof.
  apply mismatch_factor_no_recorded_skill.
  - discriminate.
  - intros r [<-|[<-|[]]]; split; reflexivity.
Defined.

Lemma proficiency_saturates (level : R) : 3 <= level -> proficiency level = 1.
Proof.
  intros H. unfold proficiency, Rmin, Rmax. case_Rdec; lra.
Qed.

(** A student whose recorded level is 3 or more in every skill that a
    subject requires gets mismatch factor 0: levels above 3 count as 3. *)
Theorem mismatch_factor_full_proficiency
    (st : StudentData) (code : string) (rows : list Requirement)
    (prereqs_df : list Prereq) :
  (forall r, In r (subject_reqs rows code) ->
     (req_type r = "programming" /\
      exists level, programming_experience st !! requirement r = Some level /\ 3 <= level) \/
     (req_type r = "math" /\
      exists level, math_experience st !! requirement r = Some level /\ 3 <= level)) ->
  calculate_prerequisite_mismatch_factor st code (Frame rows) prereqs_df = Ok 0.
Proof.
  intros H.
  destruct (subject_reqs rows code) as [|r0 reqs] eqn:E.
  - apply mismatch_factor_zero_requirements. now rewrite E.
  - apply mismatch_factor_constant; [rewrite E; discriminate|].
    rewrite E. intros r Hr. unfold requirement_mismatch, has_skill, skill_level.
    destruct (H r Hr) as [[Ht (l & Hl & H3)]|[Ht (l & Hl & H3)]]; rewrite Ht, Hl; simpl.
    + rewrite proficiency_saturates by exact H3. lra.
    + rewrite proficiency_saturates by exact H3. lra.
Qed.

Lemma mismatch_factor_full_proficiency_witness :
  calculate_prerequisite_mismatch_factor
    {| NUid := "1"; desired_outcomes := None; core_subjects := "";
       programming_experience := {[ "Python" := 5 ]};
       math_experience := {[ "Calculus" := 3 ]};
       completed_courses := CC_dict ∅; interests := None; semester := None |}
    "CS5002"
    (Frame [mkRequirement "CS5002" "Calculus" "math";
            mkRequirement "CS5002" "Python" "programming"]) []
  = Ok 0.
Proof.
  apply mismatch_factor_full_proficiency.
  intros r [<-|[<-|[]]].
  - right. split; [reflexivity|]. exists 3. split; [reflexivity | lra].
  - left. split; [reflexivity|]. exists 5. split; [reflexivity | lra].
Defined.

Lemma P_final_baseline (w : Weights) : P_final w (P0 w) = 1 / 2.
Proof.
  unfold P_final. replace (- k w * (P0 w - P0 w)) with 0 by ring.
  rewrite exp_0. lra.
Qed.

(** Whatever the weights and the rounding, the burnout probability of a
    weighted factor sum lies between 0 and 1 (the bounds included); with a
    scaling factor that is not negative it is at least one half when the
    sum is at least the baseline [P0], and at most one half when the sum is
    at most [P0]. *)
Theorem burnout_probability_range_and_baseline
    (rnd fexp : R -> R) (w : Weights) (W M S : R) :
  rounding rnd -> exponential fexp ->
  let P := P_prime_rounded rnd w W M S in
  0 <= P_final_rounded rnd fexp w P <= 1 /\
  (0 <= k w -> P0 w <= P -> 1 / 2 <= P_final_rounded rnd fexp w P) /\
  (0 <= k w -> P <= P0 w -> P_final_rounded rnd fexp w P <= 1 / 2).
Proof.
  intros Hr He P. unfold P_final_rounded.
  set (a := rnd (P - P0 w)).
  set (x := rnd (- k w * a)).
  pose proof (denominator_ge_1 rnd fexp x Hr He) as Hd.
  set (d := rnd (1 + fexp x)) in *.
  assert (Hinv : 0 <= 1 / d <= 1).
  { split.
    - unfold Rdiv. rewrite Rmult_1_l. left. apply Rinv_0_lt_compat. lra.
    - apply (Rmult_le_reg_r d); [lra|].
      unfold Rdiv. rewrite Rmult_assoc, Rinv_l by lra. lra. }
  split; [|split].
  - split.
    + apply rnd_nonneg; [exact Hr | lra].
    + apply rnd_le_exact; [exact Hr | now apply rnd_1 | lra].
  - intros Hk HP.
    assert (Ha : 0 <= a) by (apply rnd_nonneg; [exact Hr | lra]).
    assert (Hx : x <= 0) by (apply rnd_nonpos; [exact Hr | nra]).
    pose proof (fexp_monotone fexp He x 0 Hx) as Hfx. rewrite (fexp_0 fexp He) in Hfx.
    assert (Hd2 : d <= 2)
      by (apply rnd_le_exact; [exact Hr | now apply rnd_2 | lra]).
    apply rnd_ge_exact; [exact Hr | now apply rnd_half |].
    apply Rinv_le_of_le; lra.
  - intros Hk HP.
    assert (Ha : a <= 0) by (apply rnd_nonpos; [exact Hr | lra]).
    assert (Hx : 0 <= x) by (apply rnd_nonneg; [exact Hr | nra]).
    pose proof (fexp_monotone fexp He 0 x Hx) as Hfx. rewrite (fexp_0 fexp He) in Hfx.
    assert (Hd2 : 2 <= d)
      by (apply rnd_ge_exact; [exact Hr | now apply rnd_2 | lra]).
    apply rnd_le_exact; [exact Hr | now apply rnd_half |].
    apply Rinv_le_of_le; lra.
Qed.

Lemma burnout_probability_range_and_baseline_witness :
  rounding (fun x => x) /\ exponential exp /\
  0 <= P_final_rounded (fun x => x) exp default_weights
         (P_prime_rounded (fun x => x) default_weights 1 1 1) <= 1.
Proof.
  split; [exact rounding_exact|]. split; [exact exponential_exp|].
  exact (proj1 (burnout_probability_range_and_baseline (fun x => x) exp default_weights 1 1 1
                  rounding_exact exponential_exp)).
Defined.

Lemma clamp_grade_range (g : R) : 0 <= clamp_grade g <= 100.
Proof. unfold clamp_grade, Rmin, Rmax. case_Rdec; lra. Qed.

Lemma shortfall_square_range (g : R) :
  0 <= g <= 100 -> 0 <= ((100 - g) / 100) ^ 2 <= 1.
Proof.
  intros H. assert (H1 : 0 <= (100 - g) / 100 <= 1) by lra.
  simpl. nra.
Qed.

(** The stress value of grades clamped to [0,100] is between 0 and 1 when
    the three category weights are not negative and not all 0. *)
Theorem stress_value_range (GA GE GP Aw Ew Pw : R) :
  0 <= Aw -> 0 <= Ew -> 0 <= Pw -> Aw + Ew + Pw <> 0 ->
  0 <= S_prime_value (clamp_grade GA) (clamp_grade GE) (clamp_grade GP) Aw Ew Pw <= 1.
Proof.
  intros HA HE HP Hsum. unfold S_prime_value.
  pose proof (shortfall_square_range _ (clamp_grade_range GA)) as Ha.
  pose proof (shortfall_square_range _ (clamp_grade_range GE)) as He.
  pose proof (shortfall_square_range _ (clamp_grade_range GP)) as Hp.
  set (a := ((100 - clamp_grade GA) / 100) ^ 2) in *.
  set (e := ((100 - clamp_grade GE) / 100) ^ 2) in *.
  set (p := ((100 - clamp_grade GP) / 100) ^ 2) in *.
  assert (Hpos : 0 < Aw + Ew + Pw) by lra.
  split.
  - apply Rmult_le_pos; [nra | left; now apply Rinv_0_lt_compat].
  - apply (Rmult_le_reg_r (Aw + Ew + Pw)); [exact Hpos|].
    unfold Rdiv. rewrite Rmult_assoc, Rinv_l by lra. nra.
Qed.

Lemma stress_value_range_witness :
  0 <= S_prime_value (clamp_grade 85) (clamp_grade 120) (clamp_grade (-5)) 0.4 0.3 0.3 <= 1.
Proof.
  apply stress_value_range; lra.
Defined.

End FactorProperties.

(** ** The normalization maxima dominate the catalog *)

Section MaxValuesDominance.
Local Open Scope R_scope.

Lemma fold_max_ge (col : list float) (acc : float) (m : R) :
  fold_left
    (fun acc x =>
       match acc, x with
       | None, _ => x
       | Some _, None => acc
       | Some a, Some b => Some (Rmax a b)
       end) col acc = Some m ->
  (forall a, acc = Some a -> a <= m) /\ (forall x, In (Some x) col -> x <= m).
Proof.
  revert acc. induction col as [|c col IH]; intros acc H; simpl in H.
  - split; [intros a Ha; rewrite Ha in H; injection H as <-; lra | intros x []].
  - destruct (IH _ H) as [Hacc Hcol]. destruct acc as [a0|], c as [b|].
    + pose proof (Hacc _ eq_refl) as Hm.
      pose proof (Rmax_l a0 b). pose proof (Rmax_r a0 b). split.
      * intros a [= <-]. lra.
      * intros x [[= <-]|Hx]; [lra | now apply Hcol].
    + split; [exact Hacc|]. intros x [Hx|Hx]; [discriminate | now apply Hcol].
    + split; [discriminate|]. intros x [[= <-]|Hx]; [now apply Hacc | now apply Hcol].
    + split; [discriminate|]. intros x [Hx|Hx]; [discriminate | now apply Hcol].
Qed.

Lemma column_max_dominates (f : Subject -> float) (df : list Subject) (s : Subject) (x : R) :
  In s df -> f s = Some x ->
  exists m, py_max (series_max (map f df)) 1 = Some m /\ 1 <= m /\ x <= m.
Proof.
  intros Hs Hx.
  assert (Hin : In (Some x) (map f df)) by (rewrite <- Hx; now apply in_map).
  destruct (series_max (map f df)) as [m0|] eqn:E.
  - apply fold_max_ge in E as [_ Hcol]. specialize (Hcol x Hin).
    unfold py_max. destruct (Rgt_dec 1 m0); eexists; (split; [reflexivity|]); lra.
  - exfalso. revert E. apply series_max_notna. eauto.
Qed.

(** Each maximum is a number, at least 1 and at least the quantity of every
    subject of the catalog whose cells for that quantity hold numbers: no
    such subject has a normalized term above 1. *)
Theorem max_values_dominate_catalog (subjects_df : list Subject) (s : Subject) :
  In s subjects_df ->
  let mv := precalculate_max_values subjects_df in
  (forall h, hours_per_week s = Some h ->
     exists m, Hmax mv = Some m /\ 1 <= m /\ h <= m) /\
  (forall n h w,
     num_assignments s = Some n -> hours_per_assignment s = Some h ->
     assignment_weight s = Some w ->
     exists m, Amax mv = Some m /\ 1 <= m /\ n * h * w <= m) /\
  (forall g w,
     avg_project_grade s = Some g -> project_weight s = Some w ->
     exists m, Pmax mv = Some m /\ 1 <= m /\ (100 - g) * w <= m) /\
  (forall c g w,
     exam_count s = Some c -> avg_exam_grade s = Some g -> exam_weight s = Some w ->
     exists m, Emax mv = Some m /\ 1 <= m /\ c * (100 - g) * w <= m).
Proof.
  intros Hs mv. subst mv. unfold precalculate_max_values. cbn [Hmax Amax Pmax Emax].
  repeat split.
  - intros h Hh. now apply (column_max_dominates hours_per_week subjects_df s).
  - intros n h w Hn Hh Hw.
    apply (column_max_dominates _ subjects_df s); [exact Hs|].
    cbv beta. rewrite Hn, Hh, Hw. reflexivity.
  - intros g w Hg Hw.
    apply (column_max_dominates _ subjects_df s); [exact Hs|].
    cbv beta. rewrite Hg, Hw. reflexivity.
  - intros c g w Hc Hg Hw.
    apply (column_max_dominates _ subjects_df s); [exact Hs|].
    cbv beta. rewrite Hc, Hg, Hw. reflexivity.
Qed.

Lemma max_values_dominate_catalog_witness :
  In cs5002 [cs5001; cs5002] /\
  exists m, Hmax (precalculate_max_values [cs5001; cs5002]) = Some m /\ 1 <= m /\ 8 <= m.
Proof.
  assert (H : In cs5002 [cs5001; cs5002]) by (simpl; auto).
  split; [exact H|].
  exact (proj1 (max_values_dominate_catalog [cs5001; cs5002] cs5002 H) 8 eq_refl).
Defined.

End MaxValuesDominance.

(** ** calculate_scores ends in an exception *)

Section ScoresExceptions.

Lemma scores_loop_first_exception
    (body : string -> result ScoreRow) (cc : CompletedCourses) (codes : list string)
    (e : PyError) :
  (forall c, In c codes -> py_in c cc = false -> body c = Raise e) ->
  scores_loop body cc codes =
  if forallb (fun c => py_in c cc) codes then Ok [] else Raise e.
Proof.
  induction codes as [|c codes IH]; intros H; simpl; [reflexivity|].
  destruct (py_in c cc) eqn:E; simpl.
  - apply IH. intros c' Hc'. apply H. now right.
  - rewrite (H c) by (simpl; auto). reflexivity.
Qed.

(** [calculate_scores] returns no table.  When every subject of the catalog
    is completed (or the catalog is empty) it raises KeyError, sorting a
    frame that has no column; otherwise it raises the TypeError of
    [calculate_burnout] at the first subject that is not completed. *)
Theorem calculate_scores_exception
    (sd : StudentData) (df : list Subject) (rdf : DataFrame Requirement) (pdf : list Prereq)
    (odf : DataFrame Outcome) :
  ((forall s, In s df -> py_in (subject_code s) (completed_courses sd) = true) ->
   calculate_scores sd df rdf pdf odf = Raise KeyError) /\
  ((exists s, In s df /\ py_in (subject_code s) (completed_courses sd) = false) ->
   calculate_scores sd df rdf pdf odf = Raise TypeError).
Proof.
  assert (Hloop :
    scores_loop (score_subject sd df rdf pdf odf (precalculate_max_values df))
                (completed_courses sd) (map subject_code df)
    = if forallb (fun c => py_in c (completed_courses sd)) (map subject_code df)
      then Ok [] else Raise TypeError).
  { apply scores_loop_first_exception. intros c Hc _.
    rewrite score_subject_raises.
    destruct (get_subject_Some _ _ Hc) as (row & -> & _). reflexivity. }
  unfold calculate_scores. rewrite Hloop. split.
  - intros Hall.
    assert (F : forallb (fun c => py_in c (completed_courses sd)) (map subject_code df) = true).
    { apply forallb_forall. intros c Hc. apply in_map_iff in Hc as (s & <- & Hs).
      now apply Hall. }
    rewrite F. reflexivity.
  - intros (s & Hs & Hn).
    assert (F : forallb (fun c => py_in c (completed_courses sd)) (map subject_code df) = false).
    { apply forallb_false_exists. exists (subject_code s). split; [now apply in_map | exact Hn]. }
    rewrite F. reflexivity.
Qed.

Lemma calculate_scores_exception_witness :
  calculate_scores (sample_student "" (CC_dict {[ "CS5001" := GradeDict None None None ]}) "Python")
                   [cs5001] NoColumns [] NoColumns = Raise KeyError /\
  calculate_scores (sample_student "" (CC_dict {[ "CS5001" := GradeDict None None None ]}) "Python")
                   [cs5001; cs5002] NoColumns [] NoColumns = Raise TypeError.
Proof.
  split.
  - apply (proj1 (calculate_scores_exception _ [cs5001] NoColumns [] NoColumns)).
    intros s [<-|[]]. reflexivity.
  - apply (proj2 (calculate_scores_exception _ [cs5001; cs5002] NoColumns [] NoColumns)).
    exists cs5002. split; [simpl; auto | reflexivity].
Defined.

End ScoresExceptions.

(** ** Outcome alignment and the range of the utility *)

Section AlignmentProperties.
Local Open Scope R_scope.

Lemma jaccard_similarity_sym (set1 set2 : gset string) :
  jaccard_similarity set1 set2 = jaccard_similarity set2 set1.
Proof.
  unfold jaccard_similarity.
  assert (Hi : set1 ∩ set2 = set2 ∩ set1) by apply (comm_L (∩)).
  assert (Hu : set1 ∪ set2 = set2 ∪ set1) by apply (comm_L (∪)).
  rewrite (orb_comm (bool_decide (set1 = ∅))), Hi, Hu. reflexivity.
Qed.

Lemma jaccard_similarity_range (set1 set2 : gset string) :
  0 <= jaccard_similarity set1 set2 <= 1.
Proof.
  unfold jaccard_similarity.
  destruct (bool_decide (set1 = ∅) || bool_decide (set2 = ∅)); [lra|].
  destruct (Nat.eqb_spec (size (set1 ∪ set2)) 0) as [E|E]; [lra|].
  assert (Hle : (size (set1 ∩ set2) <= size (set1 ∪ set2))%nat).
  { apply subseteq_size. intros x Hx. apply elem_of_intersection in Hx as [Hx _].
    apply elem_of_union. now left. }
  assert (Hpos : 0 < INR (size (set1 ∪ set2))) by (apply lt_0_INR; lia).
  apply le_INR in Hle. pose proof (pos_INR (size (set1 ∩ set2))) as H0.
  split.
  - apply Rmult_le_pos; [exact H0 | left; now apply Rinv_0_lt_compat].
  - apply (Rmult_le_reg_r (INR (size (set1 ∪ set2)))); [exact Hpos|].
    unfold Rdiv. rewrite Rmult_assoc, Rinv_l by lra. lra.
Qed.

(** The Jaccard similarity is symmetric and lies between 0 and 1. *)
Theorem jaccard_similarity_symmetric_bounded (set1 set2 : gset string) :
  jaccard_similarity set1 set2 = jaccard_similarity set2 set1 /\
  0 <= jaccard_similarity set1 set2 <= 1.
Proof.
  split; [apply jaccard_similarity_sym | apply jaccard_similarity_range].
Qed.

(** The similarity of a set that is not empty with itself is 1, and the
    similarity of two sets without a common element is 0. *)
Theorem jaccard_similarity_extremes (set1 set2 : gset string) :
  (set1 <> ∅ -> jaccard_similarity set1 set1 = 1) /\
  (set1 ∩ set2 = ∅ -> jaccard_similarity set1 set2 = 0).
Proof.
  split.
  - intros Hne. unfold jaccard_similarity.
    rewrite bool_decide_false by exact Hne. simpl.
    assert (Hi : set1 ∩ set1 = set1) by apply (idemp_L (∩)).
    assert (Hu : set1 ∪ set1 = set1) by apply (idemp_L (∪)).
    rewrite Hi, Hu.
    assert (Hs : size set1 <> 0%nat).
    { intros Hs. apply size_empty_iff in Hs. apply Hne. now apply leibniz_equiv. }
    destruct (Nat.eqb_spec (size set1) 0) as [E|E]; [congruence|].
    apply Rinv_r. apply not_0_INR. exact Hs.
  - intros Hd. unfold jaccard_similarity. rewrite Hd, size_empty.
    destruct (bool_decide (set1 = ∅) || bool_decide (set2 = ∅)); [reflexivity|].
    destruct (Nat.eqb (size (set1 ∪ set2)) 0); [reflexivity|].
    simpl. lra.
Qed.

Lemma jaccard_similarity_extremes_witness :
  jaccard_similarity {[ "Python" ]} {[ "Python" ]} = 1 /\
  jaccard_similarity {[ "Python" ]} {[ "Logic" ]} = 0.
Proof.
  split.
  - apply (proj1 (jaccard_similarity_extremes {[ "Python" ]} ∅)).
    intros H. assert (Hin : "Python" ∈ ({[ "Python" ]} : gset string)) by set_solver.
    rewrite H in Hin. set_solver.
  - apply (proj2 (jaccard_similarity_extremes {[ "Python" ]} {[ "Logic" ]})).
    apply leibniz_equiv. apply disjoint_intersection.
    apply disjoint_singleton_l. intros H. apply elem_of_singleton in H. discriminate H.
Defined.

Lemma outcome_alignment_range
    (sd : StudentData) (code : string) (outcomes_df : DataFrame Outcome) (oas : R) :
  calculate_outcome_alignment_score sd code outcomes_df = Ok oas -> 0 <= oas <= 1.
Proof.
  unfold calculate_outcome_alignment_score.
  destruct (desired_outcomes sd) as [d|]; [|intros [= <-]; lra].
  destruct (negb (nonempty d)); [intros [= <-]; lra|].
  destruct outcomes_df as [|rows]; [discriminate|].
  intros [= <-]. apply jaccard_similarity_range.
Qed.

(** The outcome alignment score is 0 when the student gives no desired
    outcome (none, not a string, or the empty string), whatever the outcome
    table.  Otherwise the call raises KeyError on the outcome table without
    columns, and on a table that has its columns it returns a score between
    0 and 1, which is 0 when the subject has no outcome row. *)
Theorem outcome_alignment_range_and_zero
    (sd : StudentData) (code : string) (outcomes_df : DataFrame Outcome) :
  (desired_outcomes sd = None \/ desired_outcomes sd = Some "" ->
   calculate_outcome_alignment_score sd code outcomes_df = Ok 0) /\
  (forall d, desired_outcomes sd = Some d -> d <> "" ->
   match outcomes_df with
   | NoColumns => calculate_outcome_alignment_score sd code outcomes_df = Raise KeyError
   | Frame rows =>
       exists oas,
         calculate_outcome_alignment_score sd code outcomes_df = Ok oas /\
         0 <= oas <= 1 /\
         ((forall o, In o rows -> out_subject_code o <> code) -> oas = 0)
   end).
Proof.
  split.
  - unfold calculate_outcome_alignment_score. intros [->| ->]; reflexivity.
  - intros d Hd Hne.
    assert (Hn : negb (nonempty d) = false) by (destruct d; [congruence | reflexivity]).
    destruct outcomes_df as [|rows].
    + unfold calculate_outcome_alignment_score. rewrite Hd, Hn. reflexivity.
    + destruct (calculate_outcome_alignment_score sd code (Frame rows)) as [oas|e] eqn:Hc;
        [|unfold calculate_outcome_alignment_score in Hc; rewrite Hd, Hn in Hc; discriminate].
      exists oas. split; [reflexivity|].
      split; [exact (outcome_alignment_range sd code (Frame rows) oas Hc)|].
      intros Hnone. unfold calculate_outcome_alignment_score in Hc. rewrite Hd, Hn in Hc.
      assert (E : List.filter (fun o => String.eqb (out_subject_code o) code) rows = []).
      { clear Hc. induction rows as [|o l IH]; [reflexivity|]. simpl.
        destruct (String.eqb_spec (out_subject_code o) code) as [Heq|Hneq].
        - exfalso. apply (Hnone o); [now left | exact Heq].
        - apply IH. intros o' Ho'. apply Hnone. now right. }
      rewrite E in Hc. simpl in Hc. unfold jaccard_similarity in Hc.
      rewrite (bool_decide_true (∅ = ∅)) in Hc by reflexivity.
      rewrite orb_true_r in Hc. now injection Hc as <-.
Qed.

Lemma outcome_alignment_range_and_zero_witness :
  desired_outcomes (sample_student "" (CC_dict ∅) "Python") = Some "Python" /\
  "Python" <> "" /\
  exists oas,
    calculate_outcome_alignment_score
      (sample_student "" (CC_dict ∅) "Python") "CS5001" (Frame [mkOutcome "CS5002" "Logic"])
    = Ok oas /\
    0 <= oas <= 1 /\
    ((forall o, In o [mkOutcome "CS5002" "Logic"] -> out_subject_code o <> "CS5001") ->
     oas = 0).
Proof.
  assert (Hd : desired_outcomes (sample_student "" (CC_dict ∅) "Python") = Some "Python")
    by reflexivity.
  assert (Hne : "Python" <> "") by discriminate.
  split; [exact Hd|]. split; [exact Hne|].
  exact (proj2 (outcome_alignment_range_and_zero
                  (sample_student "" (CC_dict ∅) "Python") "CS5001"
                  (Frame [mkOutcome "CS5002" "Logic"])) "Python" Hd Hne).
Defined.

Lemma prereq_penalty_cases (sd : StudentData) (prereqs : list string) :
  (prereq_penalty sd prereqs = 0 /\
   forallb (fun p => py_in p (completed_courses sd)) prereqs = true) \/
  (prereq_penalty sd prereqs = 1 /\
   forallb (fun p => py_in p (completed_courses sd)) prereqs = false).
Proof.
  unfold prereq_penalty. destruct prereqs as [|p ps]; [left; auto|].
  destruct (forallb (fun p => py_in p (completed_courses sd)) (p :: ps)); simpl; auto.
Qed.

(** With the default weights the utility formed from an alignment score
    that [calculate_outcome_alignment_score] returns, a burnout probability
    between 0 and 1 and the prerequisite penalty lies between -0.5 and 1,
    the bounds included. *)
Theorem utility_default_range
    (sd : StudentData) (code : string) (outcomes_df : DataFrame Outcome) (prereqs_df : list Prereq)
    (oas burnout_prob : R) :
  calculate_outcome_alignment_score sd code outcomes_df = Ok oas ->
  0 <= burnout_prob <= 1 ->
  - (1 / 2)
  <= utility_value default_utility_weights oas burnout_prob
       (prereq_penalty sd (prereqs_of prereqs_df code))
  <= 1.
Proof.
  intros Ho Hb. apply outcome_alignment_range in Ho.
  unfold utility_value. simpl.
  destruct (prereq_penalty_cases sd (prereqs_of prereqs_df code)) as [[-> _]|[-> _]]; lra.
Qed.

Lemma utility_default_range_witness :
  calculate_outcome_alignment_score
    (sample_student "" (CC_set {["CS5001"]}) "") "CS5003"
    (pd_DataFrame [mkOutcome "CS5003" "Logic"])
  = Ok 0 /\
  0 <= 1 <= 1 /\
  - (1 / 2)
  <= utility_value default_utility_weights 0 1
       (prereq_penalty (sample_student "" (CC_set {["CS5001"]}) "")
          (prereqs_of [mkPrereq "CS5003" "CS5002"] "CS5003"))
  <= 1.
Proof.
  assert (Ho : calculate_outcome_alignment_score
                 (sample_student "" (CC_set {["CS5001"]}) "") "CS5003"
                 (pd_DataFrame [mkOutcome "CS5003" "Logic"]) = Ok 0) by reflexivity.
  assert (Hb : 0 <= 1 <= 1) by lra.
  split; [exact Ho|]. split; [exact Hb|].
  exact (utility_default_range (sample_student "" (CC_set {["CS5001"]}) "") "CS5003"
           (pd_DataFrame [mkOutcome "CS5003" "Logic"]) [mkPrereq "CS5003" "CS5002"]
           0 1 Ho Hb).
Defined.

End AlignmentProperties.

(** ** The shapes of completed_courses *)

Section ShapeProperties.

Lemma in_list_In (x : string) (l : list string) : in_list x l = true <-> In x l.
Proof.
  unfold in_list. rewrite existsb_exists. split.
  - intros (y & Hy & E). apply String.eqb_eq in E. now subst.
  - intros H. exists x. split; [exact H | apply String.eqb_refl].
Qed.

Lemma in_list_elem_of (x : string) (l : list string) :
  in_list x l = true <-> x ∈ (list_to_set l : gset string).
Proof.
  rewrite in_list_In, elem_of_list_to_set. symmetry. apply list_elem_of_In.
Qed.

(** On a dict, a set or a list the membership test is membership in the
    set that [prerequisites_satisfied] builds. *)
Lemma py_in_completed_set (p : string) (cc : CompletedCourses) :
  (forall s, cc <> CC_str s) ->
  (py_in p cc = true <-> p ∈ completed_set cc).
Proof.
  intros Hstr. destruct cc as [d|s|l|s]; simpl.
  - rewrite bool_decide_eq_true. symmetry. apply elem_of_dom.
  - apply bool_decide_eq_true.
  - apply in_list_elem_of.
  - exfalso. now apply (Hstr s).
Qed.

Lemma bool_eq_iff (a b : bool) : (a = true <-> b = true) -> a = b.
Proof. destruct a, b; intuition congruence. Qed.

Lemma is_Some_gset_to_gmap {A : Type} (v : A) (X : gset string) (p : string) :
  is_Some (gset_to_gmap v X !! p) <-> p ∈ X.
Proof.
  split.
  - intros [x Hx]. apply lookup_gset_to_gmap_Some in Hx as [H _]. exact H.
  - intros H. exists v. apply lookup_gset_to_gmap_Some. auto.
Qed.

Lemma standardize_py_in (sd : StudentData) (for_burnout : bool) (p : string) :
  py_in p (completed_courses (standardize_student_data sd for_burnout))
  = py_in p (completed_courses sd).
Proof.
  apply bool_eq_iff. unfold standardize_student_data. cbn [completed_courses].
  destruct for_burnout, (completed_courses sd) as [d|s|l|s]; cbn [py_in]; try reflexivity.
  - rewrite !bool_decide_eq_true. apply is_Some_gset_to_gmap.
  - rewrite bool_decide_eq_true, is_Some_gset_to_gmap. symmetry. apply in_list_elem_of.
  - rewrite !bool_decide_eq_true. apply elem_of_dom.
  - rewrite bool_decide_eq_true. symmetry. apply in_list_elem_of.
Qed.

Lemma standardize_completed_set (sd : StudentData) (for_burnout : bool) :
  completed_set (completed_courses (standardize_student_data sd for_burnout))
  = completed_set (completed_courses sd).
Proof.
  unfold standardize_student_data. cbn [completed_courses].
  destruct for_burnout, (completed_courses sd) as [d|s|l|s]; cbn [completed_set];
    try reflexivity; apply dom_gset_to_gmap.
Qed.

(** Standardizing a student record, for either module, changes neither
    which codes count as completed nor the outcome of the prerequisite
    check. *)
Theorem standardize_keeps_completed
    (sd : StudentData) (for_burnout : bool) (code : string) (prereqs_df : list Prereq) :
  py_in code (completed_courses (standardize_student_data sd for_burnout))
  = py_in code (completed_courses sd) /\
  prerequisites_satisfied code (standardize_student_data sd for_burnout) prereqs_df
  = prerequisites_satisfied code sd prereqs_df.
Proof.
  split; [apply standardize_py_in|].
  unfold prerequisites_satisfied. rewrite standardize_completed_set. reflexivity.
Qed.

(** Standardizing twice for the same module is standardizing once, as when
    [calculate_utility] passes a standardized record to [calculate_burnout],
    which standardizes it again. *)
Theorem standardize_idempotent (sd : StudentData) (for_burnout : bool) :
  standardize_student_data (standardize_student_data sd for_burnout) for_burnout
  = standardize_student_data sd for_burnout.
Proof.
  unfold standardize_student_data. cbn.
  destruct for_burnout, (completed_courses sd); reflexivity.
Qed.

(** From the recommender's set to the burnout calculator's dict and back
    gives the record of the start; from a dict to the set and back keeps
    the course codes and replaces every recorded grade entry by an empty
    one. *)
Theorem standardize_round_trip (sd : StudentData) :
  (forall s, completed_courses sd = CC_set s ->
     standardize_student_data (standardize_student_data sd true) false = sd) /\
  (forall d, completed_courses sd = CC_dict d ->
     completed_courses (standardize_student_data (standardize_student_data sd false) true)
     = CC_dict (gset_to_gmap (GradeDict None None None) (dom d))).
Proof.
  split.
  - intros s Hs. destruct sd as [n d c pe me cc i sem]. simpl in Hs. subst cc.
    unfold standardize_student_data. cbn. rewrite dom_gset_to_gmap. reflexivity.
  - intros d Hd. unfold standardize_student_data. cbn. rewrite Hd. reflexivity.
Qed.

Lemma standardize_round_trip_witness :
  standardize_student_data
    (standardize_student_data (sample_student "" (CC_set {[ "CS5001" ]}) "Python") true) false
  = sample_student "" (CC_set {[ "CS5001" ]}) "Python".
Proof.
  exact (proj1 (standardize_round_trip (sample_student "" (CC_set {[ "CS5001" ]}) "Python"))
               {[ "CS5001" ]} eq_refl).
Defined.

Lemma prereq_penalty_zero_iff (sd : StudentData) (prereqs : list string) :
  prereq_penalty sd prereqs = 0%R <->
  forall p, In p prereqs -> py_in p (completed_courses sd) = true.
Proof.
  destruct (prereq_penalty_cases sd prereqs) as [[-> F]|[-> F]].
  - split; [|reflexivity]. intros _. now apply forallb_forall.
  - split; [intros H; exfalso; lra|].
    intros H. rewrite (proj2 (forallb_forall _ _) H) in F. discriminate F.
Qed.

(** For a student whose completed courses are a dict, a set or a list, the
    prerequisite check of the recommender and the prerequisite penalty of
    the utility agree: the check succeeds exactly when the penalty is 0. *)
Theorem prerequisite_checks_agree
    (sd : StudentData) (code : string) (prereqs_df : list Prereq) :
  (forall s, completed_courses sd <> CC_str s) ->
  (prerequisites_satisfied code sd prereqs_df = true <->
   prereq_penalty sd (prereqs_of prereqs_df code) = 0%R).
Proof.
  intros Hstr. rewrite prereq_penalty_zero_iff.
  unfold prerequisites_satisfied. rewrite bool_decide_eq_true. split.
  - intros Hsub p Hp. apply py_in_completed_set; [exact Hstr|].
    apply Hsub. apply elem_of_list_to_set, list_elem_of_In, Hp.
  - intros Hall p Hp. apply elem_of_list_to_set, list_elem_of_In in Hp.
    apply py_in_completed_set; [exact Hstr|]. now apply Hall.
Qed.

Lemma prerequisite_checks_agree_witness :
  prerequisites_satisfied "CS5002" (sample_student "" (CC_list ["CS5001"]) "Python")
                          [mkPrereq "CS5002" "CS5001"] = true <->
  prereq_penalty (sample_student "" (CC_list ["CS5001"]) "Python")
                 (prereqs_of [mkPrereq "CS5002" "CS5001"] "CS5002") = 0%R.
Proof.
  apply prerequisite_checks_agree. intros s. discriminate.
Defined.

(** On a str the two differ: the check splits, strips and upper-cases the
    items, the penalty looks for the code as a substring. *)
Example prerequisite_checks_differ_on_str :
  let sd := sample_student "" (CC_str "cs5001") "Python" in
  prerequisites_satisfied "CS5002" sd [mkPrereq "CS5002" "CS5001"] = true /\
  prereq_penalty sd (prereqs_of [mkPrereq "CS5002" "CS5001"] "CS5002") = 1%R.
Proof. split; reflexivity. Qed.

End ShapeProperties.

(** ** The burnout table and its duplicates *)

Section BurnoutTableProperties.

Lemma burnout_row_of_hd (df : list BurnoutRow) (code : string) :
  burnout_row_of (Some df) code
  = hd_error (List.filter (fun r => String.eqb (bs_subject_code r) code) df).
Proof.
  unfold burnout_row_of.
  destruct (List.filter (fun r => String.eqb (bs_subject_code r) code) df); reflexivity.
Qed.

Lemma drop_duplicates_first (seen : gset string) (df : list BurnoutRow) (code : string) :
  hd_error (List.filter (fun r => String.eqb (bs_subject_code r) code)
                        (drop_duplicates seen df))
  = if bool_decide (code ∈ seen) then None
    else hd_error (List.filter (fun r => String.eqb (bs_subject_code r) code) df).
Proof.
  revert seen. induction df as [|row rest IH]; intros seen; simpl.
  - now destruct (bool_decide (code ∈ seen)).
  - destruct (bool_decide_reflect (bs_subject_code row ∈ seen)) as [Hin|Hout].
    + rewrite IH. destruct (String.eqb_spec (bs_subject_code row) code) as [E|E].
      * subst code. rewrite bool_decide_true by exact Hin. reflexivity.
      * reflexivity.
    + simpl. destruct (String.eqb_spec (bs_subject_code row) code) as [E|E].
      * subst code. rewrite bool_decide_false by exact Hout. reflexivity.
      * rewrite IH.
        destruct (bool_decide_reflect (code ∈ seen)) as [Hc|Hc].
        -- rewrite bool_decide_true; [reflexivity|]. apply elem_of_union. now right.
        -- rewrite bool_decide_false; [reflexivity|]. intros Hu.
           apply elem_of_union in Hu as [Hu|Hu]; [|exact (Hc Hu)].
           apply elem_of_singleton in Hu. congruence.
Qed.

Lemma drop_duplicates_NoDup (seen : gset string) (df : list BurnoutRow) :
  List.NoDup (map bs_subject_code (drop_duplicates seen df)) /\
  (forall r, In r (drop_duplicates seen df) -> bs_subject_code r ∉ seen).
Proof.
  revert seen. induction df as [|row rest IH]; intros seen; simpl.
  - split; [constructor | intros r []].
  - destruct (bool_decide_reflect (bs_subject_code row ∈ seen)) as [Hin|Hout].
    + apply IH.
    + destruct (IH ({[ bs_subject_code row ]} ∪ seen)) as [Hnd Hseen]. split.
      * simpl. apply List.NoDup_cons; [|exact Hnd].
        intros Hm. apply in_map_iff in Hm as (r & Hr & Hin).
        apply (Hseen r Hin). apply elem_of_union. left. apply elem_of_singleton. exact Hr.
      * intros r [<-|Hr]; [exact Hout|].
        intros Hs. apply (Hseen r Hr). apply elem_of_union. now right.
Qed.

Lemma matching_loop_ext (f g : Subject -> option MatchingCourse) (df : list Subject) :
  (forall c, f c = g c) -> matching_loop f df = matching_loop g df.
Proof.
  intros H. induction df as [|c df IH]; simpl; [reflexivity|].
  rewrite H, IH. reflexivity.
Qed.

(** [load_burnout_scores] leaves one row per subject code, and the row that
    [find_matching_courses] reads for a subject is the same with or without
    the removal of duplicates: the recommendations do not depend on it. *)
Theorem load_burnout_scores_keeps_first_rows
    (file : option (list BurnoutRow)) (sd : StudentData) (df : list Subject)
    (odf : DataFrame Outcome) (pdf : list Prereq) (cdf : list Coreq) :
  (forall scores, load_burnout_scores file = Some scores ->
     List.NoDup (map bs_subject_code scores)) /\
  (forall code, burnout_row_of (load_burnout_scores file) code = burnout_row_of file code) /\
  find_matching_courses sd df odf pdf cdf (load_burnout_scores file)
  = find_matching_courses sd df odf pdf cdf file.
Proof.
  assert (Hrow : forall code,
    burnout_row_of (load_burnout_scores file) code = burnout_row_of file code).
  { intros code. destruct file as [scores|]; [|reflexivity].
    unfold load_burnout_scores. rewrite !burnout_row_of_hd, drop_duplicates_first.
    rewrite bool_decide_false; [reflexivity | apply not_elem_of_empty]. }
  split; [|split; [exact Hrow|]].
  - intros scores. destruct file as [raw|]; [|discriminate].
    intros [= <-]. apply drop_duplicates_NoDup.
  - unfold find_matching_courses. destruct (interests sd) as [i|]; [|reflexivity].
    f_equal. f_equal. apply matching_loop_ext. intros c.
    unfold match_course, course_score. rewrite !Hrow. reflexivity.
Qed.

Lemma load_burnout_scores_keeps_first_rows_witness :
  let file := Some [mkBurnoutRow "CS5001" 0.4 0.2; mkBurnoutRow "CS5002" 0.6 0.1;
                    mkBurnoutRow "CS5001" 0.9 (-0.1)] in
  load_burnout_scores file
  = Some [mkBurnoutRow "CS5001" 0.4 0.2; mkBurnoutRow "CS5002" 0.6 0.1] /\
  List.NoDup (map bs_subject_code
                  [mkBurnoutRow "CS5001" 0.4 0.2; mkBurnoutRow "CS5002" 0.6 0.1]) /\
  burnout_row_of (load_burnout_scores file) "CS5001" = burnout_row_of file "CS5001".
Proof.
  intros file.
  assert (Hl : load_burnout_scores file
               = Some [mkBurnoutRow "CS5001" 0.4 0.2; mkBurnoutRow "CS5002" 0.6 0.1])
    by reflexivity.
  destruct (load_burnout_scores_keeps_first_rows file (sample_student "" (CC_set ∅) "ai")
              [] NoColumns [] []) as (Hnd & Hrow & _).
  split; [exact Hl|]. split; [exact (Hnd _ Hl) | apply Hrow].
Defined.

End BurnoutTableProperties.

(** ** The enrollment likelihood *)

Section LikelihoodProperties.
Local Open Scope Q_scope.

Lemma py_min_le_l (a b : Q) : py_min a b <= a.
Proof. rewrite py_min_Qmin. apply Q.le_min_l. Qed.

Lemma py_min_le_r (a b : Q) : py_min a b <= b.
Proof. rewrite py_min_Qmin. apply Q.le_min_r. Qed.

Lemma py_min_pos (a b : Q) : 0 < a -> 0 < b -> 0 < py_min a b.
Proof. intros Ha Hb. unfold py_min. now destruct (Qltb b a). Qed.

(** The base likelihood of [calculate_enrollment_likelihood]. *)
Lemma base_likelihood_pos (seats enrollments : Q) :
  let seats_ratio := if Qltb 0 seats then (seats - enrollments) / seats else 0 in
  0 < (if Qle_bool seats_ratio 0 then 0.1 else seats_ratio).
Proof.
  intros r. destruct (Qle_bool r 0) eqn:E; [reflexivity|].
  apply Qnot_le_lt. intros H. apply Qle_bool_iff in H. congruence.
Qed.

Lemma base_likelihood_le_1 (seats enrollments : Q) :
  0 <= enrollments ->
  let seats_ratio := if Qltb 0 seats then (seats - enrollments) / seats else 0 in
  (if Qle_bool seats_ratio 0 then 0.1 else seats_ratio) <= 1.
Proof.
  intros He r. destruct (Qle_bool r 0); [discriminate|]. subst r.
  destruct (Qltb 0 seats) eqn:E; [|discriminate].
  apply Qltb_lt in E. apply Qle_shift_div_r; [exact E | Lqa.lra].
Qed.

Lemma base_likelihood_full (seats enrollments : Q) :
  seats <= 0 \/ seats <= enrollments ->
  let seats_ratio := if Qltb 0 seats then (seats - enrollments) / seats else 0 in
  (if Qle_bool seats_ratio 0 then 0.1 else seats_ratio) = 0.1.
Proof.
  intros Hfull r.
  assert (Hr : r <= 0).
  { subst r. destruct (Qltb 0 seats) eqn:E; [|apply Qle_refl].
    apply Qltb_lt in E. destruct Hfull as [H|H]; [Lqa.lra|].
    apply Qle_shift_div_r; [exact E | Lqa.lra]. }
  apply Qle_bool_iff in Hr. now rewrite Hr.
Qed.

(** The likelihood never exceeds 1, and it is positive for a positive
    semester number: no course gets likelihood 0, a full one neither. *)
Theorem enrollment_likelihood_range (sem : Q) (is_core : bool) (seats enrollments : Q) :
  calculate_enrollment_likelihood sem is_core seats enrollments <= 1 /\
  (0 < sem -> 0 < calculate_enrollment_likelihood sem is_core seats enrollments).
Proof.
  unfold calculate_enrollment_likelihood. split; [apply py_min_le_r|].
  intros Hs. pose proof (base_likelihood_pos seats enrollments) as Hb. cbv zeta in Hb.
  set (base := if Qle_bool _ 0 then 0.1 else _) in *.
  assert (Hm : 0 < py_min (sem / 4) 1).
  { apply py_min_pos; [|reflexivity]. apply Qlt_shift_div_l; [reflexivity | Lqa.lra]. }
  apply py_min_pos; [|reflexivity].
  assert (Hc : 0 < (if is_core then 1.5 else 1)) by (destruct is_core; reflexivity).
  apply Qmult_lt_0_compat; [apply Qmult_lt_0_compat|]; assumption.
Qed.

Lemma enrollment_likelihood_range_witness :
  0 < 1 /\ 0 < calculate_enrollment_likelihood 1 false 30 45.
Proof.
  assert (H : 0 < 1) by reflexivity.
  split; [exact H|].
  exact (proj2 (enrollment_likelihood_range 1 false 30 45) H).
Defined.

(** A course without a free seat has likelihood at most 0.15, below the 0.3
    of the split, whatever the semester and the core status. *)
Lemma full_course_likelihood (sem : Q) (is_core : bool) (seats enrollments : Q) :
  seats <= 0 \/ seats <= enrollments ->
  calculate_enrollment_likelihood sem is_core seats enrollments <= 0.15.
Proof.
  intros Hfull. unfold calculate_enrollment_likelihood.
  pose proof (base_likelihood_full seats enrollments Hfull) as Hb. cbv zeta in Hb.
  rewrite Hb.
  pose proof (py_min_le_r (sem / 4) 1) as Hm. set (m := py_min (sem / 4) 1) in *.
  eapply Qle_trans; [apply py_min_le_l|].
  destruct is_core; Lqa.lra.
Qed.

(** In the first semester a course that is not core has likelihood at most
    0.25 when its enrollment count is not negative. *)
Lemma first_semester_likelihood (sem seats enrollments : Q) :
  sem <= 1 -> 0 <= enrollments ->
  calculate_enrollment_likelihood sem false seats enrollments <= 0.25.
Proof.
  intros Hs He. unfold calculate_enrollment_likelihood.
  pose proof (base_likelihood_pos seats enrollments) as Hb0.
  pose proof (base_likelihood_le_1 seats enrollments He) as Hb1. cbv zeta in Hb0, Hb1.
  set (base := if Qle_bool _ 0 then 0.1 else _) in *.
  assert (Hm : py_min (sem / 4) 1 <= 0.25).
  { eapply Qle_trans; [apply py_min_le_l|]. apply Qle_shift_div_r; [reflexivity | Lqa.lra]. }
  set (m := py_min (sem / 4) 1) in *.
  eapply Qle_trans; [apply py_min_le_l|].
  destruct (Qlt_le_dec m 0) as [Hneg|Hpos]; Lqa.nra.
Qed.

End LikelihoodProperties.

(** ** Invariants of the matching output *)

Section MatchingOutputProperties.
Local Open Scope Q_scope.

Lemma find_matching_courses_entry
    (sd : StudentData) (df : list Subject) (odf : DataFrame Outcome) (pdf : list Prereq)
    (cdf : list Coreq) (bdf : option (list BurnoutRow)) (out : list MatchingCourse)
    (m : MatchingCourse) :
  find_matching_courses sd df odf pdf cdf bdf = Ok out -> In m out ->
  exists i course,
    interests sd = Some i /\ In course df /\
    match_course sd (student_interests_of i) pdf bdf course = Some m.
Proof.
  unfold find_matching_courses. destruct (interests sd) as [i|]; [|discriminate].
  intros [= <-] Hin. apply sort_by_In, matching_loop_In in Hin as (course & Hc & Hm).
  exists i, course. auto.
Qed.

Lemma match_course_fields
    (sd : StudentData) (ints : list string) (pdf : list Prereq)
    (bdf : option (list BurnoutRow)) (course : Subject) (m : MatchingCourse) :
  match_course sd ints pdf bdf course = Some m ->
  mc_seats m = default 0 (Seats course) /\
  mc_enrollments m = default 0 (Enrollments course) /\
  (mc_is_core m = false ->
   mc_match_score m = fst (course_score sd ints pdf bdf course) /\
   0.3 < mc_match_score m).
Proof.
  unfold match_course.
  destruct (py_in (subject_code course) (completed_courses sd)); [discriminate|].
  destruct (is_core_subject sd (subject_code course)).
  - rewrite orb_true_r. intros [= <-]. simpl.
    split; [reflexivity|]. split; [reflexivity|]. discriminate.
  - rewrite orb_false_r.
    destruct (Qltb 0.3 (fst (course_score sd ints pdf bdf course))) eqn:Hs; [|discriminate].
    intros [= <-]. simpl. split; [reflexivity|]. split; [reflexivity|].
    intros _. split; [reflexivity | now apply Qltb_lt].
Qed.

(** Every entry of the output comes from a subject of the catalog, and an
    entry that is not core has a match score above 0.3. *)
Theorem matching_output_entries
    (sd : StudentData) (df : list Subject) (odf : DataFrame Outcome) (pdf : list Prereq)
    (cdf : list Coreq) (bdf : option (list BurnoutRow)) (out : list MatchingCourse)
    (m : MatchingCourse) :
  find_matching_courses sd df odf pdf cdf bdf = Ok out -> In m out ->
  In (mc_subject_code m) (map subject_code df) /\
  (mc_is_core m = false -> 0.3 < mc_match_score m).
Proof.
  intros Hf Hin.
  destruct (find_matching_courses_entry _ _ _ _ _ _ _ _ Hf Hin) as (i & course & _ & Hc & Hm).
  destruct (match_course_Some _ _ _ _ _ _ Hm) as (_ & Hcode & _).
  destruct (match_course_fields _ _ _ _ _ _ Hm) as (_ & _ & Hscore). split.
  - rewrite Hcode. now apply in_map.
  - intros Hn. now apply Hscore.
Qed.

Lemma matching_output_entries_witness :
  let sd := sample_student "" (CC_set ∅) "computer science" in
  exists m,
    find_matching_courses sd [cs5001; cs5002] NoColumns [] [] None = Ok [m] /\
    In (mc_subject_code m) (map subject_code [cs5001; cs5002]) /\
    0.3 < mc_match_score m.
Proof.
  intros sd.
  destruct (find_matching_courses sd [cs5001; cs5002] NoColumns [] [] None) as [[|m [|]]|] eqn:Hf;
    try (vm_compute in Hf; discriminate Hf).
  destruct (matching_output_entries sd _ _ _ _ _ _ m Hf (or_introl eq_refl)) as [Hc Hs].
  exists m. repeat split; [exact Hc|]. apply Hs.
  vm_compute in Hf. injection Hf as <-. reflexivity.
Defined.

Lemma matching_loop_codes
    (f : Subject -> option MatchingCourse) (df : list Subject) :
  (forall c m, f c = Some m -> mc_subject_code m = subject_code c) ->
  List.NoDup (map subject_code df) ->
  List.NoDup (map mc_subject_code (matching_loop f df)).
Proof.
  intros Hf. induction df as [|c df IH]; simpl; intros Hnd; [constructor|].
  apply List.NoDup_cons_iff in Hnd as [Hc Hnd].
  destruct (f c) as [m|] eqn:E; [|now apply IH].
  simpl. apply List.NoDup_cons; [|now apply IH].
  intros Hin. apply in_map_iff in Hin as (m' & Hcode & Hm').
  apply matching_loop_In in Hm' as (c' & Hc' & Hfc').
  apply Hc. rewrite <- (Hf c m E), <- Hcode, (Hf c' m' Hfc'). now apply in_map.
Qed.

(** When the subject codes of the catalog are pairwise different, so are
    the subject codes of the output: no subject is listed twice. *)
Theorem matching_output_no_duplicates
    (sd : StudentData) (df : list Subject) (odf : DataFrame Outcome) (pdf : list Prereq)
    (cdf : list Coreq) (bdf : option (list BurnoutRow)) (out : list MatchingCourse) :
  List.NoDup (map subject_code df) ->
  find_matching_courses sd df odf pdf cdf bdf = Ok out ->
  List.NoDup (map mc_subject_code out).
Proof.
  intros Hnd. unfold find_matching_courses.
  destruct (interests sd) as [i|]; [|discriminate]. intros [= <-].
  eapply Permutation_NoDup.
  - apply Permutation_map. symmetry. apply sort_by_perm.
  - apply matching_loop_codes; [|exact Hnd].
    intros c m Hm. now destruct (match_course_Some _ _ _ _ _ _ Hm) as (_ & Hcode & _).
Qed.

Lemma matching_output_no_duplicates_witness :
  let sd := sample_student "CS5002" (CC_set ∅) "computer science" in
  exists out,
    find_matching_courses sd [cs5001; cs5002] NoColumns [] [] None = Ok out /\
    length out = 2%nat /\ List.NoDup (map mc_subject_code out).
Proof.
  intros sd.
  assert (Hnd : List.NoDup (map subject_code [cs5001; cs5002])).
  { simpl. repeat constructor; simpl; intuition discriminate. }
  destruct (find_matching_courses sd [cs5001; cs5002] NoColumns [] [] None) as [out|] eqn:Hf;
    [|vm_compute in Hf; discriminate Hf].
  exists out. split; [reflexivity|]. split.
  - vm_compute in Hf. injection Hf as <-. reflexivity.
  - exact (matching_output_no_duplicates sd _ _ _ _ _ _ Hnd Hf).
Defined.

Lemma StronglySorted_nth {A : Type} (R : A -> A -> Prop) (l : list A) :
  StronglySorted R l ->
  forall (i j : nat) (x y : A),
    (i < j)%nat -> nth_error l i = Some x -> nth_error l j = Some y -> R x y.
Proof.
  induction 1 as [|a l Hs IH Ha]; intros i j x y Hij Hi Hj.
  - destruct i; discriminate.
  - destruct j as [|j]; [lia|]. simpl in Hj. destruct i as [|i]; simpl in Hi.
    + injection Hi as <-. rewrite List.Forall_forall in Ha.
      apply Ha. eapply nth_error_In, Hj.
    + apply (IH i j); [lia | assumption | assumption].
Qed.



End MatchingOutputProperties.

(** ** The two lists of generate_recommendations *)

Section SplitProperties.
Local Open Scope Q_scope.

Lemma generate_recommendations_inv
    (sd : StudentData) (df : list Subject) (odf : DataFrame Outcome) (pdf : list Prereq)
    (cdf : list Coreq) (bdf : option (list BurnoutRow)) (extra : list string)
    (rec comp : list MatchingCourse) :
  generate_recommendations (Some sd) df odf pdf cdf bdf extra = Ok (Some (rec, comp)) ->
  exists sd' matching,
    add_interests sd extra = Ok sd' /\
    find_matching_courses sd' df odf pdf cdf bdf = Ok matching /\
    partition_courses matching = (rec, comp).
Proof.
  unfold generate_recommendations.
  destruct (add_interests sd extra) as [sd'|]; [|discriminate]. simpl.
  destruct (find_matching_courses sd' df odf pdf cdf bdf) as [matching|] eqn:Hf;
    [|discriminate].
  simpl. intros [= H]. exists sd', matching. auto.
Qed.

Lemma add_interests_fields (sd sd' : StudentData) (extra : list string) :
  add_interests sd extra = Ok sd' ->
  semester sd' = semester sd /\ core_subjects sd' = core_subjects sd.
Proof.
  unfold add_interests. destruct extra; [now intros [= <-]|].
  destruct (interests sd); [now intros [= <-] | discriminate].
Qed.

Lemma partition_courses_filter (l : list MatchingCourse) :
  partition_courses l =
  (List.filter (fun m => negb (Qltb (mc_likelihood m) 0.3)) l,
   List.filter (fun m => Qltb (mc_likelihood m) 0.3) l).
Proof.
  induction l as [|c l IH]; simpl; [reflexivity|].
  rewrite IH. destruct (Qltb (mc_likelihood c) 0.3); reflexivity.
Qed.

Lemma filter_split_perm {A : Type} (f : A -> bool) (l : list A) :
  Permutation (List.filter (fun x => negb (f x)) l ++ List.filter f l) l.
Proof.
  induction l as [|a l IH]; simpl; [constructor|].
  destruct (f a); simpl.
  - symmetry. apply Permutation_cons_app. now symmetry.
  - now constructor.
Qed.

(** The split loses no course and keeps the ranking: the recommended list
    is the ranked output without the entries of likelihood below 0.3, the
    highly competitive list is the ranked output without the others. *)
Theorem recommendations_split_in_order
    (sd : StudentData) (df : list Subject) (odf : DataFrame Outcome) (pdf : list Prereq)
    (cdf : list Coreq) (bdf : option (list BurnoutRow)) (extra : list string)
    (rec comp : list MatchingCourse) :
  generate_recommendations (Some sd) df odf pdf cdf bdf extra = Ok (Some (rec, comp)) ->
  exists sd' matching,
    add_interests sd extra = Ok sd' /\
    find_matching_courses sd' df odf pdf cdf bdf = Ok matching /\
    rec = List.filter (fun m => negb (Qltb (mc_likelihood m) 0.3)) matching /\
    comp = List.filter (fun m => Qltb (mc_likelihood m) 0.3) matching /\
    Permutation (rec ++ comp) matching.
Proof.
  intros Hg. apply generate_recommendations_inv in Hg as (sd' & matching & Ha & Hf & Hp).
  rewrite partition_courses_filter in Hp. injection Hp as <- <-.
  exists sd', matching. repeat split; try assumption. apply filter_split_perm.
Qed.

Lemma recommendations_split_in_order_witness :
  let sd := sample_student "CS5002" (CC_set ∅) "computer science" in
  exists rec comp matching,
    generate_recommendations (Some sd) [cs5001; cs5002; cs5003] NoColumns [] [] None []
    = Ok (Some (rec, comp)) /\
    length rec = 1%nat /\ length comp = 2%nat /\ Permutation (rec ++ comp) matching.
Proof.
  intros sd.
  destruct (generate_recommendations (Some sd) [cs5001; cs5002; cs5003] NoColumns [] [] None [])
    as [[[rec comp]|]|] eqn:Hg; try (vm_compute in Hg; discriminate Hg).
  destruct (recommendations_split_in_order sd _ _ _ _ _ _ rec comp Hg)
    as (sd' & matching & _ & _ & _ & _ & Hperm).
  exists rec, comp, matching. split; [reflexivity|].
  vm_compute in Hg. injection Hg as <- <-. repeat split. exact Hperm.
Defined.

Lemma recommended_entry
    (sd : StudentData) (df : list Subject) (odf : DataFrame Outcome) (pdf : list Prereq)
    (cdf : list Coreq) (bdf : option (list BurnoutRow)) (extra : list string)
    (rec comp : list MatchingCourse) (s : Q) (m : MatchingCourse) :
  generate_recommendations (Some sd) df odf pdf cdf bdf extra = Ok (Some (rec, comp)) ->
  semester sd = Some s -> In m rec ->
  0.3 <= mc_likelihood m /\
  mc_likelihood m
  = calculate_enrollment_likelihood s (mc_is_core m) (mc_seats m) (mc_enrollments m).
Proof.
  intros Hg Hs Hin.
  apply generate_recommendations_inv in Hg as (sd' & matching & Ha & Hf & Hp).
  destruct (partition_courses_In _ _ _ Hp m) as [Hr _].
  apply Hr in Hin as [Hin Hl]. apply Qltb_ge in Hl. split; [exact Hl|].
  destruct (find_matching_courses_entry _ _ _ _ _ _ _ _ Hf Hin) as (i & course & _ & _ & Hm).
  destruct (match_course_Some _ _ _ _ _ _ Hm) as (_ & _ & Hcore & Hlik).
  destruct (match_course_fields _ _ _ _ _ _ Hm) as (Hseats & Henr & _).
  rewrite Hlik, Hcore, Hseats, Henr. unfold course_likelihood.
  destruct (add_interests_fields _ _ _ Ha) as [-> _]. rewrite Hs. reflexivity.
Qed.

(** When the semester is a number, every recommended course has a free
    seat, and the status shown with it is never the one of a full class: a
    course whose seats are all taken, or that has no seat count, is highly
    competitive at best. *)
Theorem recommended_courses_have_free_seats
    (sd : StudentData) (df : list Subject) (odf : DataFrame Outcome) (pdf : list Prereq)
    (cdf : list Coreq) (bdf : option (list BurnoutRow)) (extra : list string)
    (rec comp : list MatchingCourse) (s : Q) (m : MatchingCourse) :
  generate_recommendations (Some sd) df odf pdf cdf bdf extra = Ok (Some (rec, comp)) ->
  semester sd = Some s -> In m rec ->
  0 < mc_seats m /\ mc_enrollments m < mc_seats m /\
  get_enrollment_status (mc_seats m) (mc_enrollments m) <> ClassFull.
Proof.
  intros Hg Hs Hin.
  destruct (recommended_entry _ _ _ _ _ _ _ _ _ _ _ Hg Hs Hin) as [Hl Heq].
  assert (Hfree : 0 < mc_seats m /\ mc_enrollments m < mc_seats m).
  { destruct (Qlt_le_dec 0 (mc_seats m)) as [H0|H0];
      destruct (Qlt_le_dec (mc_enrollments m) (mc_seats m)) as [H1|H1]; auto; exfalso;
      [ pose proof (full_course_likelihood s (mc_is_core m) _ _ (or_intror H1)) as Hf
      | pose proof (full_course_likelihood s (mc_is_core m) _ (mc_enrollments m)
                      (or_introl H0)) as Hf
      | pose proof (full_course_likelihood s (mc_is_core m) _ (mc_enrollments m)
                      (or_introl H0)) as Hf ];
      rewrite <- Heq in Hf; Lqa.lra. }
  destruct Hfree as [H0 H1]. split; [exact H0|]. split; [exact H1|].
  unfold get_enrollment_status.
  destruct (Qle_bool (mc_seats m) 0 || Qle_bool (mc_enrollments m) 0); [discriminate|].
  destruct (Qle_bool 1 (mc_enrollments m / mc_seats m)) eqn:E.
  - exfalso. apply Qle_bool_iff in E.
    assert (Hr : mc_enrollments m / mc_seats m < 1).
    { apply Qlt_shift_div_r; [exact H0 | Lqa.lra]. }
    Lqa.lra.
  - destruct (Qle_bool 0.9 _); [discriminate|]. destruct (Qle_bool 0.75 _); discriminate.
Qed.

Lemma recommended_courses_have_free_seats_witness :
  let sd := sample_student "CS5002" (CC_set ∅) "computer science" in
  exists m comp,
    generate_recommendations (Some sd) [cs5001; cs5002; cs5003] NoColumns [] [] None []
    = Ok (Some ([m], comp)) /\
    mc_subject_code m = "CS5003" /\ 0 < mc_seats m /\ mc_enrollments m < mc_seats m.
Proof.
  intros sd.
  destruct (generate_recommendations (Some sd) [cs5001; cs5002; cs5003] NoColumns [] [] None [])
    as [[[[|m [|]] comp]|]|] eqn:Hg; try (vm_compute in Hg; discriminate Hg).
  exists m, comp. split; [reflexivity|]. split.
  - vm_compute in Hg. injection Hg as <- _. reflexivity.
  - destruct (recommended_courses_have_free_seats sd _ _ _ _ _ _ _ _ 4 m Hg eq_refl
                (or_introl eq_refl)) as (H0 & H1 & _). auto.
Defined.

(** For a student in the first semester the recommended list holds core
    subjects only (enrollment counts not being negative): every other
    course has likelihood at most 0.25 and is highly competitive. *)
Theorem first_semester_recommends_core_only
    (sd : StudentData) (df : list Subject) (odf : DataFrame Outcome) (pdf : list Prereq)
    (cdf : list Coreq) (bdf : option (list BurnoutRow)) (extra : list string)
    (rec comp : list MatchingCourse) (s : Q) (m : MatchingCourse) :
  generate_recommendations (Some sd) df odf pdf cdf bdf extra = Ok (Some (rec, comp)) ->
  semester sd = Some s -> s <= 1 -> In m rec -> 0 <= mc_enrollments m ->
  mc_is_core m = true.
Proof.
  intros Hg Hs Hs1 Hin He.
  destruct (recommended_entry _ _ _ _ _ _ _ _ _ _ _ Hg Hs Hin) as [Hl Heq].
  destruct (mc_is_core m) eqn:Hc; [reflexivity|]. exfalso.
  pose proof (first_semester_likelihood s (mc_seats m) (mc_enrollments m) Hs1 He) as Hf.
  rewrite <- Heq in Hf. Lqa.lra.
Qed.

Lemma first_semester_recommends_core_only_witness :
  exists m comp,
    generate_recommendations (Some first_semester_student) [cs5001; cs5002; cs5003]
                             NoColumns [] [] None []
    = Ok (Some ([m], comp)) /\
    length comp = 1%nat /\ mc_subject_code m = "CS5003" /\ mc_is_core m = true.
Proof.
  destruct (generate_recommendations (Some first_semester_student) [cs5001; cs5002; cs5003]
                                     NoColumns [] [] None [])
    as [[[[|m [|]] comp]|]|] eqn:Hg; try (vm_compute in Hg; discriminate Hg).
  exists m, comp. split; [reflexivity|].
  assert (Hm : length comp = 1%nat /\ mc_subject_code m = "CS5003" /\ 0 <= mc_enrollments m).
  { vm_compute in Hg. injection Hg as <- <-. repeat split. discriminate. }
  destruct Hm as (Hl & Hcode & He). repeat split; try assumption.
  exact (first_semester_recommends_core_only first_semester_student _ _ _ _ _ _ _ _ 1 m Hg
           eq_refl (Qle_refl 1) (or_introl eq_refl) He).
Defined.

End SplitProperties.

(** ** Interests: empty items and additional interests *)

Section InterestProperties.
Local Open Scope Q_scope.

Lemma contains_empty (hay : string) : contains "" hay = true.
Proof. destruct hay; reflexivity. Qed.

Lemma interest_step_mono (n o : string) (st : Scored) (x : string) :
  fst st <= fst (interest_step n o st x).
Proof.
  unfold interest_step, add_score.
  destruct (contains x n), (contains x o); simpl; Lqa.lra.
Qed.

Lemma interest_step_empty (n o : string) (st : Scored) :
  fst st + 0.7 <= fst (interest_step n o st "").
Proof.
  unfold interest_step, add_score. rewrite !contains_empty. simpl. Lqa.lra.
Qed.

Lemma fold_interest_mono (n o : string) (ints : list string) (st : Scored) :
  fst st <= fst (fold_left (interest_step n o) ints st).
Proof.
  revert st. induction ints as [|x ints IH]; intros st; simpl; [apply Qle_refl|].
  eapply Qle_trans; [apply (interest_step_mono n o st x) | apply IH].
Qed.

Lemma fold_interest_empty (n o : string) (ints : list string) (st : Scored) :
  In "" ints -> fst st + 0.7 <= fst (fold_left (interest_step n o) ints st).
Proof.
  revert st. induction ints as [|x ints IH]; intros st; simpl; [tauto|].
  intros [->|Hin].
  - eapply Qle_trans; [apply interest_step_empty | apply fold_interest_mono].
  - eapply Qle_trans; [|apply (IH _ Hin)].
    pose proof (interest_step_mono n o st x). Lqa.lra.
Qed.

Lemma keyword_step_mono (o : string) (st : Scored) (x : string) :
  fst st <= fst (keyword_step o st x).
Proof.
  unfold keyword_step. destruct (interest_keywords !! x) as [kws|]; [|apply Qle_refl].
  revert st. induction kws as [|kw kws IH]; intros st; simpl; [apply Qle_refl|].
  eapply Qle_trans; [|apply IH].
  unfold add_score. destruct (contains kw o); simpl; Lqa.lra.
Qed.

Lemma fold_keyword_mono (o : string) (ints : list string) (st : Scored) :
  fst st <= fst (fold_left (keyword_step o) ints st).
Proof.
  revert st. induction ints as [|x ints IH]; intros st; simpl; [apply Qle_refl|].
  eapply Qle_trans; [apply (keyword_step_mono o st x) | apply IH].
Qed.

Lemma course_score_empty_interest
    (sd : StudentData) (ints : list string) (pdf : list Prereq) (course : Subject) :
  In "" ints -> 0.35 <= fst (course_score sd ints pdf None course).
Proof.
  intros Hin. unfold course_score. cbn [burnout_row_of burnout_step].
  set (n := lower (name course)).
  set (o := match course_outcomes course with Some o => lower o | None => "" end).
  pose proof (fold_interest_empty n o ints (0, []) Hin) as H1.
  pose proof (fold_keyword_mono o ints (fold_left (interest_step n o) ints (0, []))) as H2.
  set (st := fold_left (keyword_step o) ints _) in *.
  unfold prereq_step.
  destruct (negb (prerequisites_satisfied (subject_code course) sd pdf)); simpl in *; Lqa.lra.
Qed.

(** An empty item among the interests (as after a trailing comma) is a
    substring of every course name: without a burnout table, every course
    that is not completed is then in the output, with a score of at least
    0.35. *)
Theorem empty_interest_matches_every_course
    (sd : StudentData) (df : list Subject) (odf : DataFrame Outcome) (pdf : list Prereq)
    (cdf : list Coreq) (i : string) (course : Subject) :
  interests sd = Some i -> In "" (student_interests_of i) ->
  In course df -> py_in (subject_code course) (completed_courses sd) = false ->
  exists out m,
    find_matching_courses sd df odf pdf cdf None = Ok out /\ In m out /\
    mc_subject_code m = subject_code course /\ 0.35 <= mc_match_score m.
Proof.
  intros Hi Hempty Hc Hn.
  pose proof (course_score_empty_interest sd (student_interests_of i) pdf course Hempty) as Hs.
  unfold find_matching_courses. rewrite Hi.
  assert (Hm : exists m,
    match_course sd (student_interests_of i) pdf None course = Some m /\
    mc_subject_code m = subject_code course /\ 0.35 <= mc_match_score m).
  { unfold match_course. rewrite Hn.
    set (st := course_score sd (student_interests_of i) pdf None course) in *.
    assert (Ht : Qltb 0.3 (fst st) = true) by (apply Qltb_lt; Lqa.lra).
    rewrite Ht. cbn [orb]. eexists. split; [reflexivity|].
    cbn [mc_subject_code mc_match_score]. split; [reflexivity|].
    destruct (is_core_subject sd (subject_code course)); cbn [add_score fst]; Lqa.lra. }
  destruct Hm as (m & Hm & Hcode & Hscore).
  eexists. exists m. split; [reflexivity|]. split; [|auto].
  apply sort_by_In, matching_loop_In. exists course. auto.
Qed.

Lemma empty_interest_matches_every_course_witness :
  let sd := sample_student "" (CC_set ∅) "robotics," in
  exists out m,
    In "" (student_interests_of "robotics,") /\
    find_matching_courses sd [cs5001; cs5002] NoColumns [] [] None = Ok out /\ In m out /\
    mc_subject_code m = "CS5002" /\ 0.35 <= mc_match_score m.
Proof.
  intros sd.
  assert (He : In "" (student_interests_of "robotics,")) by (vm_compute; auto).
  destruct (empty_interest_matches_every_course sd [cs5001; cs5002] NoColumns [] [] "robotics,"
              cs5002 eq_refl He (or_intror (or_introl eq_refl)) eq_refl)
    as (out & m & Hf & Hin & Hcode & Hs).
  exists out, m. auto.
Defined.

Lemma split_nonempty (sep : ascii) (s : string) : split sep s <> [].
Proof.
  destruct s as [|c s]; simpl; [discriminate|].
  destruct (Ascii.eqb c sep); [discriminate|].
  destruct (split sep s); discriminate.
Qed.

Lemma split_app_comma (s t : string) :
  split "," (s ++ "," ++ t) = app (split "," s) (split "," t).
Proof.
  change (s ++ "," ++ t) with (s ++ String "," t).
  induction s as [|c s IH]; [reflexivity|].
  change (String c s ++ String "," t) with (String c (s ++ String "," t)).
  cbn [split]. rewrite IH. destruct (Ascii.eqb c ","); [reflexivity|].
  destruct (split "," s) as [|w ws] eqn:E; [|reflexivity].
  exfalso. exact (split_nonempty _ _ E).
Qed.

Lemma split_join (l : list string) :
  l <> [] -> (forall x, In x l -> split "," x = [x]) -> split "," (join "," l) = l.
Proof.
  induction l as [|w l IH]; [congruence|]. intros _ Hitems.
  destruct l as [|w2 ws].
  - simpl. apply Hitems. now left.
  - change (join "," (w :: w2 :: ws)) with (w ++ "," ++ join "," (w2 :: ws)).
    rewrite split_app_comma, IH, (Hitems w) by (try discriminate; simpl in *; auto).
    reflexivity.
Qed.

(** Additional interests that hold no comma are appended to the interests
    of the student: the interests matched are the items of the student's
    own interests followed by the additional ones, all lower-cased and
    stripped, and the defaults are not used. *)
Theorem additional_interests_are_appended
    (sd : StudentData) (i : string) (extra : list string) :
  interests sd = Some i -> extra <> [] ->
  (forall x, In x extra -> split "," x = [x]) ->
  exists sd' i',
    add_interests sd extra = Ok sd' /\ interests sd' = Some i' /\
    student_interests_of i'
    = map (fun x => strip (lower x)) (app (split "," i) extra).
Proof.
  intros Hi Hne Hitems. unfold add_interests. rewrite Hi.
  destruct extra as [|e es] eqn:E; [congruence|]. rewrite <- E in *.
  do 2 eexists. split; [reflexivity|]. split; [reflexivity|].
  unfold student_interests_of.
  rewrite split_app_comma, (split_join extra Hne Hitems).
  destruct (split "," i) as [|a l] eqn:Es; [exfalso; exact (split_nonempty _ _ Es)|].
  subst extra. destruct l; reflexivity.
Qed.

Lemma additional_interests_are_appended_witness :
  exists sd' i',
    add_interests (sample_student "" (CC_set ∅) "AI, Data Science") ["Web"; "security "]
    = Ok sd' /\ interests sd' = Some i' /\
    student_interests_of i' = ["ai"; "data science"; "web"; "security"].
Proof.
  destruct (additional_interests_are_appended
              (sample_student "" (CC_set ∅) "AI, Data Science") "AI, Data Science"
              ["Web"; "security "] eq_refl)
    as (sd' & i' & Ha & Hi & Hs).
  - discriminate.
  - intros x [<-|[<-|[]]]; reflexivity.
  - exists sd', i'. repeat split; assumption.
Defined.

End InterestProperties.

(** ** The student file *)

Section StudentFileProperties.

Lemma upper_char_idempotent (c : ascii) : upper_char (upper_char c) = upper_char c.
Proof. destruct c as [[] [] [] [] [] [] [] []]; reflexivity. Qed.

Lemma upper_char_comma (c : ascii) : Ascii.eqb (upper_char c) "," = Ascii.eqb c ",".
Proof. destruct c as [[] [] [] [] [] [] [] []]; reflexivity. Qed.

Lemma upper_idempotent (s : string) : upper (upper s) = upper s.
Proof.
  unfold upper. induction s as [|c s IH]; simpl; [reflexivity|].
  now rewrite upper_char_idempotent, IH.
Qed.

Lemma split_upper (s : string) : split "," (upper s) = map upper (split "," s).
Proof.
  unfold upper. induction s as [|c s IH]; simpl; [reflexivity|].
  rewrite upper_char_comma, IH. destruct (Ascii.eqb c ","); [reflexivity|].
  destruct (split "," s); reflexivity.
Qed.

(** What [get_student_data] returns on a file whose four columns have a
    first row. *)
Lemma get_student_data_Some
    (file : StudentFile) (sem : option Q) (nuid : string)
    (completed_cell core_cell wanted_cell : option string) :
  column_iloc0 (sf_NUid file) = Ok nuid ->
  column_iloc0 (sf_completed_courses file) = Ok completed_cell ->
  column_iloc0 (sf_core_subjects file) = Ok core_cell ->
  column_iloc0 (sf_desired_outcomes file) = Ok wanted_cell ->
  exists sd,
    get_student_data (Some file) sem = Ok (Some sd) /\
    interests sd = Some (match wanted_cell with Some d => d | None => "computer science" end).
Proof.
  intros H1 H2 H3 H4. unfold get_student_data. rewrite H1, H2, H3, H4. cbn [bind].
  eexists. split; reflexivity.
Qed.

Lemma generate_recommendations_returns
    (sd : StudentData) (i : string) (df : list Subject) (odf : DataFrame Outcome)
    (pdf : list Prereq) (cdf : list Coreq) (bdf : option (list BurnoutRow))
    (extra : list string) :
  interests sd = Some i ->
  exists recommended competitive,
    generate_recommendations (Some sd) df odf pdf cdf bdf extra
    = Ok (Some (recommended, competitive)).
Proof.
  intros Hi. unfold generate_recommendations.
  assert (Ha : exists sd' i', add_interests sd extra = Ok sd' /\ interests sd' = Some i').
  { unfold add_interests. rewrite Hi. destruct extra; eauto. }
  destruct Ha as (sd' & i' & -> & Hi'). cbn [bind].
  unfold find_matching_courses. rewrite Hi'. cbn [bind].
  destruct (partition_courses _) as [rec comp]. eauto.
Qed.


(** A student file with its header and no row, and one without the
    [core_subjects] column. *)
Example get_student_data_no_row :
  get_student_data (Some (mkStudentFile (Some []) (Some []) (Some []) (Some []))) (Some 4%Q)
  = Raise IndexError /\
  get_student_data
    (Some (mkStudentFile (Some ["12345"]) (Some [Some "CS5001"]) None (Some [None])))
    (Some 4%Q)
  = Raise KeyError.
Proof. split; reflexivity. Qed.

Lemma student_file_completed
    (file : StudentFile) (sem : option Q) (sd : StudentData) (code : string) :
  get_student_data (Some file) sem = Ok (Some sd) ->
  py_in code (completed_courses sd) = true ->
  exists cell item,
    column_iloc0 (sf_completed_courses file) = Ok (Some cell) /\
    In item (split "," cell) /\ code = upper item.
Proof.
  unfold get_student_data.
  destruct (column_iloc0 (sf_NUid file)) as [nuid|e]; [|discriminate].
  destruct (column_iloc0 (sf_completed_courses file)) as [cc|e]; [|discriminate].
  destruct (column_iloc0 (sf_core_subjects file)) as [core|e]; [|discriminate].
  destruct (column_iloc0 (sf_desired_outcomes file)) as [wanted|e]; [|discriminate].
  cbn [bind]. intros [= <-]. cbn. rewrite bool_decide_eq_true.
  destruct cc as [cell|]; [|intros H; now apply not_elem_of_empty in H].
  destruct (nonempty (strip cell)); [|intros H; now apply not_elem_of_empty in H].
  intros H. apply elem_of_list_to_set, list_elem_of_In, in_map_iff in H as (item & <- & Hin).
  exists cell, item. auto.
Qed.

Lemma student_file_core
    (file : StudentFile) (sem : option Q) (sd : StudentData) (code : string) :
  get_student_data (Some file) sem = Ok (Some sd) ->
  is_core_subject sd code = true ->
  exists core_cell item,
    column_iloc0 (sf_core_subjects file) = Ok core_cell /\
    In item (split "," (str_of_cell core_cell)) /\ code = upper item.
Proof.
  unfold get_student_data.
  destruct (column_iloc0 (sf_NUid file)) as [nuid|e]; [|discriminate].
  destruct (column_iloc0 (sf_completed_courses file)) as [cc|e]; [|discriminate].
  destruct (column_iloc0 (sf_core_subjects file)) as [core|e]; [|discriminate].
  destruct (column_iloc0 (sf_desired_outcomes file)) as [wanted|e]; [|discriminate].
  cbn [bind]. intros [= <-].
  unfold is_core_subject. cbn [standardize_student_data core_subjects].
  rewrite split_upper, in_list_In, in_map_iff.
  intros (item & <- & Hin). exists core, item. auto.
Qed.

(** The codes that [get_student_data] records as completed are the items
    between the commas of the first cell of the completed column,
    upper-cased and not stripped, and the core codes are those of the
    upper-cased first core cell: a code with a lower-case letter is neither
    skipped as completed nor treated as core. *)
Theorem student_file_codes
    (file : StudentFile) (sem : option Q) (sd : StudentData) (code : string) :
  get_student_data (Some file) sem = Ok (Some sd) ->
  (py_in code (completed_courses sd) = true ->
   exists cell item,
     column_iloc0 (sf_completed_courses file) = Ok (Some cell) /\
     In item (split "," cell) /\
     code = upper item) /\
  (is_core_subject sd code = true ->
   exists core_cell item,
     column_iloc0 (sf_core_subjects file) = Ok core_cell /\
     In item (split "," (str_of_cell core_cell)) /\ code = upper item) /\
  (py_in code (completed_courses sd) = true \/ is_core_subject sd code = true ->
   upper code = code).
Proof.
  intros Hg.
  pose proof (student_file_completed file sem sd code Hg) as Hcompleted.
  pose proof (student_file_core file sem sd code Hg) as Hcore.
  split; [exact Hcompleted|]. split; [exact Hcore|].
  intros [H|H].
  - destruct (Hcompleted H) as (cell & item & _ & _ & ->). apply upper_idempotent.
  - destruct (Hcore H) as (core_cell & item & _ & _ & ->). apply upper_idempotent.
Qed.

Lemma student_file_codes_witness :
  let file := mkStudentFile (Some ["12345"]) (Some [Some "cs5001, CS5002"])
                            (Some [Some "cs5003"]) (Some [None]) in
  exists sd,
    get_student_data (Some file) (Some 4%Q) = Ok (Some sd) /\
    py_in "CS5001" (completed_courses sd) = true /\
    py_in " CS5002" (completed_courses sd) = true /\
    py_in "CS5002" (completed_courses sd) = false /\
    upper "CS5001" = "CS5001".
Proof.
  intros file.
  destruct (get_student_data (Some file) (Some 4%Q)) as [[sd|]|e] eqn:Hg;
    [|discriminate Hg|discriminate Hg].
  assert (H1 : py_in "CS5001" (completed_courses sd) = true).
  { injection Hg as <-. reflexivity. }
  exists sd. split; [reflexivity|]. split; [exact H1|].
  split; [injection Hg as <-; reflexivity|]. split; [injection Hg as <-; reflexivity|].
  exact (proj2 (proj2 (student_file_codes file (Some 4%Q) sd "CS5001" Hg)) (or_introl H1)).
Defined.

End StudentFileProperties.

(** ** The tables extracted by load_subject_data *)

Section LoaderProperties.

Example split_comma_space_ex :
  split_comma_space "Python, Java,C++" = ["Python"; "Java,C++"] /\
  split_comma_space "" = [""] /\ split_comma_space "a,, b" = ["a,"; "b"].
Proof. repeat split; reflexivity. Qed.

Lemma cell_requirements_In (code : string) (cell : option string) (type : string)
    (r : Requirement) :
  In r (cell_requirements code cell type) ->
  req_subject_code r = code /\ req_type r = type /\
  exists reqs, cell = Some reqs /\ reqs <> "None".
Proof.
  unfold cell_requirements. destruct cell as [reqs|]; [|intros []].
  destruct (String.eqb_spec reqs "None") as [E|E]; [intros []|].
  intros H. apply in_map_iff in H as (req & <- & _). simpl. eauto.
Qed.

(** Every requirement row that the loader builds belongs to a subject of
    the file and has type "programming" or "math"; a subject whose two
    requirement cells are empty or hold the text None gets no row. *)
Theorem extracted_requirements
    (df : list RawSubject) (code : string) :
  (forall r, In r (extract_requirements df) ->
     In (req_subject_code r) (map raw_Subject df) /\
     (req_type r = "programming" \/ req_type r = "math")) /\
  ((forall row, In row df -> raw_Subject row = code ->
      (raw_programming_knowledge row = None \/ raw_programming_knowledge row = Some "None") /\
      (raw_math_requirements row = None \/ raw_math_requirements row = Some "None")) ->
   subject_reqs (extract_requirements df) code = []).
Proof.
  split.
  - intros r Hr. unfold extract_requirements in Hr.
    apply in_flat_map in Hr as (row & Hrow & Hr). apply in_app_or in Hr.
    destruct Hr as [Hr|Hr]; apply cell_requirements_In in Hr as (Hc & Ht & _);
      (split; [rewrite Hc; now apply in_map | auto]).
  - intros Hnone. unfold subject_reqs.
    destruct (List.filter _ (extract_requirements df)) as [|r rs] eqn:E; [reflexivity|].
    exfalso.
    assert (Hr : In r (List.filter
                         (fun r => String.eqb (req_subject_code r) code)
                         (extract_requirements df))) by (rewrite E; now left).
    apply filter_In in Hr as [Hr Hcode]. apply String.eqb_eq in Hcode.
    unfold extract_requirements in Hr. apply in_flat_map in Hr as (row & Hrow & Hr).
    apply in_app_or in Hr.
    destruct Hr as [Hr|Hr]; apply cell_requirements_In in Hr as (Hc & _ & reqs & Hcell & Hne);
      rewrite Hc in Hcode; destruct (Hnone row Hrow Hcode) as [[H|H] [H'|H']]; congruence.
Qed.

Lemma extracted_requirements_witness :
  let df := [mkRawSubject "CS5001" None None None (Some "Python, Java") (Some "None");
             mkRawSubject "CS5002" None None None (Some "None") None] in
  length (subject_reqs (extract_requirements df) "CS5001") = 2%nat /\
  subject_reqs (extract_requirements df) "CS5002" = [].
Proof.
  intros df. split; [reflexivity|].
  apply (proj2 (extracted_requirements df "CS5002")).
  intros row [<-|[<-|[]]]; simpl; intros H; try discriminate H. auto.
Defined.

Lemma prereqs_of_app (p q : list Prereq) (code : string) :
  prereqs_of (app p q) code = app (prereqs_of p code) (prereqs_of q code).
Proof. unfold prereqs_of. now rewrite List.filter_app, List.map_app. Qed.

Lemma extract_prereqs_In (df : list RawSubject) (code p : string) :
  In p (prereqs_of (extract_prereqs df) code) ->
  exists row,
    In row df /\ raw_Subject row = code /\ raw_Prerequisite row = Some p /\ p <> "None".
Proof.
  unfold prereqs_of. intros H. apply in_map_iff in H as (pr & <- & Hpr).
  apply filter_In in Hpr as [Hpr Hcode]. apply String.eqb_eq in Hcode.
  unfold extract_prereqs in Hpr. apply in_flat_map in Hpr as (row & Hrow & Hpr).
  exists row. destruct (raw_Prerequisite row) as [cell|]; [|destruct Hpr].
  destruct (String.eqb_spec cell "None") as [E|E]; [destruct Hpr|].
  destruct Hpr as [<-|[]]. simpl in *. auto.
Qed.

(** The prerequisite cell of a subject is taken whole, as one code: with
    pairwise different subject codes a subject has at most one prerequisite
    row, and a cell that lists several codes is one prerequisite whose code
    is the text of the cell. *)
Theorem extracted_prerequisites (df : list RawSubject) (code : string) :
  List.NoDup (map raw_Subject df) ->
  (length (prereqs_of (extract_prereqs df) code) <= 1)%nat /\
  (forall p, In p (prereqs_of (extract_prereqs df) code) ->
     exists row,
       In row df /\ raw_Subject row = code /\ raw_Prerequisite row = Some p /\ p <> "None").
Proof.
  intros Hnd. split; [|intros p; apply extract_prereqs_In].
  induction df as [|row df IH]; [simpl; lia|].
  apply List.NoDup_cons_iff in Hnd as [Hrow Hnd].
  change (extract_prereqs (row :: df))
    with (app (match raw_Prerequisite row with
               | None => []
               | Some cell =>
                   if String.eqb cell "None" then []
                   else [{| pre_subject_code := raw_Subject row;
                            prereq_subject_code := cell |}]
               end) (extract_prereqs df)).
  rewrite prereqs_of_app, length_app.
  destruct (String.eqb_spec (raw_Subject row) code) as [E|E].
  - assert (Hrest : prereqs_of (extract_prereqs df) code = []).
    { destruct (prereqs_of (extract_prereqs df) code) as [|p ps] eqn:Ep; [reflexivity|].
      exfalso. destruct (extract_prereqs_In df code p) as (row' & Hin & Hc & _).
      - rewrite Ep. now left.
      - apply Hrow. rewrite E, <- Hc. now apply in_map. }
    rewrite Hrest. simpl. rewrite Nat.add_0_r.
    destruct (raw_Prerequisite row) as [cell|]; [|simpl; lia].
    destruct (String.eqb cell "None"); [simpl; lia|].
    unfold prereqs_of. simpl. destruct (String.eqb (raw_Subject row) code); simpl; lia.
  - assert (Hhead : prereqs_of
        (match raw_Prerequisite row with
         | None => []
         | Some cell =>
             if String.eqb cell "None" then []
             else [{| pre_subject_code := raw_Subject row; prereq_subject_code := cell |}]
         end) code = []).
    { destruct (raw_Prerequisite row) as [cell|]; [|reflexivity].
      destruct (String.eqb cell "None"); [reflexivity|].
      unfold prereqs_of. simpl.
      destruct (String.eqb_spec (raw_Subject row) code); [congruence | reflexivity]. }
    rewrite Hhead. simpl. now apply IH.
Qed.

Lemma extracted_prerequisites_witness :
  let df := [mkRawSubject "CS5001" None (Some "None") None None None;
             mkRawSubject "CS5800" None (Some "CS5001, CS5002") None None None] in
  prereqs_of (extract_prereqs df) "CS5800" = ["CS5001, CS5002"] /\
  (length (prereqs_of (extract_prereqs df) "CS5800") <= 1)%nat.
Proof.
  intros df. split; [reflexivity|].
  apply (extracted_prerequisites df "CS5800").
  simpl. repeat constructor; simpl; intuition discriminate.
Defined.

End LoaderProperties.
